(** * Project-Mapreduce: the two MRJob pipelines, embedded and verified

    Shallow embedding of
      mapreduce/temperature_analysis.py    (class TemperatureAnalysis)
      mapreduce/precipitation_analysis.py  (class PrecipitationAnalysis)

    Conventions of the embedding.
    - A Python [str] is a [string] holding its UTF-8 bytes; only ASCII
      digits and ASCII white space are recognised as such.
    - A Python [int] is a [Z]; a Python [float] is an IEEE-754 binary64
      value, [spec_float] at precision 53 and maximal exponent 1024. The
      integer 0 that stands where the other values are floats (the start
      value of [sum], the [else 0] of an empty list) is the float +0.0.
    - A generator is the list of what it yields.
    - A value that travels between two steps is either a JSON document
      ([Json], the typed record that [json.dumps]/[json.loads] carry
      unchanged) or a plain text ([Text], the error messages, on which
      [json.loads] raises). The text of an error record is its fixed
      prefix; the message of the exception is left out.
    - An exception is a [None]: of the helper that raised it inside a
      [try] block, of the reducer when nothing catches it (the job then
      aborts).
    - MRJob promises neither the order of the groups nor that of the
      values of a group. [MRJob.grouping] is any grouping that it may
      hand to the reducer and [MRJob.outcome] what a step may give then;
      [MRJob.shuffle] is the grouping in the order of emission (the keys
      in the order in which they were first emitted, the values of a
      group in the order of emission) and [MRJob.step], [stage1], [run]
      what the steps give under it. What is stated of [run] alone and
      holds of floats or of the order of the lines holds under this
      grouping.
    - A [Text] stands for a text that is no JSON document, as the error
      messages are; a [Json] for a complete record of its type whose
      integers [json] can write. Values that [json.loads] reads but that
      are no such record are not represented.
    - A line of a result is the record of its columns, in the order of
      the [csv_line] of the source; the floats are not printed. *)

From Stdlib Require Import ZArith List String Ascii Bool Lia.
From Stdlib Require Import Permutation Sorted.
From Stdlib Require Import Floats.SpecFloat.
Import ListNotations.

Local Open Scope string_scope.
Local Open Scope Z_scope.

(* ================================================================== *)
(** * Python strings                                                   *)
(* ================================================================== *)

Module PyStr.

Definition underscore : ascii := "_"%char.

(** [sep in s] for a one-character separator. *)
Fixpoint contains (sep : ascii) (s : string) : bool :=
  match s with
  | EmptyString => false
  | String c r => Ascii.eqb c sep || contains sep r
  end.

(** Number of occurrences of [sep] in [s]. *)
Fixpoint count (sep : ascii) (s : string) : nat :=
  match s with
  | EmptyString => O
  | String c r => ((if Ascii.eqb c sep then 1 else 0) + count sep r)%nat
  end.

(** [s.split(sep)] for a one-character separator: never empty, one part
    more than there are separators. *)
Fixpoint split (sep : ascii) (s : string) : list string :=
  match s with
  | EmptyString => [EmptyString]
  | String c r =>
      if Ascii.eqb c sep then EmptyString :: split sep r
      else match split sep r with
           | [] => [String c EmptyString]
           | p :: ps => String c p :: ps
           end
  end.

(** [s.startswith(p)]. *)
Fixpoint startswith (p s : string) : bool :=
  match p, s with
  | EmptyString, _ => true
  | String a p', String b s' => Ascii.eqb a b && startswith p' s'
  | String _ _, EmptyString => false
  end.

Definition is_digit (c : ascii) : bool :=
  let n := Z.of_nat (nat_of_ascii c) in (48 <=? n) && (n <=? 57).

Definition digit_value (c : ascii) : Z := Z.of_nat (nat_of_ascii c) - 48.

(** The white space that [int] and [float] skip around a literal. *)
Definition is_space (c : ascii) : bool :=
  let n := Z.of_nat (nat_of_ascii c) in
  ((9 <=? n) && (n <=? 13)) || (n =? 32).

Fixpoint lstrip (s : string) : string :=
  match s with
  | String c r => if is_space c then lstrip r else s
  | EmptyString => EmptyString
  end.

Fixpoint rstrip (s : string) : string :=
  match s with
  | EmptyString => EmptyString
  | String c r =>
      match rstrip r with
      | EmptyString => if is_space c then EmptyString else String c EmptyString
      | r' => String c r'
      end
  end.

Definition strip (s : string) : string := rstrip (lstrip s).

Definition digit_char (d : Z) : ascii := ascii_of_nat (Z.to_nat (48 + d)).

(** Decimal digits of a non-negative number, most significant first;
    [fuel] bounds the number of digits. *)
Fixpoint digits_of (fuel : nat) (n : Z) (acc : string) : string :=
  match fuel with
  | O => acc
  | S fuel' =>
      let acc' := String (digit_char (n mod 10)) acc in
      if n <? 10 then acc' else digits_of fuel' (n / 10) acc'
  end.

(** [str(n)], which is also [f"{n}"]. *)
Definition str_of_int (n : Z) : string :=
  if n <? 0
  then String "-"%char (digits_of (S (Z.to_nat (Z.log2 (- n)))) (- n) EmptyString)
  else digits_of (S (Z.to_nat (Z.log2 n))) n EmptyString.

(** [f"{n:02d}"]: zero-padded on the left to width two. *)
Definition format_02d (n : Z) : string :=
  let s := str_of_int n in
  if (String.length s <? 2)%nat then String "0"%char s else s.

(** The digit part of an integer literal: digits, single underscores only
    between two digits. [prev] tells whether the previous character was a
    digit. *)
Fixpoint digits_value (s : string) (prev : bool) (acc : Z) : option Z :=
  match s with
  | EmptyString => if prev then Some acc else None
  | String c r =>
      if is_digit c then digits_value r true (10 * acc + digit_value c)
      else if Ascii.eqb c underscore && prev then digits_value r false acc
      else None
  end.

(** The longest literal that [int] reads and the longest number that
    [str] and the formats write, in digits ([sys.int_info], from
    CPython 3.11 on): beyond it both raise [ValueError]. *)
Definition max_str_digits : Z := 4300.

Fixpoint count_digits (s : string) : Z :=
  match s with
  | EmptyString => 0
  | String c r => (if is_digit c then 1 else 0) + count_digits r
  end.

(** The integers that [str(n)], [f"{n}"] and [json.dumps] write. *)
Definition printable (n : Z) : Prop := Z.abs n < 10 ^ max_str_digits.

(** [int(s)] in base ten; [None] is [ValueError]. *)
Definition int_of_str (s : string) : option Z :=
  if max_str_digits <? count_digits s then None
  else
    match strip s with
    | String c r =>
        if Ascii.eqb c "-"%char then option_map Z.opp (digits_value r false 0)
        else if Ascii.eqb c "+"%char then digits_value r false 0
        else digits_value (String c r) false 0
    | EmptyString => None
    end.

End PyStr.


(* ================================================================== *)
(** * Python floats: IEEE-754 binary64                                 *)
(* ================================================================== *)

Module PyFloat.

Definition float := spec_float.

Definition prec : Z := 53.
Definition emax : Z := 1024.

Definition zero : float := S754_zero false.
Definition nan : float := S754_nan.

(** [float(n)] for an [int] n, rounded to nearest, ties to even (an
    infinity where Python raises [OverflowError]; the jobs convert lengths
    of lists only). *)
Definition of_int (n : Z) : float := binary_normalize prec emax n 0 false.

(** [x + y]. *)
Definition add (x y : float) : float := SFadd prec emax x y.

(** [x / y]; [None] is [ZeroDivisionError]. *)
Definition div (x y : float) : option float :=
  match y with
  | S754_zero _ => None
  | _ => Some (SFdiv prec emax x y)
  end.

(** [x > y] and [x < y]; both are false when an operand is NaN. *)
Definition gt (x y : float) : bool := SFltb y x.
Definition lt (x y : float) : bool := SFltb x y.

(** [sum(l)]: the additions are done left to right, each one rounded,
    starting from the integer 0, which the first addition turns into
    +0.0. This is the loop of the built-in [sum] up to CPython 3.11; later
    versions carry a compensation term along. *)
Definition sum (l : list float) : float := fold_left add l zero.

(** [max(l)], [min(l)]: the first element is kept until a later one
    compares strictly greater (smaller); [None] is the [ValueError] on an
    empty list. *)
Definition max (l : list float) : option float :=
  match l with
  | [] => None
  | x :: r => Some (fold_left (fun m y => if gt y m then y else m) r x)
  end.

Definition min (l : list float) : option float :=
  match l with
  | [] => None
  | x :: r => Some (fold_left (fun m y => if lt y m then y else m) r x)
  end.

(** Nearest integer to [num / den] ([den] positive), ties to even. *)
Definition round_half_even (num den : Z) : Z :=
  let q := num / den in
  let r := num mod den in
  match 2 * r ?= den with
  | Lt => q
  | Gt => q + 1
  | Eq => if Z.even q then q else q + 1
  end.

(** The float nearest to [m * 10 ^ e] (m positive), ties to even: what
    reading a decimal literal gives. *)
Definition of_decimal (s : bool) (m : positive) (e : Z) : float :=
  if 0 <=? e
  then binary_normalize prec emax
         (if s then Z.neg m * 10 ^ e else Z.pos m * 10 ^ e) 0 false
  else match 10 ^ (- e) with
       | Z.pos d => SFdiv prec emax (S754_finite s m 0) (S754_finite false d 0)
       | _ => nan
       end.

(** [round(x, 2)]: the exact value of x is rounded to two decimals, ties
    to even, and the decimal result is read back as a float. Infinities
    and NaN are returned unchanged, the sign of a zero result is that of
    x. *)
Definition round2 (x : float) : float :=
  match x with
  | S754_finite s m e =>
      let k := if 0 <=? e then Z.pos m * 100 * 2 ^ e
               else round_half_even (Z.pos m * 100) (2 ^ (- e)) in
      match k with
      | Z.pos p => of_decimal s p (-2)
      | _ => S754_zero s
      end
  | _ => x
  end.

(** ** Reading a float: [float(s)] *)

Definition lower (c : ascii) : ascii :=
  let n := nat_of_ascii c in
  if ((65 <=? n) && (n <=? 90))%nat then ascii_of_nat (n + 32) else c.

Fixpoint lower_str (s : string) : string :=
  match s with
  | EmptyString => EmptyString
  | String c r => String (lower c) (lower_str r)
  end.

(** Underscores may only stand between two digits; they are removed
    before the literal is read. [prev] is the previous character. *)
Fixpoint remove_underscores (s : string) (prev : ascii) : option string :=
  match s with
  | EmptyString =>
      if Ascii.eqb prev PyStr.underscore then None else Some EmptyString
  | String c r =>
      if Ascii.eqb c PyStr.underscore
      then if PyStr.is_digit prev then remove_underscores r c else None
      else if Ascii.eqb prev PyStr.underscore && negb (PyStr.is_digit c)
           then None
           else option_map (String c) (remove_underscores r c)
  end.

(** Leading digits of [s]: accumulated value, how many, and the rest. *)
Fixpoint take_digits (s : string) (acc : Z) (n : Z) : Z * Z * string :=
  match s with
  | String c r =>
      if PyStr.is_digit c
      then take_digits r (10 * acc + PyStr.digit_value c) (n + 1)
      else (acc, n, s)
  | EmptyString => (acc, n, s)
  end.

(** The exponent part, after the [e]: optional sign, at least one digit,
    nothing after. *)
Definition exponent (s : string) : option Z :=
  let '(neg, s1) :=
    match s with
    | String "-"%char r => (true, r)
    | String "+"%char r => (false, r)
    | _ => (false, s)
    end in
  match take_digits s1 0 0 with
  | (v, n, EmptyString) =>
      if 0 <? n then Some (if neg then - v else v) else None
  | _ => None
  end.

(** An unsigned decimal literal: value [m * 10 ^ e] as [(m, e)]. *)
Definition decimal_literal (s : string) : option (Z * Z) :=
  let '(ip, ni, s1) := take_digits s 0 0 in
  let '(m, nf, s2) :=
    match s1 with
    | String "."%char r => take_digits r ip 0
    | _ => (ip, 0, s1)
    end in
  if ni + nf =? 0 then None
  else match s2 with
       | EmptyString => Some (m, - nf)
       | String c r =>
           if Ascii.eqb (lower c) "e"%char
           then option_map (fun x => (m, x - nf)) (exponent r)
           else None
       end.

(** [float(s)] for a [str] s; [None] is [ValueError]. *)
Definition of_str (s : string) : option float :=
  match remove_underscores s Ascii.zero with
  | None => None
  | Some s0 =>
      let s1 := PyStr.strip s0 in
      let '(neg, s2) :=
        match s1 with
        | String "-"%char r => (true, r)
        | String "+"%char r => (false, r)
        | _ => (false, s1)
        end in
      let w := lower_str s2 in
      if String.eqb w "inf" || String.eqb w "infinity"
      then Some (S754_infinity neg)
      else if String.eqb w "nan" then Some nan
      else match decimal_literal s2 with
           | Some (Z.pos m, e) => Some (of_decimal neg m e)
           | Some (_, _) => Some (S754_zero neg)
           | None => None
           end
  end.

End PyFloat.

(* ================================================================== *)
(** * The library calls of the parsers                                 *)
(* ================================================================== *)

(** ** [csv.reader([line])] followed by [next(reader)]

    The reader of the [csv] module for the default ("excel") dialect:
    delimiter comma, quote character 34 doubled inside a quoted field, no
    escape character, not strict. *)

Module Csv.

Inductive state :=
| START_RECORD | START_FIELD | IN_FIELD
| IN_QUOTED_FIELD | QUOTE_IN_QUOTED_FIELD | EAT_CRNL.

Record reader := mkReader {
  st : state;
  field : string;          (* the field being read *)
  fields : list string     (* the fields read, first one first *)
}.

Definition delimiter : ascii := ","%char.
Definition quotechar : ascii := ascii_of_nat 34.
Definition field_limit : Z := 131072.

Definition is_newline (c : ascii) : bool :=
  Ascii.eqb c (ascii_of_nat 10) || Ascii.eqb c (ascii_of_nat 13).

(** [parse_add_char]; [None] is the error on a field over the limit. *)
Definition add_char (r : reader) (c : ascii) (s : state) : option reader :=
  if field_limit <=? Z.of_nat (String.length (field r)) then None
  else Some (mkReader s (field r ++ String c EmptyString) (fields r)).

(** [parse_save_field]. *)
Definition save_field (r : reader) (s : state) : reader :=
  mkReader s EmptyString (fields r ++ [field r])%list.

Definition goto (r : reader) (s : state) : reader :=
  mkReader s (field r) (fields r).

Definition start_field (r : reader) (c : option ascii) : option reader :=
  match c with
  | None => Some (save_field r START_RECORD)
  | Some c =>
      if is_newline c then Some (save_field r EAT_CRNL)
      else if Ascii.eqb c quotechar then Some (goto r IN_QUOTED_FIELD)
      else if Ascii.eqb c delimiter then Some (save_field r START_FIELD)
      else add_char r c IN_FIELD
  end.

(** [parse_process_char]; the end of the line is the character [None]. *)
Definition process_char (r : reader) (c : option ascii) : option reader :=
  match st r with
  | START_RECORD =>
      match c with
      | None => Some r
      | Some c' =>
          if is_newline c' then Some (goto r EAT_CRNL)
          else start_field r c
      end
  | START_FIELD => start_field r c
  | IN_FIELD =>
      match c with
      | None => Some (save_field r START_RECORD)
      | Some c =>
          if is_newline c then Some (save_field r EAT_CRNL)
          else if Ascii.eqb c delimiter then Some (save_field r START_FIELD)
          else add_char r c IN_FIELD
      end
  | IN_QUOTED_FIELD =>
      match c with
      | None => Some r
      | Some c =>
          if Ascii.eqb c quotechar then Some (goto r QUOTE_IN_QUOTED_FIELD)
          else add_char r c IN_QUOTED_FIELD
      end
  | QUOTE_IN_QUOTED_FIELD =>
      match c with
      | None => Some (save_field r START_RECORD)
      | Some c =>
          if Ascii.eqb c quotechar then add_char r c IN_QUOTED_FIELD
          else if Ascii.eqb c delimiter then Some (save_field r START_FIELD)
          else if is_newline c then Some (save_field r EAT_CRNL)
          else add_char r c IN_FIELD
      end
  | EAT_CRNL =>
      match c with
      | None => Some (goto r START_RECORD)
      | Some c => if is_newline c then Some r else None
      end
  end.

Fixpoint process_line (r : reader) (line : string) : option reader :=
  match line with
  | EmptyString => process_char r None
  | String c rest =>
      match process_char r (Some c) with
      | Some r' => process_line r' rest
      | None => None
      end
  end.

(** The row of a one-line input; [None] is [csv.Error]. When the line
    ends inside a quoted field the input is exhausted and the open field
    is saved. *)
Definition row (line : string) : option (list string) :=
  match process_line (mkReader START_RECORD EmptyString []) line with
  | None => None
  | Some r =>
      match st r with
      | START_RECORD => Some (fields r)
      | _ => Some (fields (save_field r START_RECORD))
      end
  end.

End Csv.

(** ** [datetime.strptime(s, '%Y-%m-%d')] and [datetime(y, m, 1)] *)

Module PyDate.

Definition is_leap (y : Z) : bool :=
  (y mod 4 =? 0) && (negb (y mod 100 =? 0) || (y mod 400 =? 0)).

Definition days_in_month (y m : Z) : Z :=
  if m =? 2 then (if is_leap y then 29 else 28)
  else if (m =? 4) || (m =? 6) || (m =? 9) || (m =? 11) then 30
  else 31.

(** The check of the [date] constructor. *)
Definition valid_date (y m d : Z) : bool :=
  (1 <=? y) && (y <=? 9999) && (1 <=? m) && (m <=? 12)
  && (1 <=? d) && (d <=? days_in_month y m).

Definition digit_in (lo hi : Z) (c : ascii) : bool :=
  PyStr.is_digit c && (lo <=? PyStr.digit_value c) && (PyStr.digit_value c <=? hi).

Definition two (a b : ascii) : Z := 10 * PyStr.digit_value a + PyStr.digit_value b.

(** [(?P<Y>\d\d\d\d)] *)
Definition year_part (s : string) : option (Z * string) :=
  match s with
  | String a (String b (String c (String d r))) =>
      if PyStr.is_digit a && PyStr.is_digit b && PyStr.is_digit c && PyStr.is_digit d
      then Some (10 * (10 * (10 * PyStr.digit_value a + PyStr.digit_value b)
                       + PyStr.digit_value c) + PyStr.digit_value d, r)
      else None
  | _ => None
  end.

(** [(?P<m>1[0-2]|0[1-9]|[1-9])]: the alternatives that match at the
    start of [s], in the order the regular expression tries them. *)
Definition month_alternatives (s : string) : list (Z * string) :=
  (match s with
   | String a (String b r) =>
       if (Ascii.eqb a "1"%char && digit_in 0 2 b)
          || (Ascii.eqb a "0"%char && digit_in 1 9 b)
       then [(two a b, r)] else []
   | _ => []
   end) ++
  (match s with
   | String a r => if digit_in 1 9 a then [(PyStr.digit_value a, r)] else []
   | _ => []
   end).

(** [(?P<d>3[0-1]|[1-2]\d|0[1-9]|[1-9]| [1-9])]: the first alternative
    that matches. *)
Definition day_part (s : string) : option (Z * string) :=
  match s with
  | String a r =>
      match r with
      | String b r' =>
          if (Ascii.eqb a "3"%char && digit_in 0 1 b)
             || (digit_in 1 2 a && PyStr.is_digit b)
             || (Ascii.eqb a "0"%char && digit_in 1 9 b)
          then Some (two a b, r')
          else if digit_in 1 9 a then Some (PyStr.digit_value a, r)
          else if Ascii.eqb a " "%char && digit_in 1 9 b
               then Some (PyStr.digit_value b, r')
               else None
      | EmptyString =>
          if digit_in 1 9 a then Some (PyStr.digit_value a, r) else None
      end
  | EmptyString => None
  end.

(** The first month alternative after which ["-"] and a day match. *)
Fixpoint month_day (alts : list (Z * string)) : option (Z * Z * string) :=
  match alts with
  | [] => None
  | (m, String "-"%char r) :: rest =>
      match day_part r with
      | Some (d, r') => Some (m, d, r')
      | None => month_day rest
      end
  | _ :: rest => month_day rest
  end.

(** [datetime.strptime(s, '%Y-%m-%d')] as (year, month, day); [None] is
    [ValueError]: no match, unconverted data, or no such date. *)
Definition strptime (s : string) : option (Z * Z * Z) :=
  match year_part s with
  | Some (y, String "-"%char r) =>
      match month_day (month_alternatives r) with
      | Some (m, d, EmptyString) =>
          if valid_date y m d then Some (y, m, d) else None
      | _ => None
      end
  | _ => None
  end.

(** [datetime(y, m, 1).strftime('%B')]; [None] is the [ValueError] of the
    constructor. *)
Definition month_name (y m : Z) : option string :=
  if valid_date y m 1
  then Some (nth (Z.to_nat (m - 1))
               ["January"; "February"; "March"; "April"; "May"; "June";
                "July"; "August"; "September"; "October"; "November";
                "December"] EmptyString)
  else None.

End PyDate.

(* ================================================================== *)
(** * The MRJob protocol: steps, keys and the shuffle                  *)
(* ================================================================== *)

(** What a step sends to the next one. *)
Inductive wire (A : Type) : Type :=
| Json (a : A)
| Text (s : string).
Arguments Json {A} a.
Arguments Text {A} s.

(** [json.loads]; [None] is the exception raised on a plain text. *)
Definition json_loads {A} (v : wire A) : option A :=
  match v with
  | Json a => Some a
  | Text _ => None
  end.

(** A block that may raise: [None] is the raised exception. *)
Notation "x <- e ;; k" :=
  (match e with Some x => k | None => None end)
  (at level 61, e at next level, right associativity).
Notation "' p <- e ;; k" :=
  (match e with Some p => k | None => None end)
  (at level 61, p pattern, e at next level, right associativity).

(** [try: body / except Exception: handler]. *)
Definition try_except {A} (body : option A) (handler : A) : A :=
  match body with
  | Some a => a
  | None => handler
  end.

Module MRJob.

(** The reserved key of the error records. *)
Definition ERROR : string := "ERROR".

Section Shuffle.
Context {V : Type}.

(** The distinct keys, in the order of their first record. *)
Fixpoint keys (l : list string) : list string :=
  match l with
  | [] => []
  | k :: r => k :: filter (fun k' => negb (String.eqb k' k)) (keys r)
  end.

(** The values emitted under [k], in the order of emission. *)
Definition values_of (k : string) (kvs : list (string * V)) : list V :=
  map snd (filter (fun kv => String.eqb (fst kv) k) kvs).

(** Between the mapper and the reducer of a step the records are
    grouped by key: one group per key that was emitted, holding all
    the values of that key. *)
Definition shuffle (kvs : list (string * V)) : list (string * list V) :=
  map (fun k => (k, values_of k kvs)) (keys (map fst kvs)).
End Shuffle.

(** The reducer runs once per group; an exception in one run ([None])
    aborts the job. *)
Fixpoint reduce_all {V O} (reducer : string -> list V -> option (list O))
    (groups : list (string * list V)) : option (list O) :=
  match groups with
  | [] => Some []
  | (k, vs) :: rest =>
      out <- reducer k vs ;;
      outs <- reduce_all reducer rest ;;
      Some (out ++ outs)%list
  end.

(** One [MRStep(mapper=..., reducer=...)], under the grouping in the
    order of emission. *)
Definition step {I V O} (mapper : I -> list (string * V))
    (reducer : string -> list V -> option (list O))
    (input : list I) : option (list O) :=
  reduce_all reducer (shuffle (flat_map mapper input)).

(** Any grouping that MRJob may hand to the reducer: one group for each
    key that was emitted, in any order, each holding the values of its
    key in any order. *)
Definition grouping {V} (kvs : list (string * V))
    (groups : list (string * list V)) : Prop :=
  Permutation (map fst groups) (keys (map fst kvs))
  /\ forall k vs, In (k, vs) groups -> Permutation vs (values_of k kvs).

(** What a step may give: what the reducer emits on some grouping of the
    records of the mapper, or [None] if it raises there. *)
Definition outcome {I V O} (mapper : I -> list (string * V))
    (reducer : string -> list V -> option (list O))
    (input : list I) (out : option (list O)) : Prop :=
  exists groups,
    grouping (flat_map mapper input) groups /\ reduce_all reducer groups = out.

End MRJob.

(** [f"{city}_{year}_{month:02d}"], the key of both first steps. *)
Definition month_key (city : string) (year month : Z) : string :=
  city ++ "_" ++ PyStr.str_of_int year ++ "_" ++ PyStr.format_02d month.

(** [float(field) if field else None]: the outer [None] is the
    [ValueError] of [float], the inner one the missing value. *)
Definition float_or_none (field : string) : option (option PyFloat.float) :=
  match field with
  | EmptyString => Some None
  | _ => option_map Some (PyFloat.of_str field)
  end.

(** [city, year, month = parts]; [None] is the [ValueError] of unpacking. *)
Definition unpack3 (parts : list string) : option (string * string * string) :=
  match parts with
  | [a; b; c] => Some (a, b, c)
  | _ => None
  end.

(* ================================================================== *)
(** * temperature_analysis.py                                          *)
(* ================================================================== *)

Module Temperature.

(** The value of the first mapper. *)
Record day_value := mkDay {
  temp_max : PyFloat.float;
  temp_min : PyFloat.float;
  temp_mean : PyFloat.float;
  count : Z
}.

(** [stats] of the first reducer. *)
Record month_stats := mkStats {
  city_year_month : string;
  avg_temp_max : PyFloat.float;
  avg_temp_min : PyFloat.float;
  avg_temp_mean : PyFloat.float;
  max_temp_recorded : PyFloat.float;
  min_temp_recorded : PyFloat.float;
  total_days : Z
}.

(** [output] of the second mapper: four new entries and [**stats]. *)
Record month_output := mkOutput {
  city : string;
  year : Z;
  month : Z;
  month_name : string;
  stats : month_stats
}.

(** The columns of a line of the result, in the order of [csv_line]. *)
Record csv_line := mkLine {
  col_city : string;
  col_year : Z;
  col_month : Z;            (* written with two digits *)
  col_month_name : string;
  col_avg_temp_max : PyFloat.float;
  col_avg_temp_min : PyFloat.float;
  col_avg_temp_mean : PyFloat.float;
  col_max_temp_recorded : PyFloat.float;
  col_min_temp_recorded : PyFloat.float;
  col_total_days : Z
}.

Definition mapper_parse_data (line : string) : list (string * wire day_value) :=
  try_except
    (if PyStr.startswith "time,temperature" line then Some []
     else
       row <- Csv.row line ;;
       if (List.length row <? 8)%nat then Some []
       else
         let date_str := nth 0 row EmptyString in
         temp_max <- float_or_none (nth 1 row EmptyString) ;;
         temp_min <- float_or_none (nth 2 row EmptyString) ;;
         temp_mean <- float_or_none (nth 3 row EmptyString) ;;
         let city := nth 7 row EmptyString in
         match temp_max, temp_min, temp_mean with
         | Some tmax, Some tmin, Some tmean =>
             ' (year, month, _) <- PyDate.strptime date_str ;;
             let key := month_key city year month in
             let value := mkDay tmax tmin tmean 1 in
             Some [(key, Json value)]
         | _, _, _ => Some []
         end)
    [(MRJob.ERROR, Text "Error processing line: ")].

(** The loop of the first reducer: the three lists and the day count. *)
Definition collect_temps
    (acc : list PyFloat.float * list PyFloat.float * list PyFloat.float * Z)
    (value_str : wire day_value) :=
  let '(temp_max_list, temp_min_list, temp_mean_list, total_days) := acc in
  match json_loads value_str with
  | Some value =>
      ((temp_max_list ++ [temp_max value])%list,
       (temp_min_list ++ [temp_min value])%list,
       (temp_mean_list ++ [temp_mean value])%list,
       total_days + count value)
  | None => acc
  end.

(** [round(sum(l) / len(l), 2)] *)
Definition rounded_mean (l : list PyFloat.float) : option PyFloat.float :=
  q <- PyFloat.div (PyFloat.sum l) (PyFloat.of_int (Z.of_nat (List.length l))) ;;
  Some (PyFloat.round2 q).

Definition reducer_aggregate_temps (key : string) (values : list (wire day_value))
    : option (list (string * wire month_stats)) :=
  if String.eqb key MRJob.ERROR then Some []
  else
    let '(temp_max_list, temp_min_list, temp_mean_list, total_days) :=
      fold_left collect_temps values ([], [], [], 0) in
    match temp_max_list with
    | [] => Some []
    | _ :: _ =>
        avg_max <- rounded_mean temp_max_list ;;
        avg_min <- rounded_mean temp_min_list ;;
        avg_mean <- rounded_mean temp_mean_list ;;
        hi <- PyFloat.max temp_max_list ;;
        lo <- PyFloat.min temp_min_list ;;
        let stats := mkStats key avg_max avg_min avg_mean
                       (PyFloat.round2 hi) (PyFloat.round2 lo) total_days in
        Some [(key, Json stats)]
    end.

Definition mapper_format_output (key : string) (value : wire month_stats)
    : list (string * wire month_output) :=
  if String.eqb key MRJob.ERROR then []
  else
    try_except
      (stats <- json_loads value ;;
       ' (city, year, month) <- unpack3 (PyStr.split PyStr.underscore key) ;;
       y <- PyStr.int_of_str year ;;
       m <- PyStr.int_of_str month ;;
       name <- PyDate.month_name y m ;;
       let output := mkOutput city y m name stats in
       Some [(city ++ "_" ++ year, Json output)])
      [(MRJob.ERROR, Text "Format error: ")].

(** [list.sort(key=lambda x: x['month'])]: the sort is stable, a record
    goes before the first one whose month is not smaller. *)
Fixpoint insert_by_month (x : month_output) (l : list month_output) : list month_output :=
  match l with
  | [] => [x]
  | y :: r => if month x <=? month y then x :: l else y :: insert_by_month x r
  end.

Definition sort_by_month (l : list month_output) : list month_output :=
  fold_right insert_by_month [] l.

Definition format_line (data : month_output) : csv_line :=
  mkLine (city data) (year data) (month data) (month_name data)
    (avg_temp_max (stats data)) (avg_temp_min (stats data))
    (avg_temp_mean (stats data)) (max_temp_recorded (stats data))
    (min_temp_recorded (stats data)) (total_days (stats data)).

(** The loop of the last reducer: the records that [json.loads] reads. *)
Fixpoint loaded {A} (values : list (wire A)) : list A :=
  match values with
  | [] => []
  | v :: r =>
      match json_loads v with
      | Some data => data :: loaded r
      | None => loaded r
      end
  end.

Definition reducer_final_output (key : string) (values : list (wire month_output))
    : option (list csv_line) :=
  if String.eqb key MRJob.ERROR then Some []
  else
    let city_data := sort_by_month (loaded values) in
    Some (map format_line city_data).

(** [steps]: the first step over the input lines, the second over what
    the first emitted. *)
Definition stage1 (lines : list string) : option (list (string * wire month_stats)) :=
  MRJob.step mapper_parse_data reducer_aggregate_temps lines.

Definition stage2 (records : list (string * wire month_stats)) : option (list csv_line) :=
  MRJob.step (fun kv => mapper_format_output (fst kv) (snd kv))
    reducer_final_output records.

Definition run (lines : list string) : option (list csv_line) :=
  records <- stage1 lines ;;
  stage2 records.

(** What the job may give, whatever the groupings of its two steps. *)
Definition outcome (lines : list string) (result : option (list csv_line)) : Prop :=
  exists first,
    MRJob.outcome mapper_parse_data reducer_aggregate_temps lines first
    /\ match first with
       | Some records =>
           MRJob.outcome (fun kv => mapper_format_output (fst kv) (snd kv))
             reducer_final_output records result
       | None => result = None
       end.

(** The records of the second mapper that [json.dumps] writes,
    [json.loads] reads back and the last reducer prints: those whose
    integers have no more digits than [PyStr.max_str_digits]. *)
Definition writable (o : month_output) : Prop :=
  PyStr.printable (year o) /\ PyStr.printable (month o)
  /\ PyStr.printable (total_days (stats o)).

End Temperature.

(* ================================================================== *)
(** * precipitation_analysis.py                                        *)
(* ================================================================== *)

Module Precipitation.

(** [result] of the first reducer. *)
Record month_result := mkResult {
  monthly_total : PyFloat.float;
  days_with_rain : Z;
  max_daily_precipitation : PyFloat.float;
  avg_daily_precipitation : PyFloat.float;
  total_days : Z
}.

(** [enhanced_data] of the second mapper: four new entries and [**data]. *)
Record enhanced := mkEnhanced {
  city : string;
  year : Z;
  month : Z;
  season : string;
  data : month_result
}.

(** The columns of a line of the result, in the order of [csv_line]. *)
Record csv_line := mkLine {
  col_city : string;
  col_year : Z;
  col_season : string;
  col_total_seasonal_precipitation : PyFloat.float;
  col_avg_monthly_precipitation : PyFloat.float;
  col_max_monthly_precipitation : PyFloat.float;
  col_total_rainy_days : Z;
  col_months_in_season : Z
}.

Definition Verano : string := "Verano".
Definition Transicion : string := "Transición".
Definition Invierno : string := "Invierno".
Definition Lluvias_Tardias : string := "Lluvias_Tardías".

Definition member (x : Z) (l : list Z) : bool := existsb (Z.eqb x) l.

Definition get_season (month : Z) : string :=
  if member month [12; 1; 2] then Verano
  else if member month [3; 4; 5] then Transicion
  else if member month [6; 7; 8] then Invierno
  else Lluvias_Tardias.

Definition mapper_parse_precipitation (line : string)
    : list (string * wire PyFloat.float) :=
  try_except
    (if PyStr.startswith "time,temperature" line then Some []
     else
       row <- Csv.row line ;;
       if (List.length row <? 8)%nat then Some []
       else
         let date_str := nth 0 row EmptyString in
         precipitation <-
           match nth 4 row EmptyString with
           | EmptyString => Some PyFloat.zero
           | field => PyFloat.of_str field
           end ;;
         let city := nth 7 row EmptyString in
         ' (year, month, _) <- PyDate.strptime date_str ;;
         let key := month_key city year month in
         Some [(key, Json precipitation)])
    [(MRJob.ERROR, Text "Parse error: ")].

(** [list(values)] as numbers; [None] is the [TypeError] that [sum]
    raises when it meets a text. *)
Fixpoint numbers (values : list (wire PyFloat.float)) : option (list PyFloat.float) :=
  match values with
  | [] => Some []
  | v :: r =>
      x <- json_loads v ;;
      xs <- numbers r ;;
      Some (x :: xs)
  end.

(** [sum(1 for v in daily_values if v > 0)] *)
Definition count_rain (daily_values : list PyFloat.float) : Z :=
  Z.of_nat (List.length (filter (fun v => PyFloat.gt v PyFloat.zero) daily_values)).

Definition reducer_monthly_totals (key : string) (values : list (wire PyFloat.float))
    : option (list (string * wire month_result)) :=
  if String.eqb key MRJob.ERROR then Some []
  else
    daily_values <- numbers values ;;
    let monthly_total := PyFloat.sum daily_values in
    let days_with_rain := count_rain daily_values in
    max_daily <-
      match daily_values with
      | [] => Some PyFloat.zero
      | _ :: _ => PyFloat.max daily_values
      end ;;
    avg_daily <-
      match daily_values with
      | [] => Some PyFloat.zero
      | _ :: _ => PyFloat.div monthly_total
                    (PyFloat.of_int (Z.of_nat (List.length daily_values)))
      end ;;
    let result := mkResult (PyFloat.round2 monthly_total) days_with_rain
                    (PyFloat.round2 max_daily) (PyFloat.round2 avg_daily)
                    (Z.of_nat (List.length daily_values)) in
    Some [(key, Json result)].

Definition mapper_add_season (key : string) (value : wire month_result)
    : list (string * wire enhanced) :=
  if String.eqb key MRJob.ERROR then []
  else
    try_except
      (data <- json_loads value ;;
       ' (city, year, month) <- unpack3 (PyStr.split PyStr.underscore key) ;;
       month_num <- PyStr.int_of_str month ;;
       let season := get_season month_num in
       let seasonal_key := city ++ "_" ++ season ++ "_" ++ year in
       y <- PyStr.int_of_str year ;;
       let enhanced_data := mkEnhanced city y month_num season data in
       Some [(seasonal_key, Json enhanced_data)])
      [(MRJob.ERROR, Text "Season mapping error: ")].

(** The loop of the last reducer: the records that [json.loads] reads. *)
Fixpoint loaded {A} (values : list (wire A)) : list A :=
  match values with
  | [] => []
  | v :: r =>
      match json_loads v with
      | Some d => d :: loaded r
      | None => loaded r
      end
  end.

Definition reducer_seasonal_analysis (key : string) (values : list (wire enhanced))
    : option (list csv_line) :=
  if String.eqb key MRJob.ERROR then Some []
  else
    let seasonal_data := loaded values in
    match seasonal_data with
    | [] => Some []
    | first :: _ =>
        let total_precipitation :=
          PyFloat.sum (map (fun d => monthly_total (data d)) seasonal_data) in
        let total_rainy_days :=
          fold_left Z.add (map (fun d => days_with_rain (data d)) seasonal_data) 0 in
        max_monthly <- PyFloat.max (map (fun d => monthly_total (data d)) seasonal_data) ;;
        avg_monthly <- PyFloat.div total_precipitation
                         (PyFloat.of_int (Z.of_nat (List.length seasonal_data))) ;;
        Some [mkLine (city first) (year first) (season first)
                (PyFloat.round2 total_precipitation)
                (PyFloat.round2 avg_monthly)
                (PyFloat.round2 max_monthly)
                total_rainy_days
                (Z.of_nat (List.length seasonal_data))]
    end.

Definition stage1 (lines : list string) : option (list (string * wire month_result)) :=
  MRJob.step mapper_parse_precipitation reducer_monthly_totals lines.

Definition stage2 (records : list (string * wire month_result)) : option (list csv_line) :=
  MRJob.step (fun kv => mapper_add_season (fst kv) (snd kv))
    reducer_seasonal_analysis records.

Definition run (lines : list string) : option (list csv_line) :=
  records <- stage1 lines ;;
  stage2 records.

(** What the job may give, whatever the groupings of its two steps. *)
Definition outcome (lines : list string) (result : option (list csv_line)) : Prop :=
  exists first,
    MRJob.outcome mapper_parse_precipitation reducer_monthly_totals lines first
    /\ match first with
       | Some records =>
           MRJob.outcome (fun kv => mapper_add_season (fst kv) (snd kv))
             reducer_seasonal_analysis records result
       | None => result = None
       end.

(** The monthly records that [json.dumps] writes and [json.loads] reads
    back: those whose integers have no more digits than
    [PyStr.max_str_digits]. *)
Definition writable (r : month_result) : Prop :=
  PyStr.printable (days_with_rain r) /\ PyStr.printable (total_days r).

End Precipitation.

(* ================================================================== *)
(** * The words of the specification                                   *)
(* ================================================================== *)

Module Spec.

(** The arithmetic mean of a list of floats: their sum divided by their
    number. *)
Definition mean (l : list PyFloat.float) : PyFloat.float :=
  SFdiv PyFloat.prec PyFloat.emax (PyFloat.sum l)
    (PyFloat.of_int (Z.of_nat (List.length l))).

(** The sum of a list of integers. *)
Definition total (l : list Z) : Z := fold_right Z.add 0 l.

(** The parts of each reducer's record that hold no sum of floats: the
    key or the names with the counts, and the extremes. *)
Definition temperature_counts (s : Temperature.month_stats) :=
  (Temperature.city_year_month s, Temperature.total_days s).

Definition temperature_extremes (s : Temperature.month_stats) :=
  (Temperature.max_temp_recorded s, Temperature.min_temp_recorded s).

Definition precipitation_counts (r : Precipitation.month_result) :=
  (Precipitation.days_with_rain r, Precipitation.total_days r).

Definition precipitation_extremes (r : Precipitation.month_result) :=
  Precipitation.max_daily_precipitation r.

Definition seasonal_counts (l : Precipitation.csv_line) :=
  (Precipitation.col_city l, Precipitation.col_year l, Precipitation.col_season l,
   Precipitation.col_total_rainy_days l, Precipitation.col_months_in_season l).

Definition seasonal_extremes (l : Precipitation.csv_line) :=
  Precipitation.col_max_monthly_precipitation l.

(** What a reducer emitted, read through such a part. *)
Definition project {A B} (f : A -> B) (out : option (list (string * wire A)))
    : option (list (string * option B)) :=
  option_map (map (fun kv => (fst kv, option_map f (json_loads (snd kv))))) out.

End Spec.

(* ================================================================== *)
(** * Facts about the string helpers                                   *)
(* ================================================================== *)

Module StrFacts.
Import PyStr.

Fixpoint all_digits (s : string) : bool :=
  match s with
  | EmptyString => true
  | String c r => is_digit c && all_digits r
  end.

Lemma append_assoc (a b c : string) : ((a ++ b) ++ c = a ++ (b ++ c))%string.
Proof. induction a as [| x a IH]; simpl; [reflexivity | now rewrite IH]. Qed.

Lemma count_app sep (a b : string) :
  count sep (a ++ b) = (count sep a + count sep b)%nat.
Proof. induction a as [| x a IH]; simpl; [reflexivity | rewrite IH; lia]. Qed.

Lemma contains_count sep s : contains sep s = negb (count sep s =? 0)%nat.
Proof.
  induction s as [| c r IH]; simpl; [reflexivity |].
  destruct (Ascii.eqb c sep); simpl; [reflexivity | exact IH].
Qed.

Lemma contains_app sep (a b : string) :
  contains sep (a ++ b) = contains sep a || contains sep b.
Proof.
  induction a as [| x a IH]; simpl; [reflexivity |].
  rewrite IH. now rewrite orb_assoc.
Qed.

Lemma split_not_nil sep s : split sep s <> [].
Proof.
  destruct s as [| c r]; simpl; [discriminate |].
  destruct (Ascii.eqb c sep); [discriminate |].
  destruct (split sep r); discriminate.
Qed.

(** One part more than there are separators. *)
Lemma split_length sep s : List.length (split sep s) = S (count sep s).
Proof.
  induction s as [| c r IH]; simpl; [reflexivity |].
  destruct (Ascii.eqb c sep); simpl.
  - now rewrite IH.
  - destruct (split sep r) eqn:E; simpl in *; [discriminate | exact IH].
Qed.

(** No part holds the separator. *)
Lemma split_parts_clean sep s :
  Forall (fun p => contains sep p = false) (split sep s).
Proof.
  induction s as [| c r IH]; simpl.
  - repeat constructor.
  - destruct (Ascii.eqb c sep) eqn:E.
    + constructor; [reflexivity | exact IH].
    + destruct (split sep r) as [| p ps]; [repeat constructor; simpl; now rewrite E |].
      inversion IH; subst. constructor; [simpl; now rewrite E | assumption].
Qed.

Lemma split_clean sep s : contains sep s = false -> split sep s = [s].
Proof.
  induction s as [| c r IH]; simpl; [reflexivity |].
  destruct (Ascii.eqb c sep); simpl; [discriminate |].
  intros H. now rewrite (IH H).
Qed.

Lemma split_app sep (a b : string) :
  contains sep a = false ->
  split sep (a ++ String sep b) = a :: split sep b.
Proof.
  induction a as [| c r IH]; simpl.
  - intros _. now rewrite Ascii.eqb_refl.
  - destruct (Ascii.eqb c sep); simpl; [discriminate |].
    intros H. now rewrite (IH H).
Qed.

(** The parts joined by the separator give the string back. *)
Fixpoint join (sep : ascii) (parts : list string) : string :=
  match parts with
  | [] => EmptyString
  | [p] => p
  | p :: ps => p ++ String sep (join sep ps)
  end.

Lemma join_split sep s : join sep (split sep s) = s.
Proof.
  induction s as [| c r IH]; simpl; [reflexivity |].
  destruct (Ascii.eqb c sep) eqn:E.
  - apply Ascii.eqb_eq in E; subst c.
    pose proof (split_not_nil sep r) as Hn.
    destruct (split sep r) as [| p ps]; [congruence |].
    change (join sep (EmptyString :: p :: ps))
      with (String sep (join sep (p :: ps))).
    now rewrite IH.
  - destruct (split sep r) as [| p ps] eqn:Er.
    + now destruct (split_not_nil sep r).
    + destruct ps as [| q qs]; simpl in *; now rewrite IH.
Qed.

Lemma is_digit_digit_char d : 0 <= d < 10 -> is_digit (digit_char d) = true.
Proof.
  intros H.
  assert (d = 0 \/ d = 1 \/ d = 2 \/ d = 3 \/ d = 4 \/ d = 5 \/ d = 6 \/
          d = 7 \/ d = 8 \/ d = 9) as C by lia.
  repeat (destruct C as [-> | C]; [reflexivity |]). subst; reflexivity.
Qed.

Lemma digit_value_digit_char d : 0 <= d < 10 -> digit_value (digit_char d) = d.
Proof.
  intros H.
  assert (d = 0 \/ d = 1 \/ d = 2 \/ d = 3 \/ d = 4 \/ d = 5 \/ d = 6 \/
          d = 7 \/ d = 8 \/ d = 9) as C by lia.
  repeat (destruct C as [-> | C]; [reflexivity |]). subst; reflexivity.
Qed.

Lemma digits_of_all_digits fuel : forall n acc,
  0 <= n -> all_digits acc = true -> all_digits (digits_of fuel n acc) = true.
Proof.
  induction fuel as [| fuel IH]; intros n acc Hn Hacc; simpl; [exact Hacc |].
  assert (all_digits (String (digit_char (n mod 10)) acc) = true) as H.
  { simpl. rewrite is_digit_digit_char; [exact Hacc |].
    apply Z.mod_pos_bound; lia. }
  destruct (n <? 10); [exact H |].
  apply IH; [apply Z.div_pos; lia | exact H].
Qed.

Lemma digits_of_not_empty fuel : forall n acc,
  digits_of (S fuel) n acc <> EmptyString.
Proof.
  induction fuel as [| fuel IH]; intros n acc; simpl.
  - destruct (n <? 10); discriminate.
  - destruct (n <? 10); [discriminate |]. apply IH.
Qed.

Lemma digits_of_S fuel n acc :
  digits_of (S fuel) n acc =
  if n <? 10 then String (digit_char (n mod 10)) acc
  else digits_of fuel (n / 10) (String (digit_char (n mod 10)) acc).
Proof. reflexivity. Qed.

(** Reading the digits written for [n] gives [n], whatever follows. *)
Lemma digits_value_digits_of fuel : forall n acc prev,
  0 <= n < 2 ^ Z.of_nat (S fuel) ->
  digits_value (digits_of (S fuel) n acc) prev 0 = digits_value acc true n.
Proof.
  induction fuel as [| fuel IH]; intros n acc prev Hn;
    rewrite digits_of_S; destruct (n <? 10) eqn:E.
  - apply Z.ltb_lt in E. cbn [digits_value].
    rewrite is_digit_digit_char, digit_value_digit_char
      by (rewrite Z.mod_small; lia).
    rewrite Z.mod_small by lia. f_equal.
  - apply Z.ltb_ge in E. simpl in Hn. lia.
  - apply Z.ltb_lt in E. cbn [digits_value].
    rewrite is_digit_digit_char, digit_value_digit_char
      by (rewrite Z.mod_small; lia).
    rewrite Z.mod_small by lia. f_equal.
  - apply Z.ltb_ge in E.
    rewrite IH.
    + cbn [digits_value].
      rewrite is_digit_digit_char, digit_value_digit_char
        by (apply Z.mod_pos_bound; lia).
      f_equal. pose proof (Z.div_mod n 10). lia.
    + rewrite Nat2Z.inj_succ, Z.pow_succ_r in Hn by lia.
      split; [apply Z.div_pos; lia |].
      apply Z.div_lt_upper_bound; lia.
Qed.

Lemma log2_fuel n : 0 <= n -> n < 2 ^ Z.of_nat (S (Z.to_nat (Z.log2 n))).
Proof.
  intros Hn. rewrite Nat2Z.inj_succ, Z2Nat.id by apply Z.log2_nonneg.
  destruct (Z.eq_dec n 0) as [-> | Hz]; [reflexivity |].
  apply Z.log2_spec. lia.
Qed.

Lemma str_of_int_nonneg n :
  0 <= n -> str_of_int n = digits_of (S (Z.to_nat (Z.log2 n))) n EmptyString.
Proof.
  intros Hn. unfold str_of_int.
  destruct (n <? 0) eqn:E; [apply Z.ltb_lt in E; lia | reflexivity].
Qed.

Lemma str_of_int_all_digits n : 0 <= n -> all_digits (str_of_int n) = true.
Proof.
  intros Hn. rewrite str_of_int_nonneg by assumption.
  now apply digits_of_all_digits.
Qed.

Lemma str_of_int_not_empty n : str_of_int n <> EmptyString.
Proof.
  unfold str_of_int. destruct (n <? 0); [discriminate |].
  apply digits_of_not_empty.
Qed.

Lemma is_digit_not_underscore c : is_digit c = true -> Ascii.eqb c underscore = false.
Proof.
  destruct c as [[] [] [] [] [] [] [] []]; try discriminate; reflexivity.
Qed.

Lemma is_digit_not_space c : is_digit c = true -> is_space c = false.
Proof.
  destruct c as [[] [] [] [] [] [] [] []]; try discriminate; reflexivity.
Qed.

Lemma is_digit_not_sign c :
  is_digit c = true ->
  Ascii.eqb c "-"%char = false /\ Ascii.eqb c "+"%char = false.
Proof.
  destruct c as [[] [] [] [] [] [] [] []]; try discriminate; split; reflexivity.
Qed.

Lemma all_digits_clean s : all_digits s = true -> contains underscore s = false.
Proof.
  induction s as [| c r IH]; simpl; [reflexivity |].
  intros H. apply andb_prop in H as [Hc Hr].
  now rewrite (is_digit_not_underscore c Hc), (IH Hr).
Qed.

Lemma rstrip_all_digits s : all_digits s = true -> rstrip s = s.
Proof.
  induction s as [| c r IH]; simpl; [reflexivity |].
  intros H. apply andb_prop in H as [Hc Hr].
  rewrite (IH Hr). destruct r; [| reflexivity].
  now rewrite (is_digit_not_space c Hc).
Qed.

Lemma strip_all_digits s : all_digits s = true -> strip s = s.
Proof.
  intros H. unfold strip.
  assert (lstrip s = s) as ->.
  { destruct s as [| c r]; [reflexivity |]. simpl in *.
    apply andb_prop in H as [Hc _]. now rewrite (is_digit_not_space c Hc). }
  now apply rstrip_all_digits.
Qed.

(** [int] of a string of digits reads the digits, if they are not too
    many. *)
Lemma int_of_str_all_digits s :
  all_digits s = true -> s <> EmptyString ->
  count_digits s <= max_str_digits ->
  int_of_str s = digits_value s false 0.
Proof.
  intros H Hne Hcount. unfold int_of_str.
  apply Z.ltb_ge in Hcount. rewrite Hcount, (strip_all_digits s H).
  destruct s as [| c r]; [congruence |].
  simpl in H. apply andb_prop in H as [Hc _].
  destruct (is_digit_not_sign c Hc) as [-> ->]. reflexivity.
Qed.

Lemma count_digits_nonneg s : 0 <= count_digits s.
Proof.
  induction s as [| c r IH]; simpl; [lia |]. destruct (is_digit c); lia.
Qed.

Lemma count_digits_length s : count_digits s <= Z.of_nat (String.length s).
Proof.
  induction s as [| c r IH]; simpl String.length; simpl count_digits; [lia |].
  destruct (is_digit c); lia.
Qed.

(** A number below [10 ^ k] is written with [k] digits at most. *)
Lemma digits_of_count fuel : forall n acc k,
  0 <= n < 10 ^ k -> 1 <= k ->
  count_digits (digits_of fuel n acc) <= count_digits acc + k.
Proof.
  induction fuel as [| fuel IH]; intros n acc k Hn Hk.
  - simpl. lia.
  - rewrite digits_of_S. destruct (n <? 10) eqn:E.
    + simpl. destruct (is_digit (digit_char (n mod 10))); lia.
    + apply Z.ltb_ge in E.
      assert (2 <= k) as Hk2.
      { destruct (Z.eq_dec k 1) as [-> | ]; [| lia].
        change (10 ^ 1) with 10 in Hn. lia. }
      assert (10 ^ k = 10 * 10 ^ (k - 1)) as Hpow.
      { replace k with (Z.succ (k - 1)) at 1 by lia. apply Z.pow_succ_r. lia. }
      assert (n / 10 < 10 ^ (k - 1)) as Hdiv
          by (apply Z.div_lt_upper_bound; lia).
      assert (0 <= n / 10) as Hpos by (apply Z.div_pos; lia).
      specialize (IH (n / 10) (String (digit_char (n mod 10)) acc) (k - 1)
                    (conj Hpos Hdiv) ltac:(lia)).
      simpl count_digits in IH.
      destruct (is_digit (digit_char (n mod 10))); lia.
Qed.

Lemma str_of_int_count n :
  0 <= n -> printable n -> count_digits (str_of_int n) <= max_str_digits.
Proof.
  intros Hn Hp. unfold printable in Hp. rewrite Z.abs_eq in Hp by assumption.
  rewrite str_of_int_nonneg by assumption.
  apply (digits_of_count _ n EmptyString max_str_digits);
    [split; assumption | unfold max_str_digits; lia].
Qed.

Lemma format_02d_count n :
  0 <= n -> printable n -> count_digits (format_02d n) <= max_str_digits.
Proof.
  intros Hn Hp. unfold format_02d.
  destruct (String.length (str_of_int n) <? 2)%nat eqn:E.
  - apply Nat.ltb_lt in E.
    change (count_digits (String "0" (str_of_int n)))
      with (1 + count_digits (str_of_int n)).
    pose proof (count_digits_length (str_of_int n)).
    unfold max_str_digits. lia.
  - now apply str_of_int_count.
Qed.

(** The numbers of a date can be written and read back. *)
Lemma printable_small n : - 9999 <= n <= 9999 -> printable n.
Proof.
  intros Hn. unfold printable.
  apply Z.lt_le_trans with (10 ^ 4); [change (10 ^ 4) with 10000; lia |].
  apply Z.pow_le_mono_r; unfold max_str_digits; lia.
Qed.

(** The digits of [str(n)] are those of [n]. *)
Lemma digits_value_str_of_int n :
  0 <= n -> digits_value (str_of_int n) false 0 = Some n.
Proof.
  intros Hn. rewrite str_of_int_nonneg by assumption.
  rewrite digits_value_digits_of by (split; [assumption | now apply log2_fuel]).
  reflexivity.
Qed.

Lemma digits_value_format_02d n :
  0 <= n -> digits_value (format_02d n) false 0 = Some n.
Proof.
  intros Hn. unfold format_02d.
  destruct (String.length (str_of_int n) <? 2)%nat.
  - cbn [digits_value]. change (is_digit "0") with true. cbv iota.
    change (10 * 0 + digit_value "0") with 0.
    rewrite str_of_int_nonneg by assumption.
    rewrite digits_value_digits_of by (split; [assumption | now apply log2_fuel]).
    reflexivity.
  - now apply digits_value_str_of_int.
Qed.

(** [int(str(n)) == n]. *)
Lemma int_of_str_str_of_int n :
  0 <= n -> printable n -> int_of_str (str_of_int n) = Some n.
Proof.
  intros Hn Hp.
  rewrite int_of_str_all_digits
    by (auto using str_of_int_all_digits, str_of_int_not_empty, str_of_int_count).
  now apply digits_value_str_of_int.
Qed.

Lemma format_02d_all_digits n : 0 <= n -> all_digits (format_02d n) = true.
Proof.
  intros Hn. unfold format_02d.
  pose proof (str_of_int_all_digits n Hn) as H.
  destruct (String.length (str_of_int n) <? 2)%nat; [| exact H].
  simpl. exact H.
Qed.

Lemma format_02d_not_empty n : format_02d n <> EmptyString.
Proof.
  unfold format_02d.
  destruct (String.length (str_of_int n) <? 2)%nat;
    [discriminate | apply str_of_int_not_empty].
Qed.

(** [int(f"{n:02d}") == n]. *)
Lemma int_of_str_format_02d n :
  0 <= n -> printable n -> int_of_str (format_02d n) = Some n.
Proof.
  intros Hn Hp.
  rewrite int_of_str_all_digits
    by (auto using format_02d_all_digits, format_02d_not_empty, format_02d_count).
  now apply digits_value_format_02d.
Qed.

(** The key of the first step. *)
Lemma month_key_shape city y m :
  month_key city y m =
  (city ++ String underscore (str_of_int y ++ String underscore (format_02d m)))%string.
Proof. reflexivity. Qed.

Lemma month_key_not_error city y m : String.eqb (month_key city y m) MRJob.ERROR = false.
Proof.
  apply String.eqb_neq. intros H.
  assert (contains underscore (month_key city y m) = true) as C.
  { rewrite month_key_shape, contains_app. simpl. apply orb_true_r. }
  rewrite H in C. discriminate C.
Qed.

(** Splitting the key of a city without underscore gives the three
    components back. *)
Lemma split_month_key city y m :
  contains underscore city = false -> 0 <= y -> 0 <= m ->
  split underscore (month_key city y m) = [city; str_of_int y; format_02d m].
Proof.
  intros Hc Hy Hm. rewrite month_key_shape.
  rewrite split_app by assumption.
  rewrite split_app by (apply all_digits_clean; now apply str_of_int_all_digits).
  rewrite split_clean by (apply all_digits_clean; now apply format_02d_all_digits).
  reflexivity.
Qed.

(** Splitting the key of a city with an underscore gives more than three
    parts. *)
Lemma split_month_key_underscore city y m :
  contains underscore city = true ->
  (3 < List.length (split underscore (month_key city y m)))%nat.
Proof.
  intros Hc. rewrite split_length, month_key_shape.
  rewrite count_app. cbn [count]. rewrite Ascii.eqb_refl.
  rewrite count_app. cbn [count]. rewrite Ascii.eqb_refl.
  rewrite contains_count in Hc.
  destruct (count underscore city); [discriminate | lia].
Qed.

End StrFacts.

(* ================================================================== *)
(** * Facts about the floats                                           *)
(* ================================================================== *)

Module FloatFacts.
Import PyFloat.

(** ** The float of a positive integer is not zero *)

Lemma shr_m_of_loc m l : shr_m (shr_record_of_loc m l) = m.
Proof. destruct l as [| []]; reflexivity. Qed.

Lemma shr_1_m mrs : 0 <= shr_m mrs -> shr_m (shr_1 mrs) = Z.shiftr (shr_m mrs) 1.
Proof.
  destruct mrs as [m r s]. simpl. intros Hm.
  destruct m as [| [p | p |] | p]; try reflexivity; lia.
Qed.

Lemma shr_m_iter n : forall mrs,
  0 <= shr_m mrs ->
  shr_m (iter_pos shr_1 n mrs) = Z.shiftr (shr_m mrs) (Z.pos n).
Proof.
  induction n as [n IH | n IH |]; intros mrs Hm; simpl iter_pos.
  - assert (0 <= shr_m (shr_1 mrs)) as H1
        by (rewrite shr_1_m by assumption; now apply Z.shiftr_nonneg).
    assert (0 <= shr_m (iter_pos shr_1 n (shr_1 mrs))) as H2
        by (rewrite IH by assumption; now apply Z.shiftr_nonneg).
    rewrite IH, IH, shr_1_m by assumption.
    rewrite !Z.shiftr_shiftr by lia. f_equal. lia.
  - assert (0 <= shr_m (iter_pos shr_1 n mrs)) as H2
        by (rewrite IH by assumption; now apply Z.shiftr_nonneg).
    rewrite IH, IH by assumption.
    rewrite Z.shiftr_shiftr by lia. f_equal. lia.
  - now apply shr_1_m.
Qed.

Lemma digits2_pos_size p : digits2_pos p = Pos.size p.
Proof. induction p as [p IH | p IH |]; simpl; congruence. Qed.

(** A positive number has a one in front: [2 ^ (digits - 1) <= p]. *)
Lemma pow2_digits_le p : 2 ^ (Z.pos (digits2_pos p) - 1) <= Z.pos p.
Proof.
  rewrite digits2_pos_size.
  pose proof (Pos.size_le p) as H.
  apply Pos2Z.pos_le_pos in H.
  rewrite Pos2Z.inj_pow in H.
  change (Z.pos p~0) with (2 * Z.pos p) in H.
  replace (Z.pos (Pos.size p)) with (Z.succ (Z.pos (Pos.size p) - 1)) in H by lia.
  rewrite Z.pow_succ_r in H by lia. lia.
Qed.

(** Shifting to the working precision keeps a positive mantissa positive,
    as long as the exponent is at least that of the subnormals. *)
Lemma shr_fexp_positive m e l :
  -1074 <= e ->
  0 < shr_m (fst (shr_fexp prec emax (Z.pos m) e l))
  /\ -1074 <= snd (shr_fexp prec emax (Z.pos m) e l).
Proof.
  intros He. unfold shr_fexp, shr.
  set (n := fexp prec emax (Zdigits2 (Z.pos m) + e) - e).
  assert (n <= Z.pos (digits2_pos m) - 1) as Hn.
  { subst n. unfold fexp, emin, prec, emax. simpl Zdigits2. lia. }
  clearbody n.
  destruct n as [| k | k]; simpl fst; simpl snd;
    try (rewrite shr_m_of_loc; lia).
  rewrite shr_m_iter by (rewrite shr_m_of_loc; lia).
  rewrite shr_m_of_loc. split; [| lia].
  rewrite Z.shiftr_div_pow2 by lia.
  apply Z.div_str_pos. split; [lia |].
  pose proof (pow2_digits_le m) as Hp.
  assert (2 ^ Z.pos k <= 2 ^ (Z.pos (digits2_pos m) - 1))
    by (apply Z.pow_le_mono_r; lia).
  lia.
Qed.

Lemma round_nearest_even_positive m l : 0 < m -> 0 < round_nearest_even m l.
Proof.
  intros Hm. destruct l as [| []]; simpl; try lia.
  destruct (Z.even m); lia.
Qed.

Lemma binary_round_aux_not_zero s m e l s' :
  -1074 <= e ->
  binary_round_aux prec emax s (Z.pos m) e l <> S754_zero s'.
Proof.
  intros He. unfold binary_round_aux.
  pose proof (shr_fexp_positive m e l He) as [H1 H2].
  destruct (shr_fexp prec emax (Z.pos m) e l) as [mrs' e']. simpl in H1, H2.
  pose proof (round_nearest_even_positive (shr_m mrs') (loc_of_shr_record mrs') H1) as H3.
  destruct (round_nearest_even (shr_m mrs') (loc_of_shr_record mrs')) as [| m1 | m1];
    try lia.
  pose proof (shr_fexp_positive m1 e' loc_Exact H2) as [H4 _].
  destruct (shr_fexp prec emax (Z.pos m1) e' loc_Exact) as [mrs'' e''].
  simpl in H4.
  destruct (shr_m mrs''); try lia.
  destruct (e'' <=? emax - prec); discriminate.
Qed.

Lemma of_int_positive_not_zero p s : of_int (Z.pos p) <> S754_zero s.
Proof.
  unfold of_int, binary_normalize, binary_round, shl_align.
  set (e' := fexp prec emax (Z.pos (digits2_pos p) + 0)).
  assert (-1074 <= e') by (subst e'; unfold fexp, emin, prec, emax; lia).
  destruct (e' - 0) eqn:E; apply binary_round_aux_not_zero; lia.
Qed.

(** [x / n] does not raise for a positive integer [n]. *)
Lemma div_by_length x (n : nat) :
  (0 < n)%nat ->
  div x (of_int (Z.of_nat n)) = Some (SFdiv prec emax x (of_int (Z.of_nat n))).
Proof.
  intros Hn. unfold div.
  destruct n as [| n]; [lia |].
  rewrite Nat2Z.inj_succ, <- Z.add_1_r.
  destruct (Z.of_nat n + 1) as [| p | p] eqn:E; try lia.
  pose proof (of_int_positive_not_zero p) as H.
  destruct (of_int (Z.pos p)); try reflexivity.
  now destruct (H s).
Qed.

(** ** The order of the floats *)

(** The floats that [max] and [min] order without surprise: NaN compares
    false with everything, and the two zeros compare equal. *)
Definition ordinary (x : float) : Prop :=
  x <> S754_nan /\ x <> S754_zero true.

(** The place of a float in the order: sign class, then exponent, then
    mantissa. *)
Definition rank (x : float) : Z * Z * Z :=
  match x with
  | S754_infinity true => (-2, 0, 0)
  | S754_finite true m e => (-1, - e, - Z.pos m)
  | S754_zero _ => (0, 0, 0)
  | S754_finite false m e => (1, e, Z.pos m)
  | S754_infinity false => (2, 0, 0)
  | S754_nan => (3, 0, 0)
  end.

Definition before (a b : Z * Z * Z) : Prop :=
  let '(a1, a2, a3) := a in
  let '(b1, b2, b3) := b in
  a1 < b1 \/ (a1 = b1 /\ (a2 < b2 \/ (a2 = b2 /\ a3 < b3))).

Lemma before_trans a b c : before a b -> before b c -> before a c.
Proof.
  destruct a as [[a1 a2] a3], b as [[b1 b2] b3], c as [[c1 c2] c3].
  unfold before. lia.
Qed.

Lemma before_irrefl a : ~ before a a.
Proof. destruct a as [[a1 a2] a3]. unfold before. lia. Qed.

Lemma before_total a b : before a b \/ a = b \/ before b a.
Proof.
  destruct a as [[a1 a2] a3], b as [[b1 b2] b3]. unfold before.
  destruct (Z.lt_trichotomy a1 b1) as [? | [-> | ?]]; [lia | | lia].
  destruct (Z.lt_trichotomy a2 b2) as [? | [-> | ?]]; [lia | | lia].
  destruct (Z.lt_trichotomy a3 b3) as [? | [-> | ?]]; [lia | | lia].
  right. left. reflexivity.
Qed.

Lemma rank_inj x y : ordinary x -> ordinary y -> rank x = rank y -> x = y.
Proof.
  intros [Hx1 Hx2] [Hy1 Hy2].
  destruct x as [[] | [] | | [] mx ex], y as [[] | [] | | [] my ey];
    simpl; intros E; try congruence; try discriminate E;
    inversion E; f_equal; lia.
Qed.

(** [x < y] on floats is the order of the ranks. *)
Lemma ltb_rank x y :
  x <> S754_nan -> y <> S754_nan ->
  (SFltb x y = true <-> before (rank x) (rank y)).
Proof.
  intros Hx Hy. unfold SFltb.
  destruct x as [[] | [] | | [] mx ex], y as [[] | [] | | [] my ey];
    try congruence; simpl; try (split; [discriminate | lia]);
    try (split; [lia | reflexivity]);
    change (Pos.compare_cont Eq mx my) with (Pos.compare mx my);
    destruct (Z.compare_spec ex ey); try (split; [discriminate | lia]);
    try (split; [lia | reflexivity]);
    destruct (Pos.compare_spec mx my); simpl;
    try (split; [discriminate | lia]); try (split; [lia | reflexivity]).
Qed.

(** ** The best element of a list *)

Section Extremum.
Variable better : float -> float -> bool.
Variable precedes : float -> float -> Prop.
Hypothesis better_spec :
  forall x y, ordinary x -> ordinary y -> (better x y = true <-> precedes y x).
Hypothesis precedes_trans : forall x y z, precedes x y -> precedes y z -> precedes x z.
Hypothesis precedes_total :
  forall x y, ordinary x -> ordinary y -> precedes x y \/ x = y \/ precedes y x.
Hypothesis precedes_irrefl : forall x, ~ precedes x x.

(** The loop of [max] and [min]. *)
Definition pick (l : list float) (x : float) : float :=
  fold_left (fun m y => if better y m then y else m) l x.

Lemma pick_best l : forall x,
  Forall ordinary (x :: l) ->
  In (pick l x) (x :: l) /\ forall z, In z (x :: l) -> ~ precedes (pick l x) z.
Proof.
  induction l as [| y l IH]; intros x Hall.
  - simpl. split; [now left |]. intros z [<- | []]. apply precedes_irrefl.
  - inversion Hall as [| ? ? Hx Hl]; subst. inversion Hl as [| ? ? Hy Hl']; subst.
    unfold pick. cbn [fold_left]. fold (pick l (if better y x then y else x)).
    destruct (better y x) eqn:E.
    + destruct (IH y Hl) as [Hin Hbest].
      split; [destruct Hin as [<- | Hin]; [right; now left | right; now right] |].
      intros z [<- | Hz]; [| now apply Hbest].
      intros Hp. apply (Hbest y (or_introl eq_refl)).
      apply (better_spec y x Hy Hx) in E. now apply (precedes_trans _ x).
    + destruct (IH x (Forall_cons x Hx Hl')) as [Hin Hbest].
      split; [destruct Hin as [<- | Hin]; [now left | right; now right] |].
      intros z [<- | [<- | Hz]].
      * apply Hbest. now left.
      * intros Hp.
        assert (~ precedes x y) as Hn
            by (intros H; apply (better_spec y x Hy Hx) in H; congruence).
        destruct (precedes_total x y Hx Hy) as [H | [H | H]]; [contradiction | |].
        -- subst y. apply (Hbest x); [now left | assumption].
        -- apply (Hbest x); [now left |]. now apply (precedes_trans _ y).
      * apply Hbest. now right.
Qed.

(** The best element does not depend on the order of the list. *)
Lemma pick_permutation x l x' l' :
  Permutation (x :: l) (x' :: l') -> Forall ordinary (x :: l) ->
  pick l x = pick l' x'.
Proof.
  intros Hp Hall.
  assert (Forall ordinary (x' :: l')) as Hall'
      by (eapply Permutation_Forall; eauto).
  destruct (pick_best l x Hall) as [Hin Hbest].
  destruct (pick_best l' x' Hall') as [Hin' Hbest'].
  assert (In (pick l x) (x' :: l')) as H1 by (eapply Permutation_in; eauto).
  assert (In (pick l' x') (x :: l)) as H2
      by (eapply Permutation_in; [apply Permutation_sym |]; eauto).
  rewrite Forall_forall in Hall, Hall'.
  destruct (precedes_total (pick l x) (pick l' x') (Hall _ Hin) (Hall' _ Hin'))
    as [H | [H | H]]; [| assumption |].
  - now destruct (Hbest _ H2).
  - now destruct (Hbest' _ H1).
Qed.

End Extremum.

(** [max] and [min] of the same ordinary values in another order. *)
Lemma max_permutation l l' :
  Permutation l l' -> Forall ordinary l -> max l = max l'.
Proof.
  intros Hp Hall.
  destruct l as [| x l], l' as [| x' l'].
  - reflexivity.
  - now apply Permutation_nil in Hp.
  - apply Permutation_sym in Hp. now apply Permutation_nil in Hp.
  - unfold max. f_equal.
    apply (pick_permutation gt (fun a b => before (rank a) (rank b))); try assumption.
    + intros a b [Ha _] [Hb _]. unfold gt. now apply ltb_rank.
    + intros a b c. apply before_trans.
    + intros a b Ha Hb.
      destruct (before_total (rank a) (rank b)) as [H | [H | H]]; auto.
      right. left. now apply rank_inj.
    + intros a. apply before_irrefl.
Qed.

Lemma min_permutation l l' :
  Permutation l l' -> Forall ordinary l -> min l = min l'.
Proof.
  intros Hp Hall.
  destruct l as [| x l], l' as [| x' l'].
  - reflexivity.
  - now apply Permutation_nil in Hp.
  - apply Permutation_sym in Hp. now apply Permutation_nil in Hp.
  - unfold min. f_equal.
    apply (pick_permutation lt (fun a b => before (rank b) (rank a))); try assumption.
    + intros a b [Ha _] [Hb _]. unfold lt. now apply ltb_rank.
    + intros a b c H1 H2. now apply (before_trans _ (rank b)).
    + intros a b Ha Hb.
      destruct (before_total (rank a) (rank b)) as [H | [H | H]]; auto.
      right. left. now apply rank_inj.
    + intros a. apply before_irrefl.
Qed.

(** ** Addition *)

(** The addition of two floats does not depend on their order ... *)
Lemma add_comm x y : add x y = add y x.
Proof.
  unfold add.
  destruct x as [[] | [] | | sx mx ex], y as [[] | [] | | sy my ey];
    try reflexivity.
  unfold SFadd. rewrite (Z.min_comm ey ex). f_equal. apply Z.add_comm.
Qed.

(** ... but the sum of three does on the pairing: 0.1, 0.2 and 0.3. *)
Lemma add_not_assoc :
  exists a b c,
    of_str "0.1" = Some a /\ of_str "0.2" = Some b /\ of_str "0.3" = Some c
    /\ add (add a b) c <> add a (add b c).
Proof.
  do 3 eexists. repeat split; try (vm_compute; reflexivity).
  vm_compute. discriminate.
Qed.

End FloatFacts.

(* ================================================================== *)
(** * Facts about the shuffle                                          *)
(* ================================================================== *)

Module ShuffleFacts.
Import MRJob.

Lemma filter_filter_comm {A} (p q : A -> bool) l :
  filter p (filter q l) = filter q (filter p l).
Proof.
  induction l as [| x l IH]; simpl; [reflexivity |].
  destruct (p x) eqn:Ep, (q x) eqn:Eq; simpl; rewrite ?Ep, ?Eq, IH; reflexivity.
Qed.

Lemma filter_map_fst {V} (p : string -> bool) (kvs : list (string * V)) :
  map fst (filter (fun kv => p (fst kv)) kvs) = filter p (map fst kvs).
Proof.
  induction kvs as [| kv r IH]; simpl; [reflexivity |].
  destruct (p (fst kv)); simpl; now rewrite IH.
Qed.

Lemma keys_In k l : In k (keys l) <-> In k l.
Proof.
  induction l as [| x r IH]; simpl; [tauto |].
  rewrite filter_In, IH.
  destruct (String.eqb k x) eqn:E.
  - apply String.eqb_eq in E. subst. tauto.
  - assert (x <> k) by (intros ->; now rewrite String.eqb_refl in E).
    simpl. intuition congruence.
Qed.

Lemma keys_NoDup l : NoDup (keys l).
Proof.
  induction l as [| x r IH]; simpl; constructor.
  - rewrite filter_In. intros [_ H]. now rewrite String.eqb_refl in H.
  - now apply NoDup_filter.
Qed.

Lemma filter_all {A} (q : A -> bool) l :
  (forall x, In x l -> q x = true) -> filter q l = l.
Proof.
  induction l as [| x l IH]; simpl; intros H; [reflexivity |].
  rewrite (H x) by now left. f_equal. apply IH. intros y Hy. apply H. now right.
Qed.

(** Dropping records by key before the shuffle drops their groups and
    leaves the others as they are. *)
Lemma keys_filter (p : string -> bool) l : keys (filter p l) = filter p (keys l).
Proof.
  induction l as [| x r IH]; simpl; [reflexivity |].
  destruct (p x) eqn:E; simpl.
  - rewrite IH. f_equal. apply filter_filter_comm.
  - rewrite IH, filter_filter_comm. symmetry.
    apply filter_all. intros k Hk.
    apply filter_In in Hk as [_ Hk].
    destruct (String.eqb k x) eqn:Ek; [| reflexivity].
    apply String.eqb_eq in Ek. congruence.
Qed.

Lemma values_of_In {V} k (v : V) kvs : In v (values_of k kvs) <-> In (k, v) kvs.
Proof.
  unfold values_of. rewrite in_map_iff. split.
  - intros [[k' v'] [Hv H]]. apply filter_In in H as [H E].
    simpl in *. apply String.eqb_eq in E. now subst.
  - intros H. exists (k, v). split; [reflexivity |].
    apply filter_In. split; [assumption | apply String.eqb_refl].
Qed.

Lemma values_of_app {V} k (a b : list (string * V)) :
  values_of k (a ++ b) = (values_of k a ++ values_of k b)%list.
Proof. unfold values_of. now rewrite filter_app, map_app. Qed.

Lemma values_of_not_nil {V} k (kvs : list (string * V)) :
  In k (map fst kvs) -> values_of k kvs <> [].
Proof.
  intros H. apply in_map_iff in H as [[k' v] [E H]]. simpl in E. subst k'.
  apply (values_of_In k v) in H. intros E. now rewrite E in H.
Qed.

Lemma values_of_filter {V} (p : string -> bool) k (kvs : list (string * V)) :
  p k = true ->
  values_of k (filter (fun kv => p (fst kv)) kvs) = values_of k kvs.
Proof.
  intros Hp. unfold values_of. rewrite filter_filter_comm. f_equal.
  apply filter_all. intros [k' v] H.
  apply filter_In in H as [_ E]. simpl in *.
  apply String.eqb_eq in E. now subst.
Qed.

Lemma shuffle_In {V} k vs (kvs : list (string * V)) :
  In (k, vs) (shuffle kvs) <-> In k (map fst kvs) /\ vs = values_of k kvs.
Proof.
  unfold shuffle. rewrite in_map_iff. split.
  - intros [k' [E H]]. inversion E; subst. rewrite keys_In in H. now split.
  - intros [H ->]. exists k. split; [reflexivity | now apply keys_In].
Qed.

(** A group holds only values that were emitted under its key, and at
    least one. *)
Lemma shuffle_group {V} k vs (kvs : list (string * V)) :
  In (k, vs) (shuffle kvs) ->
  vs <> [] /\ forall v, In v vs <-> In (k, v) kvs.
Proof.
  intros H. apply shuffle_In in H as [H ->]. split.
  - now apply values_of_not_nil.
  - intros v. apply values_of_In.
Qed.

Lemma shuffle_keys {V} (kvs : list (string * V)) :
  map fst (shuffle kvs) = keys (map fst kvs).
Proof. unfold shuffle. rewrite map_map. simpl. apply map_id. Qed.

Lemma shuffle_NoDup {V} (kvs : list (string * V)) : NoDup (map fst (shuffle kvs)).
Proof. rewrite shuffle_keys. apply keys_NoDup. Qed.

Lemma shuffle_filter {V} (p : string -> bool) (kvs : list (string * V)) :
  shuffle (filter (fun kv => p (fst kv)) kvs)
  = filter (fun g => p (fst g)) (shuffle kvs).
Proof.
  unfold shuffle. rewrite filter_map_fst, keys_filter.
  induction (keys (map fst kvs)) as [| k r IH]; simpl; [reflexivity |].
  destruct (p k) eqn:E; simpl; [| exact IH].
  now rewrite IH, values_of_filter.
Qed.

(** ** Running the reducer over the groups *)

Lemma reduce_all_In {V O} (reducer : string -> list V -> option (list O)) :
  forall groups out o,
  reduce_all reducer groups = Some out -> In o out ->
  exists k vs out_k,
    In (k, vs) groups /\ reducer k vs = Some out_k /\ In o out_k.
Proof.
  induction groups as [| [k vs] rest IH]; simpl; intros out o H Ho.
  - inversion H; subst. destruct Ho.
  - destruct (reducer k vs) as [out_k |] eqn:Ek; [| discriminate].
    destruct (reduce_all reducer rest) as [outs |] eqn:Er; [| discriminate].
    inversion H; subst. apply in_app_or in Ho as [Ho | Ho].
    + exists k, vs, out_k. auto.
    + destruct (IH outs o eq_refl Ho) as (k' & vs' & o' & H1 & H2 & H3).
      exists k', vs', o'. auto.
Qed.

Lemma reduce_all_In_rev {V O} (reducer : string -> list V -> option (list O)) :
  forall groups out k vs out_k o,
  reduce_all reducer groups = Some out ->
  In (k, vs) groups -> reducer k vs = Some out_k -> In o out_k -> In o out.
Proof.
  induction groups as [| [k' vs'] rest IH]; simpl; intros out k vs out_k o H Hg Hr Ho.
  - destruct Hg.
  - destruct (reducer k' vs') as [out' |] eqn:Ek; [| discriminate].
    destruct (reduce_all reducer rest) as [outs |] eqn:Er; [| discriminate].
    inversion H; subst. apply in_or_app. destruct Hg as [Hg | Hg].
    + inversion Hg; subst. left. congruence.
    + right. eapply IH; eauto.
Qed.

(** The job does not abort when no run of the reducer raises. *)
Lemma reduce_all_total {V O} (reducer : string -> list V -> option (list O)) :
  forall groups,
  (forall k vs, In (k, vs) groups -> exists out, reducer k vs = Some out) ->
  exists out, reduce_all reducer groups = Some out.
Proof.
  induction groups as [| [k vs] rest IH]; simpl; intros H.
  - now exists [].
  - destruct (H k vs (or_introl eq_refl)) as [out_k ->].
    destruct IH as [outs ->]; [intros; apply H; now right |].
    now eexists.
Qed.

(** The groups of a key on which the reducer returns at once may be left
    out. *)
Lemma reduce_all_skip {V O} (reducer : string -> list V -> option (list O))
    (p : string -> bool) :
  (forall k vs, p k = false -> reducer k vs = Some []) ->
  forall groups,
  reduce_all reducer (filter (fun g => p (fst g)) groups)
  = reduce_all reducer groups.
Proof.
  intros Hskip. induction groups as [| [k vs] rest IH]; simpl; [reflexivity |].
  destruct (p k) eqn:E; simpl.
  - now rewrite IH.
  - rewrite IH, (Hskip k vs E).
    destruct (reduce_all reducer rest); reflexivity.
Qed.

Definition not_error (k : string) : bool := negb (String.eqb k ERROR).

(** A step whose reducer ignores the error key gives the same result when
    the records under that key are removed before the shuffle. *)
Lemma step_without_errors {I V O} (mapper : I -> list (string * V))
    (reducer : string -> list V -> option (list O)) :
  (forall vs, reducer ERROR vs = Some []) ->
  forall input,
  step mapper reducer input
  = reduce_all reducer
      (shuffle (filter (fun kv => not_error (fst kv)) (flat_map mapper input))).
Proof.
  intros Herr input. unfold step.
  rewrite shuffle_filter, reduce_all_skip; [reflexivity |].
  intros k vs E. unfold not_error in E.
  apply negb_false_iff, String.eqb_eq in E. subst. apply Herr.
Qed.

End ShuffleFacts.

(* ================================================================== *)
(** * What the two parsers emit                                        *)
(* ================================================================== *)

Module ParserFacts.
Import MRJob.

Lemma strptime_valid s y m d :
  PyDate.strptime s = Some (y, m, d) -> 1 <= y <= 9999 /\ 1 <= m <= 12.
Proof.
  unfold PyDate.strptime.
  destruct (PyDate.year_part s) as [[y0 [| c r]] |]; try discriminate.
  destruct (Ascii.eqb c "-"%char) eqn:Ec.
  2:{ destruct c as [[] [] [] [] [] [] [] []]; try discriminate Ec; discriminate. }
  apply Ascii.eqb_eq in Ec. subst c.
  destruct (PyDate.month_day (PyDate.month_alternatives r)) as [[[m0 d0] [| ? ?]] |];
    try discriminate.
  destruct (PyDate.valid_date y0 m0 d0) eqn:V; [| discriminate].
  intros H. inversion H; subst.
  unfold PyDate.valid_date in V.
  repeat (apply andb_prop in V as [V ?]). lia.
Qed.

(** A line gives nothing, one error record, or one record under the key
    of its city, year and month. *)
Inductive parsed {V} (count_ok : V -> Prop) : list (string * wire V) -> Prop :=
| parsed_nothing : parsed count_ok []
| parsed_error msg : parsed count_ok [(ERROR, Text msg)]
| parsed_record city y m v :
    1 <= y <= 9999 -> 1 <= m <= 12 -> count_ok v ->
    parsed count_ok [(month_key city y m, Json v)].

Lemma mapper_parse_data_parsed line :
  parsed (fun v => Temperature.count v = 1) (Temperature.mapper_parse_data line).
Proof.
  unfold Temperature.mapper_parse_data.
  destruct (PyStr.startswith "time,temperature" line); [constructor |].
  destruct (Csv.row line) as [row |]; [| constructor].
  destruct (List.length row <? 8)%nat; [constructor |].
  destruct (float_or_none (nth 1 row "")) as [[tmax |] |];
    destruct (float_or_none (nth 2 row "")) as [[tmin |] |];
    destruct (float_or_none (nth 3 row "")) as [[tmean |] |];
    simpl; try constructor.
  destruct (PyDate.strptime (nth 0 row "")) as [[[y m] d] |] eqn:E;
    simpl; [| constructor].
  apply strptime_valid in E as [Hy Hm]. now constructor.
Qed.

Lemma mapper_parse_precipitation_parsed line :
  parsed (fun _ => True) (Precipitation.mapper_parse_precipitation line).
Proof.
  unfold Precipitation.mapper_parse_precipitation.
  destruct (PyStr.startswith "time,temperature" line); [constructor |].
  destruct (Csv.row line) as [row |]; [| constructor].
  destruct (List.length row <? 8)%nat; [constructor |].
  assert (forall y m d, PyDate.strptime (nth 0 row "") = Some (y, m, d) ->
                        1 <= y <= 9999 /\ 1 <= m <= 12) as Hdate
      by (intros; eapply strptime_valid; eauto).
  destruct (nth 4 row "") as [| a f].
  - destruct (PyDate.strptime (nth 0 row "")) as [[[y m] d] |];
      simpl; [| constructor].
    destruct (Hdate y m d eq_refl). now constructor.
  - destruct (PyFloat.of_str (String a f)) as [p |]; simpl; [| constructor].
    destruct (PyDate.strptime (nth 0 row "")) as [[[y m] d] |];
      simpl; [| constructor].
    destruct (Hdate y m d eq_refl). now constructor.
Qed.

End ParserFacts.

(* ================================================================== *)
(** * The aggregators                                                  *)
(* ================================================================== *)

Module AggregatorFacts.
Import MRJob.

Lemma collect_temps_fold days : forall a b c t,
  fold_left Temperature.collect_temps (map Json days) (a, b, c, t)
  = ((a ++ map Temperature.temp_max days)%list,
     (b ++ map Temperature.temp_min days)%list,
     (c ++ map Temperature.temp_mean days)%list,
     t + Spec.total (map Temperature.count days)).
Proof.
  induction days as [| d days IH]; intros a b c t; simpl.
  - now rewrite !app_nil_r, Z.add_0_r.
  - rewrite IH, <- !app_assoc. simpl. f_equal. lia.
Qed.

Lemma total_of_ones {A} (f : A -> Z) l :
  Forall (fun x => f x = 1) l -> Spec.total (map f l) = Z.of_nat (List.length l).
Proof.
  induction 1 as [| x l Hx _ IH]; [reflexivity |].
  cbn [map Spec.total fold_right List.length].
  fold (Spec.total (map f l)). rewrite IH, Hx. lia.
Qed.

Lemma rounded_mean_spec l :
  l <> [] -> Temperature.rounded_mean l = Some (PyFloat.round2 (Spec.mean l)).
Proof.
  intros Hl. unfold Temperature.rounded_mean, Spec.mean.
  rewrite FloatFacts.div_by_length; [reflexivity |].
  destruct l; [congruence | simpl; lia].
Qed.

Lemma max_not_nil l : l <> [] -> exists hi, PyFloat.max l = Some hi.
Proof. destruct l; [congruence | intros _; eexists; reflexivity]. Qed.

Lemma min_not_nil l : l <> [] -> exists lo, PyFloat.min l = Some lo.
Proof. destruct l; [congruence | intros _; eexists; reflexivity]. Qed.

Lemma loaded_json {A} (l : list A) : Precipitation.loaded (map Json l) = l.
Proof. induction l as [| x l IH]; simpl; [reflexivity | now rewrite IH]. Qed.

Lemma total_fold_left l : fold_left Z.add l 0 = Spec.total l.
Proof.
  unfold Spec.total. apply fold_symmetric; intros; lia.
Qed.

End AggregatorFacts.

(* ================================================================== *)
(** * The first step of both jobs                                      *)
(* ================================================================== *)

Module StageOneFacts.
Import MRJob.

Lemma all_json {A} (vs : list (wire A)) :
  (forall v, In v vs -> exists d, v = Json d) -> exists ds, vs = map Json ds.
Proof.
  induction vs as [| v vs IH]; intros H.
  - now exists [].
  - destruct (H v (or_introl eq_refl)) as [d ->].
    destruct IH as [ds ->]; [intros; apply H; now right |].
    now exists (d :: ds).
Qed.

(** A reducer that emits at most one record, under the key of its group,
    emits every key at most once. *)
Lemma reduce_all_keys {V X} (reducer : string -> list V -> option (list (string * X))) :
  (forall k vs out, reducer k vs = Some out -> out = [] \/ exists x, out = [(k, x)]) ->
  forall groups out,
  reduce_all reducer groups = Some out ->
  (forall k, In k (map fst out) -> In k (map fst groups))
  /\ (NoDup (map fst groups) -> NoDup (map fst out)).
Proof.
  intros Hone. induction groups as [| [k vs] rest IH]; simpl; intros out H.
  - inversion H; subst. split; [tauto | intros; constructor].
  - destruct (reducer k vs) as [out_k |] eqn:Ek; [| discriminate].
    destruct (reduce_all reducer rest) as [outs |] eqn:Er; [| discriminate].
    inversion H; subst. destruct (IH outs eq_refl) as [Hin Hnd].
    destruct (Hone k vs out_k Ek) as [-> | [x ->]]; simpl.
    + split; [intros k' Hk'; right; now apply Hin |].
      intros N. inversion N; subst. now apply Hnd.
    + split; [intros k' [-> | Hk']; [now left | right; now apply Hin] |].
      intros N. inversion N; subst. constructor; [| now apply Hnd].
      intros Hk. now apply Hin in Hk.
Qed.

(** ** Temperature *)

(** What the first mapper emits over all lines. *)
Definition temperature_record (kv : string * wire Temperature.day_value) : Prop :=
  (fst kv = ERROR /\ exists msg, snd kv = Text msg)
  \/ (exists city y m d,
        fst kv = month_key city y m /\ 1 <= y <= 9999 /\ 1 <= m <= 12
        /\ snd kv = Json d /\ Temperature.count d = 1).

Lemma temperature_mapped lines kv :
  In kv (flat_map Temperature.mapper_parse_data lines) -> temperature_record kv.
Proof.
  intros H. apply in_flat_map in H as [line [_ H]].
  destruct (ParserFacts.mapper_parse_data_parsed line) as [| msg | city y m v Hy Hm Hc];
    simpl in H; try tauto; destruct H as [<- | []].
  - left. simpl. eauto.
  - right. exists city, y, m, v. simpl. auto.
Qed.

(** The group of a key other than the error key: daily values only, each
    with count 1, and at least one. *)
Lemma temperature_group lines k vs :
  In (k, vs) (shuffle (flat_map Temperature.mapper_parse_data lines)) ->
  k <> ERROR ->
  exists days,
    vs = map Json days /\ days <> []
    /\ Forall (fun d => Temperature.count d = 1) days
    /\ exists city y m, k = month_key city y m /\ 1 <= y <= 9999 /\ 1 <= m <= 12.
Proof.
  intros Hg Hk. apply ShuffleFacts.shuffle_group in Hg as [Hne Hvs].
  assert (forall v, In v vs ->
            exists d, v = Json d /\ Temperature.count d = 1
                      /\ exists city y m, k = month_key city y m
                                           /\ 1 <= y <= 9999 /\ 1 <= m <= 12) as Hall.
  { intros v Hv. apply Hvs, temperature_mapped in Hv.
    destruct Hv as [[E _] | (city & y & m & d & E & Hy & Hm & Ev & Hc)];
      simpl in *; [congruence |].
    exists d. repeat split; try assumption. now exists city, y, m. }
  destruct (all_json vs) as [days ->];
    [intros v Hv; destruct (Hall v Hv) as (d & -> & _); now exists d |].
  exists days. split; [reflexivity |].
  split; [destruct days; [now destruct Hne | discriminate] |].
  split.
  - apply Forall_forall. intros d Hd.
    destruct (Hall (Json d)) as (d' & E & Hc & _); [now apply in_map |].
    now inversion E; subst.
  - destruct days as [| d ds]; [now destruct Hne |].
    destruct (Hall (Json d)) as (_ & _ & _ & H); [now left | exact H].
Qed.

(** The first reducer on such a group. *)
Lemma reducer_aggregate_temps_emits key days :
  key <> ERROR -> days <> [] ->
  exists stats,
    Temperature.reducer_aggregate_temps key (map Json days) = Some [(key, Json stats)]
    /\ Temperature.city_year_month stats = key
    /\ Temperature.total_days stats = Spec.total (map Temperature.count days).
Proof.
  intros Hkey Hdays.
  assert (forall f : Temperature.day_value -> PyFloat.float, map f days <> []) as Hmap
      by (intros f; destruct days; [congruence | discriminate]).
  unfold Temperature.reducer_aggregate_temps.
  apply String.eqb_neq in Hkey. rewrite Hkey.
  rewrite AggregatorFacts.collect_temps_fold. cbn [app].
  destruct (AggregatorFacts.max_not_nil _ (Hmap Temperature.temp_max)) as [hi Hhi].
  destruct (AggregatorFacts.min_not_nil _ (Hmap Temperature.temp_min)) as [lo Hlo].
  destruct (map Temperature.temp_max days) as [| x xs] eqn:E;
    [now destruct (Hmap Temperature.temp_max) |].
  rewrite <- E in *.
  rewrite !AggregatorFacts.rounded_mean_spec by apply Hmap.
  rewrite Hhi, Hlo. eexists. split; [reflexivity |]. split; [reflexivity |].
  simpl. lia.
Qed.

(** The first reducer emits at most one record, under the key of the
    group. *)
Lemma reducer_aggregate_temps_one k vs out :
  Temperature.reducer_aggregate_temps k vs = Some out ->
  out = [] \/ exists x, out = [(k, x)].
Proof.
  unfold Temperature.reducer_aggregate_temps.
  destruct (String.eqb k ERROR); [intros H; inversion H; now left |].
  destruct (fold_left Temperature.collect_temps vs ([], [], [], 0))
    as [[[maxs mins] means] t].
  destruct maxs as [| x xs]; [intros H; inversion H; now left |].
  destruct (Temperature.rounded_mean (x :: xs)); [| discriminate].
  destruct (Temperature.rounded_mean mins); [| discriminate].
  destruct (Temperature.rounded_mean means); [| discriminate].
  destruct (PyFloat.max (x :: xs)); [| discriminate].
  destruct (PyFloat.min mins); [| discriminate].
  intros H. inversion H. right. eauto.
Qed.

(** A record of the first step of the temperature job. *)
Definition temperature_month (kv : string * wire Temperature.month_stats) : Prop :=
  exists city y m stats,
    fst kv = month_key city y m /\ 1 <= y <= 9999 /\ 1 <= m <= 12
    /\ snd kv = Json stats
    /\ Temperature.city_year_month stats = fst kv
    /\ 1 <= Temperature.total_days stats.

(** The first step never aborts; it emits one record per key, each from a
    group of at least one day. *)
Lemma temperature_stage1 lines :
  exists records,
    Temperature.stage1 lines = Some records
    /\ NoDup (map fst records)
    /\ Forall temperature_month records.
Proof.
  unfold Temperature.stage1, step.
  set (groups := shuffle (flat_map Temperature.mapper_parse_data lines)).
  assert (forall k vs, In (k, vs) groups ->
            exists out, Temperature.reducer_aggregate_temps k vs = Some out
                        /\ Forall temperature_month out) as Hgroup.
  { intros k vs Hg. destruct (String.eqb k ERROR) eqn:Ek.
    - exists []. unfold Temperature.reducer_aggregate_temps. now rewrite Ek.
    - apply String.eqb_neq in Ek.
      destruct (temperature_group lines k vs Hg Ek)
        as (days & -> & Hne & Hc & city & y & m & Hk & Hy & Hm).
      destruct (reducer_aggregate_temps_emits k days Ek Hne) as (stats & Hr & Hs & Ht).
      exists [(k, Json stats)]. split; [assumption |].
      constructor; [| constructor].
      exists city, y, m, stats. simpl. repeat split; try assumption; try lia.
      rewrite Ht, (AggregatorFacts.total_of_ones _ _ Hc).
      destruct days; [congruence | simpl; lia]. }
  destruct (ShuffleFacts.reduce_all_total Temperature.reducer_aggregate_temps groups)
    as [records Hrec].
  { intros k vs Hg. destruct (Hgroup k vs Hg) as (out & -> & _). now eexists. }
  exists records. split; [assumption |]. split.
  - apply (reduce_all_keys _ reducer_aggregate_temps_one groups records Hrec).
    apply ShuffleFacts.shuffle_NoDup.
  - apply Forall_forall. intros r Hr.
    destruct (ShuffleFacts.reduce_all_In _ groups records r Hrec Hr)
      as (k & vs & out & Hg & Hout & Ho).
    destruct (Hgroup k vs Hg) as (out' & Hout' & Hall).
    rewrite Hout in Hout'. inversion Hout'; subst.
    rewrite Forall_forall in Hall. now apply Hall.
Qed.

(** ** Precipitation *)

Definition precipitation_record (kv : string * wire PyFloat.float) : Prop :=
  (fst kv = ERROR /\ exists msg, snd kv = Text msg)
  \/ (exists city y m x,
        fst kv = month_key city y m /\ 1 <= y <= 9999 /\ 1 <= m <= 12
        /\ snd kv = Json x).

Lemma precipitation_mapped lines kv :
  In kv (flat_map Precipitation.mapper_parse_precipitation lines) ->
  precipitation_record kv.
Proof.
  intros H. apply in_flat_map in H as [line [_ H]].
  destruct (ParserFacts.mapper_parse_precipitation_parsed line)
    as [| msg | city y m v Hy Hm _];
    simpl in H; try tauto; destruct H as [<- | []].
  - left. simpl. eauto.
  - right. exists city, y, m, v. simpl. auto.
Qed.

(** The group of a key other than the error key: numbers only, and at
    least one. *)
Lemma precipitation_group lines k vs :
  In (k, vs) (shuffle (flat_map Precipitation.mapper_parse_precipitation lines)) ->
  k <> ERROR ->
  exists xs,
    vs = map Json xs /\ xs <> []
    /\ exists city y m, k = month_key city y m /\ 1 <= y <= 9999 /\ 1 <= m <= 12.
Proof.
  intros Hg Hk. apply ShuffleFacts.shuffle_group in Hg as [Hne Hvs].
  assert (forall v, In v vs ->
            exists x, v = Json x
                      /\ exists city y m, k = month_key city y m
                                           /\ 1 <= y <= 9999 /\ 1 <= m <= 12) as Hall.
  { intros v Hv. apply Hvs, precipitation_mapped in Hv.
    destruct Hv as [[E _] | (city & y & m & x & E & Hy & Hm & Ev)];
      simpl in *; [congruence |].
    exists x. split; [assumption |]. now exists city, y, m. }
  destruct (all_json vs) as [xs ->];
    [intros v Hv; destruct (Hall v Hv) as (x & -> & _); now exists x |].
  exists xs. split; [reflexivity |].
  destruct xs as [| x xs]; [now destruct Hne |].
  split; [discriminate |].
  destruct (Hall (Json x)) as (_ & _ & H); [now left | exact H].
Qed.

Lemma numbers_json xs : Precipitation.numbers (map Json xs) = Some xs.
Proof. induction xs as [| x xs IH]; simpl; [reflexivity | now rewrite IH]. Qed.

(** The first reducer on such a group: no exception, one record, which
    counts the values of the group. *)
Lemma reducer_monthly_totals_emits key xs :
  key <> ERROR -> xs <> [] ->
  exists hi,
    PyFloat.max xs = Some hi
    /\ Precipitation.reducer_monthly_totals key (map Json xs)
       = Some [(key, Json (Precipitation.mkResult
                 (PyFloat.round2 (PyFloat.sum xs))
                 (Precipitation.count_rain xs)
                 (PyFloat.round2 hi)
                 (PyFloat.round2 (Spec.mean xs))
                 (Z.of_nat (List.length xs))))].
Proof.
  intros Hkey Hxs.
  destruct (AggregatorFacts.max_not_nil xs Hxs) as [hi Hhi].
  exists hi. split; [assumption |].
  unfold Precipitation.reducer_monthly_totals.
  apply String.eqb_neq in Hkey. rewrite Hkey, numbers_json.
  destruct xs as [| x r]; [congruence |].
  rewrite Hhi, FloatFacts.div_by_length by (simpl; lia).
  reflexivity.
Qed.

Lemma reducer_monthly_totals_one k vs out :
  Precipitation.reducer_monthly_totals k vs = Some out ->
  out = [] \/ exists x, out = [(k, x)].
Proof.
  unfold Precipitation.reducer_monthly_totals.
  destruct (String.eqb k ERROR); [intros H; inversion H; now left |].
  destruct (Precipitation.numbers vs) as [xs |]; [| discriminate].
  destruct (match xs with [] => Some PyFloat.zero | _ :: _ => PyFloat.max xs end);
    [| discriminate].
  destruct (match xs with
            | [] => Some PyFloat.zero
            | _ :: _ => PyFloat.div (PyFloat.sum xs)
                          (PyFloat.of_int (Z.of_nat (List.length xs)))
            end); [| discriminate].
  intros H. inversion H. right. eauto.
Qed.

(** A record of the first step of the precipitation job. *)
Definition precipitation_month (kv : string * wire Precipitation.month_result) : Prop :=
  exists city y m result,
    fst kv = month_key city y m /\ 1 <= y <= 9999 /\ 1 <= m <= 12
    /\ snd kv = Json result
    /\ 1 <= Precipitation.total_days result.

Lemma precipitation_stage1 lines :
  exists records,
    Precipitation.stage1 lines = Some records
    /\ NoDup (map fst records)
    /\ Forall precipitation_month records.
Proof.
  unfold Precipitation.stage1, step.
  set (groups := shuffle (flat_map Precipitation.mapper_parse_precipitation lines)).
  assert (forall k vs, In (k, vs) groups ->
            exists out, Precipitation.reducer_monthly_totals k vs = Some out
                        /\ Forall precipitation_month out) as Hgroup.
  { intros k vs Hg. destruct (String.eqb k ERROR) eqn:Ek.
    - exists []. unfold Precipitation.reducer_monthly_totals. now rewrite Ek.
    - apply String.eqb_neq in Ek.
      destruct (precipitation_group lines k vs Hg Ek)
        as (xs & -> & Hne & city & y & m & Hk & Hy & Hm).
      destruct (reducer_monthly_totals_emits k xs Ek Hne) as (hi & _ & Hr).
      eexists. split; [exact Hr |].
      constructor; [| constructor].
      exists city, y, m. eexists. simpl. repeat split; try assumption; try lia.
      destruct xs; [congruence | simpl; lia]. }
  destruct (ShuffleFacts.reduce_all_total Precipitation.reducer_monthly_totals groups)
    as [records Hrec].
  { intros k vs Hg. destruct (Hgroup k vs Hg) as (out & -> & _). now eexists. }
  exists records. split; [assumption |]. split.
  - apply (reduce_all_keys _ reducer_monthly_totals_one groups records Hrec).
    apply ShuffleFacts.shuffle_NoDup.
  - apply Forall_forall. intros r Hr.
    destruct (ShuffleFacts.reduce_all_In _ groups records r Hrec Hr)
      as (k & vs & out & Hg & Hout & Ho).
    destruct (Hgroup k vs Hg) as (out' & Hout' & Hall).
    rewrite Hout in Hout'. inversion Hout'; subst.
    rewrite Forall_forall in Hall. now apply Hall.
Qed.

(** A key under which the mapper emitted a record has its record after
    the first step. *)
Lemma temperature_stage1_key lines k v :
  In (k, v) (flat_map Temperature.mapper_parse_data lines) -> k <> ERROR ->
  exists records stats,
    Temperature.stage1 lines = Some records /\ In (k, Json stats) records.
Proof.
  intros Hin Hk.
  destruct (temperature_stage1 lines) as (records & Hrec & _ & _).
  exists records.
  assert (In (k, values_of k (flat_map Temperature.mapper_parse_data lines))
            (shuffle (flat_map Temperature.mapper_parse_data lines))) as Hg
      by (apply ShuffleFacts.shuffle_In; split;
          [now apply (in_map fst) in Hin | reflexivity]).
  destruct (temperature_group lines k _ Hg Hk) as (days & E & Hne & _).
  destruct (reducer_aggregate_temps_emits k days Hk Hne) as (stats & Hr & _).
  exists stats. split; [assumption |].
  rewrite <- E in Hr.
  eapply ShuffleFacts.reduce_all_In_rev; [exact Hrec | exact Hg | exact Hr | now left].
Qed.

Lemma precipitation_stage1_key lines k v :
  In (k, v) (flat_map Precipitation.mapper_parse_precipitation lines) -> k <> ERROR ->
  exists records result,
    Precipitation.stage1 lines = Some records /\ In (k, Json result) records.
Proof.
  intros Hin Hk.
  destruct (precipitation_stage1 lines) as (records & Hrec & _ & _).
  exists records.
  assert (In (k, values_of k (flat_map Precipitation.mapper_parse_precipitation lines))
            (shuffle (flat_map Precipitation.mapper_parse_precipitation lines))) as Hg
      by (apply ShuffleFacts.shuffle_In; split;
          [now apply (in_map fst) in Hin | reflexivity]).
  destruct (precipitation_group lines k _ Hg Hk) as (xs & E & Hne & _).
  destruct (reducer_monthly_totals_emits k xs Hk Hne) as (hi & _ & Hr).
  eexists. split; [assumption |].
  rewrite <- E in Hr.
  eapply ShuffleFacts.reduce_all_In_rev; [exact Hrec | exact Hg | exact Hr | now left].
Qed.


End StageOneFacts.

(* ================================================================== *)
(** * The second step of both jobs                                     *)
(* ================================================================== *)

Module StageTwoFacts.
Import MRJob.

(** ** Sorting by month *)

Lemma insert_by_month_In x l z :
  In z (Temperature.insert_by_month x l) <-> z = x \/ In z l.
Proof.
  induction l as [| y r IH]; simpl; [intuition congruence |].
  destruct (Temperature.month x <=? Temperature.month y); simpl;
    [intuition congruence |].
  rewrite IH. intuition congruence.
Qed.

Lemma sort_by_month_In l z : In z (Temperature.sort_by_month l) <-> In z l.
Proof.
  induction l as [| x r IH]; simpl; [tauto |].
  rewrite insert_by_month_In, IH. intuition congruence.
Qed.

Lemma insert_by_month_sorted x l :
  StronglySorted Z.lt (map Temperature.month l) ->
  ~ In (Temperature.month x) (map Temperature.month l) ->
  StronglySorted Z.lt (map Temperature.month (Temperature.insert_by_month x l)).
Proof.
  induction l as [| y r IH]; simpl; intros Hs Hn.
  - repeat constructor.
  - apply StronglySorted_inv in Hs as [Hr Hy].
    destruct (Temperature.month x <=? Temperature.month y) eqn:E; simpl.
    + apply Z.leb_le in E.
      assert (Temperature.month x < Temperature.month y) as Hlt by (intuition lia).
      constructor; [now constructor |].
      constructor; [assumption |].
      eapply Forall_impl; [| exact Hy]. simpl. intros; lia.
    + apply Z.leb_gt in E. constructor.
      * apply IH; [assumption | tauto].
      * apply Forall_forall. intros z Hz.
        apply in_map_iff in Hz as [o [<- Ho]].
        apply insert_by_month_In in Ho as [-> | Ho]; [assumption |].
        rewrite Forall_forall in Hy. apply Hy. now apply in_map.
Qed.

(** Records of pairwise different months come out in strictly increasing
    order of month. *)
Lemma sort_by_month_sorted l :
  NoDup (map Temperature.month l) ->
  StronglySorted Z.lt (map Temperature.month (Temperature.sort_by_month l)).
Proof.
  induction l as [| x r IH]; simpl; intros Hn; [constructor |].
  inversion Hn; subst.
  apply insert_by_month_sorted; [now apply IH |].
  intros H. apply in_map_iff in H as [o [E Ho]].
  rewrite sort_by_month_In in Ho.
  apply (in_map Temperature.month) in Ho. congruence.
Qed.

(** ** What the second mappers emit *)

Lemma loaded_app {A} (a b : list (wire A)) :
  Temperature.loaded (a ++ b) = (Temperature.loaded a ++ Temperature.loaded b)%list.
Proof.
  induction a as [| v a IH]; simpl; [reflexivity |].
  destruct (json_loads v); simpl; now rewrite IH.
Qed.

Lemma loaded_In {A} (vs : list (wire A)) o :
  In o (Temperature.loaded vs) <-> In (Json o) vs.
Proof.
  induction vs as [| v vs IH]; simpl; [tauto |].
  destruct v as [a | t]; simpl; rewrite IH; intuition congruence.
Qed.

Lemma loaded_same {A} (vs : list (wire A)) :
  Precipitation.loaded vs = Temperature.loaded vs.
Proof. induction vs as [| v vs IH]; simpl; [reflexivity | now rewrite IH]. Qed.

(** The key of the second step tells city and year apart. *)
Lemma city_year_key_inj c1 y1 c2 y2 :
  PyStr.contains PyStr.underscore c1 = false ->
  PyStr.contains PyStr.underscore c2 = false ->
  0 <= y1 -> 0 <= y2 ->
  (c1 ++ "_" ++ PyStr.str_of_int y1 = c2 ++ "_" ++ PyStr.str_of_int y2)%string ->
  c1 = c2 /\ y1 = y2.
Proof.
  intros H1 H2 Hy1 Hy2 E.
  apply (f_equal (PyStr.split PyStr.underscore)) in E.
  change ("_" ++ PyStr.str_of_int y1)%string
    with (String PyStr.underscore (PyStr.str_of_int y1)) in E.
  change ("_" ++ PyStr.str_of_int y2)%string
    with (String PyStr.underscore (PyStr.str_of_int y2)) in E.
  rewrite !StrFacts.split_app in E by assumption.
  rewrite !StrFacts.split_clean in E
    by (apply StrFacts.all_digits_clean; now apply StrFacts.str_of_int_all_digits).
  inversion E as [[Hc Hs]]. split; [reflexivity |].
  apply (f_equal (fun s => PyStr.digits_value s false 0)) in Hs.
  rewrite !StrFacts.digits_value_str_of_int in Hs by assumption.
  congruence.
Qed.

(** A record of the second mapper of the temperature job. *)
Definition temperature_output (kv : string * wire Temperature.month_output) : Prop :=
  (fst kv = ERROR /\ exists msg, snd kv = Text msg)
  \/ (exists o,
        snd kv = Json o
        /\ fst kv = (Temperature.city o ++ "_" ++ PyStr.str_of_int (Temperature.year o))%string
        /\ PyStr.contains PyStr.underscore (Temperature.city o) = false
        /\ 1 <= Temperature.year o <= 9999 /\ 1 <= Temperature.month o <= 12
        /\ Temperature.city_year_month (Temperature.stats o)
           = month_key (Temperature.city o) (Temperature.year o) (Temperature.month o)).

Lemma month_name_some y m name :
  PyDate.month_name y m = Some name -> 1 <= y <= 9999 /\ 1 <= m <= 12.
Proof.
  unfold PyDate.month_name, PyDate.valid_date.
  destruct ((1 <=? y) && (y <=? 9999) && (1 <=? m) && (m <=? 12) && (1 <=? 1)
            && (1 <=? PyDate.days_in_month y m)) eqn:V; [| discriminate].
  intros _. repeat (apply andb_prop in V as [V ?]). lia.
Qed.

(** On a record of the first step the second mapper emits one record: an
    error record, or the month under the key of its city and year. *)
Lemma mapper_format_output_month kv :
  StageOneFacts.temperature_month kv ->
  (exists msg, Temperature.mapper_format_output (fst kv) (snd kv) = [(ERROR, Text msg)])
  \/ (exists k o,
        Temperature.mapper_format_output (fst kv) (snd kv) = [(k, Json o)]
        /\ temperature_output (k, Json o)
        /\ Temperature.city_year_month (Temperature.stats o) = fst kv).
Proof.
  intros (city & y & m & stats & Hk & Hy & Hm & Hv & Hs & _).
  destruct kv as [k v]. simpl in *. subst k v.
  destruct (PyStr.contains PyStr.underscore city) eqn:Hc.
  - left. eexists.
    unfold Temperature.mapper_format_output.
    rewrite StrFacts.month_key_not_error. simpl json_loads. cbv iota.
    destruct (unpack3 (PyStr.split PyStr.underscore (month_key city y m)))
      as [[[a b] c] |] eqn:E; [| reflexivity].
    exfalso.
    pose proof (StrFacts.split_month_key_underscore city y m Hc) as L.
    destruct (PyStr.split PyStr.underscore (month_key city y m))
      as [| p1 [| p2 [| p3 [| p4 r]]]]; simpl in *; try discriminate; lia.
  - right.
    pose proof (StrFacts.split_month_key city y m Hc ltac:(lia) ltac:(lia)) as Hsplit.
    assert (PyStr.int_of_str (PyStr.str_of_int y) = Some y) as Hiy
        by (apply StrFacts.int_of_str_str_of_int;
            [lia | apply StrFacts.printable_small; lia]).
    assert (PyStr.int_of_str (PyStr.format_02d m) = Some m) as Him
        by (apply StrFacts.int_of_str_format_02d;
            [lia | apply StrFacts.printable_small; lia]).
    destruct (PyDate.month_name y m) as [name |] eqn:Hname.
    + exists (city ++ "_" ++ PyStr.str_of_int y)%string,
             (Temperature.mkOutput city y m name stats).
      unfold Temperature.mapper_format_output.
      rewrite StrFacts.month_key_not_error, Hsplit. simpl.
      rewrite Hiy, Him, Hname. split; [reflexivity |].
      split; [| assumption].
      right. eexists. split; [reflexivity |]. simpl.
      repeat split; try reflexivity; try assumption; lia.
    + exfalso. unfold PyDate.month_name, PyDate.valid_date in Hname.
      replace (1 <=? y) with true in Hname by (symmetry; apply Z.leb_le; lia).
      replace (y <=? 9999) with true in Hname by (symmetry; apply Z.leb_le; lia).
      replace (1 <=? m) with true in Hname by (symmetry; apply Z.leb_le; lia).
      replace (m <=? 12) with true in Hname by (symmetry; apply Z.leb_le; lia).
      replace (1 <=? PyDate.days_in_month y m) with true in Hname;
        [discriminate |].
      symmetry. apply Z.leb_le. unfold PyDate.days_in_month.
      destruct (m =? 2); [destruct (PyDate.is_leap y); lia |].
      destruct ((m =? 4) || (m =? 6) || (m =? 9) || (m =? 11)); lia.
Qed.

(** ** The groups of the second step of the temperature job *)

Lemma NoDup_tags {A B} (key : A -> string) (h : A -> list B) (tag : B -> string) l :
  NoDup (map key l) ->
  (forall a, In a l -> h a = [] \/ exists b, h a = [b] /\ tag b = key a) ->
  NoDup (map tag (flat_map h l))
  /\ forall t, In t (map tag (flat_map h l)) -> In t (map key l).
Proof.
  induction l as [| a l IH]; simpl; intros Hn Hh.
  - split; [constructor | tauto].
  - inversion Hn; subst.
    destruct IH as [IH1 IH2]; [assumption | intros; apply Hh; now right |].
    destruct (Hh a (or_introl eq_refl)) as [-> | (b & -> & Hb)]; simpl.
    + split; [assumption | intros; right; now apply IH2].
    + split.
      * constructor; [| assumption]. rewrite Hb. intros H. now apply IH2 in H.
      * intros t [<- | Ht]; [now left | right; now apply IH2].
Qed.

Lemma loaded_flat_map {A B} (g : A -> list (string * wire B)) l :
  Temperature.loaded (map snd (flat_map g l))
  = flat_map (fun a => Temperature.loaded (map snd (g a))) l.
Proof.
  induction l as [| a l IH]; simpl; [reflexivity |].
  now rewrite map_app, loaded_app, IH.
Qed.

(** The values of one group are among the values of all groups, in the
    same order. *)
Lemma loaded_values_of_NoDup {A} (f : A -> string) k (kvs : list (string * wire A)) :
  (forall t, In t (map f (Temperature.loaded (values_of k kvs))) ->
             In t (map f (Temperature.loaded (map snd kvs))))
  /\ (NoDup (map f (Temperature.loaded (map snd kvs))) ->
      NoDup (map f (Temperature.loaded (values_of k kvs)))).
Proof.
  unfold values_of.
  induction kvs as [| [k' v] r [IH1 IH2]]; simpl; [split; [tauto | auto] |].
  destruct (String.eqb k' k); simpl; destruct v as [o | msg]; simpl.
  - split.
    + intros t [<- | Ht]; [now left | right; now apply IH1].
    + intros Hn. inversion Hn; subst. constructor; [| now apply IH2].
      intros H. now apply IH1 in H.
  - split; assumption.
  - split.
    + intros t Ht. right. now apply IH1.
    + intros Hn. inversion Hn; subst. now apply IH2.
  - split; assumption.
Qed.

Definition format_records (records : list (string * wire Temperature.month_stats)) :=
  flat_map (fun kv => Temperature.mapper_format_output (fst kv) (snd kv)) records.

(** What reaches the second shuffle: records of the shape above, no two
    of them from the same record of the first step. *)
Lemma temperature_mapped2 records :
  NoDup (map fst records) ->
  Forall StageOneFacts.temperature_month records ->
  Forall temperature_output (format_records records)
  /\ NoDup (map (fun o => Temperature.city_year_month (Temperature.stats o))
             (Temperature.loaded (map snd (format_records records)))).
Proof.
  intros Hn Hall. rewrite Forall_forall in Hall. split.
  - apply Forall_forall. intros e He.
    apply in_flat_map in He as [kv [Hkv He]].
    destruct (mapper_format_output_month kv (Hall kv Hkv))
      as [[msg E] | (k & o & E & Ho & _)]; rewrite E in He;
      destruct He as [<- | []]; [| assumption].
    left. simpl. eauto.
  - unfold format_records. rewrite loaded_flat_map.
    apply (NoDup_tags fst); [assumption |].
    intros kv Hkv.
    destruct (mapper_format_output_month kv (Hall kv Hkv))
      as [[msg E] | (k & o & E & _ & Ho)]; rewrite E; simpl.
    + now left.
    + right. now exists o.
Qed.

(** The records of one group of the second step: one city, one year,
    pairwise different months. *)
Lemma temperature_group2 records key values :
  NoDup (map fst records) ->
  Forall StageOneFacts.temperature_month records ->
  In (key, values) (shuffle (format_records records)) ->
  key <> ERROR ->
  NoDup (map Temperature.month (Temperature.loaded values))
  /\ exists c y,
       key = (c ++ "_" ++ PyStr.str_of_int y)%string
       /\ PyStr.contains PyStr.underscore c = false
       /\ forall o, In o (Temperature.loaded values) ->
                    Temperature.city o = c /\ Temperature.year o = y
                    /\ 1 <= Temperature.month o <= 12.
Proof.
  intros Hn Hall Hg Hkey.
  destruct (temperature_mapped2 records Hn Hall) as [Hout Htags].
  rewrite Forall_forall in Hout.
  pose proof Hg as Hg'. apply ShuffleFacts.shuffle_In in Hg' as [_ ->].
  apply ShuffleFacts.shuffle_group in Hg as [Hne Hvs].
  assert (forall o, In o (Temperature.loaded (values_of key (format_records records))) ->
            key = (Temperature.city o ++ "_" ++ PyStr.str_of_int (Temperature.year o))%string
            /\ PyStr.contains PyStr.underscore (Temperature.city o) = false
            /\ 1 <= Temperature.year o <= 9999 /\ 1 <= Temperature.month o <= 12
            /\ Temperature.city_year_month (Temperature.stats o)
               = month_key (Temperature.city o) (Temperature.year o) (Temperature.month o))
    as Hin.
  { intros o Ho. apply loaded_In, Hvs, Hout in Ho.
    destruct Ho as [[E _] | (o' & E & H)]; simpl in *; [congruence |].
    inversion E; subst o'. exact H. }
  destruct (Temperature.loaded (values_of key (format_records records)))
    as [| o0 os] eqn:Eos.
  - (* no record was read: the values of the group are texts, whose key is
       the error key *)
    exfalso.
    destruct (values_of key (format_records records)) as [| v vs] eqn:Ev;
      [now apply Hne |].
    assert (In (key, v) (format_records records)) as Hv
        by (apply Hvs; now left).
    apply Hout in Hv. destruct Hv as [[E _] | (o & E & _)]; simpl in *;
      [congruence |].
    subst v. simpl in Eos. discriminate.
  - destruct (Hin o0 (or_introl eq_refl)) as (Hk0 & Hc0 & Hy0 & _).
    assert (forall o, In o (o0 :: os) ->
              Temperature.city o = Temperature.city o0
              /\ Temperature.year o = Temperature.year o0) as Hsame.
    { intros o Ho. destruct (Hin o Ho) as (Hk & Hc & Hy & _).
      rewrite Hk0 in Hk.
      apply city_year_key_inj in Hk; [| assumption | assumption | lia | lia].
      destruct Hk. split; congruence. }
    split.
    + apply (NoDup_map_inv
               (month_key (Temperature.city o0) (Temperature.year o0))).
      rewrite map_map.
      pose proof (proj2 (loaded_values_of_NoDup
                     (fun o => Temperature.city_year_month (Temperature.stats o))
                     key (format_records records)) Htags) as Hnd.
      rewrite Eos in Hnd.
      erewrite map_ext_in; [exact Hnd |].
      intros o Ho. simpl.
      destruct (Hin o Ho) as (_ & _ & _ & _ & ->).
      destruct (Hsame o Ho) as [-> ->]. reflexivity.
    + exists (Temperature.city o0), (Temperature.year o0).
      split; [assumption |]. split; [assumption |].
      intros o Ho. destruct (Hsame o Ho) as [-> ->].
      destruct (Hin o Ho) as (_ & _ & _ & Hm & _). auto.
Qed.

(** ** The whole temperature job *)

(** The job never aborts, and every line of its result names a city
    without underscore. *)
Lemma temperature_run lines :
  exists records rows,
    Temperature.stage1 lines = Some records
    /\ Temperature.run lines = Some rows
    /\ forall row, In row rows ->
         PyStr.contains PyStr.underscore (Temperature.col_city row) = false.
Proof.
  destruct (StageOneFacts.temperature_stage1 lines) as (records & H1 & Hn & Hall).
  exists records. unfold Temperature.run. rewrite H1.
  unfold Temperature.stage2, step. fold (format_records records).
  destruct (ShuffleFacts.reduce_all_total Temperature.reducer_final_output
              (shuffle (format_records records))) as [rows Hrows].
  { intros k vs _. unfold Temperature.reducer_final_output.
    destruct (String.eqb k ERROR); now eexists. }
  exists rows. split; [reflexivity |]. split; [assumption |].
  intros row Hrow.
  destruct (ShuffleFacts.reduce_all_In _ _ _ row Hrows Hrow)
    as (k & vs & out & Hg & Hout & Ho).
  unfold Temperature.reducer_final_output in Hout.
  destruct (String.eqb k ERROR) eqn:Ek; inversion Hout; subst out; [destruct Ho |].
  apply in_map_iff in Ho as [o [<- Ho]].
  rewrite sort_by_month_In, loaded_In in Ho.
  apply ShuffleFacts.shuffle_group in Hg as [_ Hvs].
  apply Hvs in Ho.
  destruct (temperature_mapped2 records Hn Hall) as [Hshape _].
  rewrite Forall_forall in Hshape. apply Hshape in Ho.
  destruct Ho as [[_ [msg E]] | (o' & E & _ & Hc & _)]; simpl in E;
    [discriminate |].
  inversion E; subst o'. exact Hc.
Qed.

(** ** The second step of the precipitation job *)

Definition precipitation_enhanced (kv : string * wire Precipitation.enhanced) : Prop :=
  (fst kv = ERROR /\ exists msg, snd kv = Text msg)
  \/ (exists e,
        snd kv = Json e /\ fst kv <> ERROR
        /\ PyStr.contains PyStr.underscore (Precipitation.city e) = false).

(** Whatever it is given, the second mapper emits error records and
    records of a city without underscore under a key other than the error
    key. *)
Lemma mapper_add_season_shape k v :
  Forall precipitation_enhanced (Precipitation.mapper_add_season k v).
Proof.
  unfold Precipitation.mapper_add_season.
  destruct (String.eqb k ERROR); [constructor |].
  assert (precipitation_enhanced (ERROR, Text "Season mapping error: ")) as Herr
      by (left; simpl; eauto).
  assert (Forall precipitation_enhanced [(ERROR, @Text Precipitation.enhanced "Season mapping error: ")])
    as Herrs by (constructor; [exact Herr | constructor]).
  destruct (json_loads v) as [data |]; simpl; [| exact Herrs].
  pose proof (StrFacts.split_parts_clean PyStr.underscore k) as Hclean.
  destruct (PyStr.split PyStr.underscore k) as [| a [| b [| c [| d r]]]];
    simpl; try exact Herrs.
  destruct (PyStr.int_of_str c) as [month_num |]; simpl; [| exact Herrs].
  destruct (PyStr.int_of_str b) as [y |]; simpl; [| exact Herrs].
  constructor; [| constructor].
  right. eexists. split; [reflexivity |]. simpl. split.
  - intros E.
    assert (PyStr.contains PyStr.underscore ERROR = true) as C
        by (rewrite <- E, StrFacts.contains_app; simpl; apply orb_true_r).
    discriminate C.
  - now inversion Hclean.
Qed.

Definition season_records (records : list (string * wire Precipitation.month_result)) :=
  flat_map (fun kv => Precipitation.mapper_add_season (fst kv) (snd kv)) records.

(** The last reducer on a group of records: no exception, one line, which
    counts the records of the group. *)
Lemma reducer_seasonal_analysis_emits key first rest :
  key <> ERROR ->
  exists line,
    Precipitation.reducer_seasonal_analysis key (map Json (first :: rest)) = Some [line]
    /\ Precipitation.col_city line = Precipitation.city first
    /\ Precipitation.col_months_in_season line = Z.of_nat (S (List.length rest)).
Proof.
  intros Hkey. unfold Precipitation.reducer_seasonal_analysis.
  apply String.eqb_neq in Hkey. rewrite Hkey.
  rewrite AggregatorFacts.loaded_json. cbv iota beta.
  destruct (AggregatorFacts.max_not_nil
              (map (fun d => Precipitation.monthly_total (Precipitation.data d))
                 (first :: rest))) as [hi Hhi]; [discriminate |].
  rewrite Hhi.
  rewrite FloatFacts.div_by_length by (simpl; lia).
  eexists. split; [reflexivity |]. split; reflexivity.
Qed.

(** The job never aborts; every line of its result counts at least one
    month and names a city without underscore. *)
Lemma precipitation_run lines :
  exists records rows,
    Precipitation.stage1 lines = Some records
    /\ Precipitation.run lines = Some rows
    /\ forall row, In row rows ->
         1 <= Precipitation.col_months_in_season row
         /\ PyStr.contains PyStr.underscore (Precipitation.col_city row) = false.
Proof.
  destruct (StageOneFacts.precipitation_stage1 lines) as (records & H1 & Hn & Hall).
  exists records. unfold Precipitation.run. rewrite H1.
  unfold Precipitation.stage2, step. fold (season_records records).
  assert (forall e, In e (season_records records) -> precipitation_enhanced e) as Hshape.
  { intros e He. apply in_flat_map in He as [kv [_ He]].
    pose proof (mapper_add_season_shape (fst kv) (snd kv)) as H.
    rewrite Forall_forall in H. now apply H. }
  assert (forall k vs, In (k, vs) (shuffle (season_records records)) ->
            exists out, Precipitation.reducer_seasonal_analysis k vs = Some out
              /\ forall row, In row out ->
                   1 <= Precipitation.col_months_in_season row
                   /\ PyStr.contains PyStr.underscore (Precipitation.col_city row) = false)
    as Hgroup.
  { intros k vs Hg. destruct (String.eqb k ERROR) eqn:Ek.
    - exists []. unfold Precipitation.reducer_seasonal_analysis. rewrite Ek.
      split; [reflexivity | intros ? []].
    - apply String.eqb_neq in Ek.
      apply ShuffleFacts.shuffle_group in Hg as [Hne Hvs].
      assert (forall v, In v vs ->
                exists e, v = Json e
                  /\ PyStr.contains PyStr.underscore (Precipitation.city e) = false)
        as Hjson.
      { intros v Hv. apply Hvs, Hshape in Hv.
        destruct Hv as [[E _] | (e & E & _ & Hc)]; simpl in *; [congruence |].
        now exists e. }
      destruct (StageOneFacts.all_json vs) as [es ->];
        [intros v Hv; destruct (Hjson v Hv) as (e & -> & _); now exists e |].
      destruct es as [| e0 es]; [now destruct Hne |].
      destruct (reducer_seasonal_analysis_emits k e0 es Ek) as (line & Hr & Hc & Hm).
      exists [line]. split; [assumption |].
      intros row [<- | []]. split; [lia |].
      rewrite Hc. destruct (Hjson (Json e0)) as (e & E & He); [now left |].
      now inversion E; subst. }
  destruct (ShuffleFacts.reduce_all_total Precipitation.reducer_seasonal_analysis
              (shuffle (season_records records))) as [rows Hrows].
  { intros k vs Hg. destruct (Hgroup k vs Hg) as (out & -> & _). now eexists. }
  exists rows. split; [reflexivity |]. split; [assumption |].
  intros row Hrow.
  destruct (ShuffleFacts.reduce_all_In _ _ _ row Hrows Hrow)
    as (k & vs & out & Hg & Hout & Ho).
  destruct (Hgroup k vs Hg) as (out' & Hout' & Hrows').
  rewrite Hout in Hout'. inversion Hout'; subst. now apply Hrows'.
Qed.

End StageTwoFacts.

(* ================================================================== *)
(** * The reducers and the order of the values                         *)
(* ================================================================== *)

Module OrderFacts.
Import MRJob.

Lemma loaded_permutation {A} (vs vs' : list (wire A)) :
  Permutation vs vs' -> Permutation (Temperature.loaded vs) (Temperature.loaded vs').
Proof.
  induction 1 as [| v l l' _ IH | v w l | l l' l'' _ IH1 _ IH2]; simpl.
  - constructor.
  - destruct (json_loads v); [now constructor | assumption].
  - destruct (json_loads v), (json_loads w); try apply Permutation_refl.
    apply perm_swap.
  - now apply (Permutation_trans IH1).
Qed.

Lemma total_permutation l l' : Permutation l l' -> Spec.total l = Spec.total l'.
Proof.
  unfold Spec.total.
  induction 1 as [| x l l' _ IH | x y l | l l' l'' _ IH1 _ IH2]; simpl; lia.
Qed.

(** The loop of the first temperature reducer skips the texts. *)
Lemma collect_temps_loaded vs : forall a b c t,
  fold_left Temperature.collect_temps vs (a, b, c, t)
  = ((a ++ map Temperature.temp_max (Temperature.loaded vs))%list,
     (b ++ map Temperature.temp_min (Temperature.loaded vs))%list,
     (c ++ map Temperature.temp_mean (Temperature.loaded vs))%list,
     t + Spec.total (map Temperature.count (Temperature.loaded vs))).
Proof.
  induction vs as [| v vs IH]; intros a b c t; simpl.
  - now rewrite !app_nil_r, Z.add_0_r.
  - destruct v as [d | msg]; simpl; rewrite IH.
    + rewrite <- !app_assoc. simpl. f_equal. lia.
    + reflexivity.
Qed.

(** The record of the first temperature reducer, from the daily values
    that it reads. *)
Lemma reducer_aggregate_temps_closed key vs :
  key <> ERROR ->
  Temperature.reducer_aggregate_temps key vs
  = match Temperature.loaded vs with
    | [] => Some []
    | first :: rest =>
        hi <- PyFloat.max (map Temperature.temp_max (first :: rest)) ;;
        lo <- PyFloat.min (map Temperature.temp_min (first :: rest)) ;;
        Some [(key, Json (Temperature.mkStats key
                 (PyFloat.round2 (Spec.mean (map Temperature.temp_max (first :: rest))))
                 (PyFloat.round2 (Spec.mean (map Temperature.temp_min (first :: rest))))
                 (PyFloat.round2 (Spec.mean (map Temperature.temp_mean (first :: rest))))
                 (PyFloat.round2 hi) (PyFloat.round2 lo)
                 (Spec.total (map Temperature.count (first :: rest)))))]
    end.
Proof.
  intros Hkey. unfold Temperature.reducer_aggregate_temps.
  apply String.eqb_neq in Hkey. rewrite Hkey.
  rewrite collect_temps_loaded. cbn [app].
  destruct (Temperature.loaded vs) as [| d ds]; [reflexivity |].
  set (days := d :: ds).
  assert (forall f : Temperature.day_value -> PyFloat.float, map f days <> []) as Hmap
      by (intros f; discriminate).
  destruct (AggregatorFacts.max_not_nil _ (Hmap Temperature.temp_max)) as [hi Hhi].
  destruct (AggregatorFacts.min_not_nil _ (Hmap Temperature.temp_min)) as [lo Hlo].
  destruct (map Temperature.temp_max days) as [| x xs] eqn:E;
    [now destruct (Hmap Temperature.temp_max) |].
  rewrite <- E in *.
  rewrite !AggregatorFacts.rounded_mean_spec by apply Hmap.
  rewrite Hhi, Hlo. reflexivity.
Qed.

Lemma numbers_spec vs xs : Precipitation.numbers vs = Some xs <-> vs = map Json xs.
Proof.
  revert xs. induction vs as [| v vs IH]; intros xs; simpl.
  - split; [intros H; now inversion H | destruct xs; [reflexivity | discriminate]].
  - destruct v as [x | msg]; simpl.
    + destruct (Precipitation.numbers vs) as [ys |].
      * split.
        -- intros H. inversion H; subst. simpl. f_equal. now apply IH.
        -- destruct xs as [| x' xs]; [discriminate |].
           intros H. inversion H; subst. f_equal. f_equal.
           assert (Some ys = Some xs) as E by now apply IH. now inversion E.
      * split; [discriminate |].
        destruct xs as [| x' xs]; [discriminate |].
        intros H. inversion H; subst.
        assert (@None (list PyFloat.float) = Some xs) as E by now apply IH.
        discriminate E.
    + split; [discriminate | destruct xs; discriminate].
Qed.

Lemma numbers_permutation vs vs' :
  Permutation vs vs' ->
  match Precipitation.numbers vs, Precipitation.numbers vs' with
  | Some xs, Some xs' => Permutation xs xs'
  | None, None => True
  | _, _ => False
  end.
Proof.
  intros Hp.
  assert (forall a b xs, Permutation a b -> Precipitation.numbers a = Some xs ->
            exists xs', Precipitation.numbers b = Some xs' /\ Permutation xs xs') as H.
  { intros a b xs Hab Ha. apply numbers_spec in Ha. subst a.
    apply Permutation_sym, Permutation_map_inv in Hab as (xs' & -> & Hxs).
    exists xs'. split; [now apply numbers_spec | assumption]. }
  destruct (Precipitation.numbers vs) as [xs |] eqn:E1.
  - destruct (H vs vs' xs Hp E1) as (xs' & -> & Hxs). assumption.
  - destruct (Precipitation.numbers vs') as [xs' |] eqn:E2; [| exact I].
    destruct (H vs' vs xs' (Permutation_sym Hp) E2) as (xs & E & _). congruence.
Qed.

Lemma count_rain_permutation xs xs' :
  Permutation xs xs' -> Precipitation.count_rain xs = Precipitation.count_rain xs'.
Proof.
  intros Hp. unfold Precipitation.count_rain. f_equal.
  apply Permutation_length.
  induction Hp as [| x l l' _ IH | x y l | l l' l'' _ IH1 _ IH2]; simpl.
  - constructor.
  - destruct (PyFloat.gt x PyFloat.zero); [now constructor | assumption].
  - destruct (PyFloat.gt x PyFloat.zero), (PyFloat.gt y PyFloat.zero);
      try apply Permutation_refl. apply perm_swap.
  - now apply (Permutation_trans IH1).
Qed.

(** The record of the first precipitation reducer, from the numbers of
    the group. *)
Lemma reducer_monthly_totals_closed key vs :
  key <> ERROR ->
  Precipitation.reducer_monthly_totals key vs
  = (xs <- Precipitation.numbers vs ;;
     hi <- match xs with [] => Some PyFloat.zero | _ :: _ => PyFloat.max xs end ;;
     Some [(key, Json (Precipitation.mkResult
              (PyFloat.round2 (PyFloat.sum xs))
              (Precipitation.count_rain xs)
              (PyFloat.round2 hi)
              (PyFloat.round2
                 (match xs with [] => PyFloat.zero | _ :: _ => Spec.mean xs end))
              (Z.of_nat (List.length xs))))]).
Proof.
  intros Hkey. unfold Precipitation.reducer_monthly_totals.
  apply String.eqb_neq in Hkey. rewrite Hkey.
  destruct (Precipitation.numbers vs) as [xs |]; [| reflexivity].
  destruct xs as [| x r]; [reflexivity |].
  destruct (AggregatorFacts.max_not_nil (x :: r)) as [hi Hhi]; [discriminate |].
  rewrite Hhi, FloatFacts.div_by_length by (simpl; lia).
  reflexivity.
Qed.

(** The line of the last precipitation reducer, from the records that it
    reads. *)
Lemma reducer_seasonal_analysis_closed key vs :
  key <> ERROR ->
  Precipitation.reducer_seasonal_analysis key vs
  = match Temperature.loaded vs with
    | [] => Some []
    | first :: rest =>
        hi <- PyFloat.max (map (fun d => Precipitation.monthly_total (Precipitation.data d))
                             (first :: rest)) ;;
        Some [Precipitation.mkLine
                (Precipitation.city first) (Precipitation.year first)
                (Precipitation.season first)
                (PyFloat.round2
                   (PyFloat.sum (map (fun d => Precipitation.monthly_total
                                                 (Precipitation.data d)) (first :: rest))))
                (PyFloat.round2
                   (Spec.mean (map (fun d => Precipitation.monthly_total
                                               (Precipitation.data d)) (first :: rest))))
                (PyFloat.round2 hi)
                (Spec.total (map (fun d => Precipitation.days_with_rain
                                             (Precipitation.data d)) (first :: rest)))
                (Z.of_nat (List.length (first :: rest)))]
    end.
Proof.
  intros Hkey. unfold Precipitation.reducer_seasonal_analysis.
  apply String.eqb_neq in Hkey. rewrite Hkey.
  rewrite StageTwoFacts.loaded_same.
  destruct (Temperature.loaded vs) as [| first rest]; [reflexivity |].
  destruct (AggregatorFacts.max_not_nil
              (map (fun d => Precipitation.monthly_total (Precipitation.data d))
                 (first :: rest))) as [hi Hhi]; [discriminate |].
  rewrite Hhi. unfold Spec.mean.
  rewrite length_map.
  rewrite FloatFacts.div_by_length by (simpl; lia).
  rewrite AggregatorFacts.total_fold_left. reflexivity.
Qed.

End OrderFacts.

(* ================================================================== *)
(** * The groupings that MRJob may choose                              *)
(* ================================================================== *)

Module ScheduleFacts.
Import MRJob.

Lemma permutation_filter {A} (p : A -> bool) l l' :
  Permutation l l' -> Permutation (filter p l) (filter p l').
Proof.
  induction 1 as [| x l l' _ IH | x y l | l l' l'' _ IH1 _ IH2]; simpl.
  - constructor.
  - destruct (p x); [now constructor | assumption].
  - destruct (p x), (p y); try reflexivity. apply perm_swap.
  - now transitivity (filter p l').
Qed.

(** The grouping in the order of emission is one of them. *)
Lemma shuffle_grouping {V} (kvs : list (string * V)) : grouping kvs (shuffle kvs).
Proof.
  split.
  - now rewrite ShuffleFacts.shuffle_keys.
  - intros k vs Hg. apply ShuffleFacts.shuffle_In in Hg as [_ ->]. reflexivity.
Qed.

Lemma step_outcome {I V O} (mapper : I -> list (string * V))
    (reducer : string -> list V -> option (list O)) input :
  outcome mapper reducer input (step mapper reducer input).
Proof. eexists. split; [apply shuffle_grouping | reflexivity]. Qed.

Lemma grouping_In {V} (kvs : list (string * V)) groups k vs v :
  grouping kvs groups -> In (k, vs) groups -> In v vs -> In (k, v) kvs.
Proof.
  intros [_ Hvs] Hg Hv. apply ShuffleFacts.values_of_In.
  now apply (Permutation_in _ (Hvs k vs Hg)).
Qed.




(** ** No grouping makes a reducer raise *)

Lemma reducer_aggregate_temps_total key vs :
  exists out, Temperature.reducer_aggregate_temps key vs = Some out.
Proof.
  destruct (String.eqb key ERROR) eqn:Ek.
  - unfold Temperature.reducer_aggregate_temps. rewrite Ek. now eexists.
  - apply String.eqb_neq in Ek.
    rewrite OrderFacts.reducer_aggregate_temps_closed by assumption.
    destruct (Temperature.loaded vs) as [| d ds]; [now eexists |].
    destruct (AggregatorFacts.max_not_nil (map Temperature.temp_max (d :: ds)))
      as [hi ->]; [discriminate |].
    destruct (AggregatorFacts.min_not_nil (map Temperature.temp_min (d :: ds)))
      as [lo ->]; [discriminate |].
    now eexists.
Qed.

Lemma reducer_final_output_total key vs :
  exists out, Temperature.reducer_final_output key vs = Some out.
Proof.
  unfold Temperature.reducer_final_output.
  destruct (String.eqb key ERROR); now eexists.
Qed.

Lemma reducer_seasonal_analysis_total key vs :
  exists out, Precipitation.reducer_seasonal_analysis key vs = Some out.
Proof.
  destruct (String.eqb key ERROR) eqn:Ek.
  - unfold Precipitation.reducer_seasonal_analysis. rewrite Ek. now eexists.
  - apply String.eqb_neq in Ek.
    rewrite OrderFacts.reducer_seasonal_analysis_closed by assumption.
    destruct (Temperature.loaded vs) as [| d ds]; [now eexists |].
    destruct (AggregatorFacts.max_not_nil
                (map (fun d => Precipitation.monthly_total (Precipitation.data d))
                   (d :: ds))) as [hi ->]; [discriminate |].
    now eexists.
Qed.

Lemma reducer_monthly_totals_numbers key vs :
  (key <> ERROR -> forall v, In v vs -> exists x, v = Json x) ->
  exists out, Precipitation.reducer_monthly_totals key vs = Some out.
Proof.
  intros Hjson. destruct (String.eqb key ERROR) eqn:Ek.
  - unfold Precipitation.reducer_monthly_totals. rewrite Ek. now eexists.
  - apply String.eqb_neq in Ek.
    rewrite OrderFacts.reducer_monthly_totals_closed by assumption.
    destruct (StageOneFacts.all_json vs (Hjson Ek)) as [xs ->].
    rewrite StageOneFacts.numbers_json.
    destruct xs as [| x xs]; [now eexists |].
    destruct (AggregatorFacts.max_not_nil (x :: xs)) as [hi ->]; [discriminate |].
    now eexists.
Qed.

(** What a job gives under the grouping in the order of emission is one
    of the things that it may give. *)
Lemma temperature_run_outcome lines :
  Temperature.outcome lines (Temperature.run lines).
Proof.
  exists (Temperature.stage1 lines). split; [apply step_outcome |].
  unfold Temperature.run.
  destruct (Temperature.stage1 lines); [apply step_outcome | reflexivity].
Qed.

Lemma precipitation_run_outcome lines :
  Precipitation.outcome lines (Precipitation.run lines).
Proof.
  exists (Precipitation.stage1 lines). split; [apply step_outcome |].
  unfold Precipitation.run.
  destruct (Precipitation.stage1 lines); [apply step_outcome | reflexivity].
Qed.

(** Neither job aborts, whatever the groupings. *)
Lemma temperature_never_aborts lines result :
  Temperature.outcome lines result -> result <> None.
Proof.
  intros (first & (groups & _ & H1) & H2).
  destruct (ShuffleFacts.reduce_all_total Temperature.reducer_aggregate_temps groups)
    as [records Hrecords]; [intros; apply reducer_aggregate_temps_total |].
  rewrite Hrecords in H1. subst first.
  destruct H2 as (groups2 & _ & H2).
  destruct (ShuffleFacts.reduce_all_total Temperature.reducer_final_output groups2)
    as [rows Hrows]; [intros; apply reducer_final_output_total |].
  rewrite Hrows in H2. subst result. discriminate.
Qed.

Lemma precipitation_never_aborts lines result :
  Precipitation.outcome lines result -> result <> None.
Proof.
  intros (first & (groups & Hg & H1) & H2).
  destruct (ShuffleFacts.reduce_all_total Precipitation.reducer_monthly_totals groups)
    as [records Hrecords].
  { intros k vs Hin. apply reducer_monthly_totals_numbers.
    intros Hk v Hv.
    pose proof (grouping_In _ _ _ _ _ Hg Hin Hv) as Hkv.
    apply StageOneFacts.precipitation_mapped in Hkv.
    destruct Hkv as [[E _] | (c & y & m & x & _ & _ & _ & E)]; simpl in *;
      [contradiction | now exists x]. }
  rewrite Hrecords in H1. subst first.
  destruct H2 as (groups2 & _ & H2).
  destruct (ShuffleFacts.reduce_all_total Precipitation.reducer_seasonal_analysis groups2)
    as [rows Hrows]; [intros; apply reducer_seasonal_analysis_total |].
  rewrite Hrows in H2. subst result. discriminate.
Qed.

End ScheduleFacts.

(* ================================================================== *)
(** * The claims                                                       *)
(* ================================================================== *)

Module Claims.
Import MRJob.

(** ** C1: the monthly temperature aggregate *)

(** C1 (amended). For every key other than the error key and every
    non-empty group of N daily values as the parser emits them (each with
    count 1), the monthly aggregator emits exactly one record under that
    key, with [total_days = N], the three averages equal to
    [round(mean, 2)] of the daily max, min and mean values, and with
    [max_temp_recorded] and [min_temp_recorded] equal to the maximum of the
    daily max values and the minimum of the daily min values, each rounded
    to two decimals. *)
Theorem monthly_temperature_aggregate key (days : list Temperature.day_value) :
  key <> ERROR -> days <> [] ->
  Forall (fun d => Temperature.count d = 1) days ->
  exists hi lo,
    PyFloat.max (map Temperature.temp_max days) = Some hi
    /\ PyFloat.min (map Temperature.temp_min days) = Some lo
    /\ Temperature.reducer_aggregate_temps key (map Json days)
       = Some [(key, Json (Temperature.mkStats key
                 (PyFloat.round2 (Spec.mean (map Temperature.temp_max days)))
                 (PyFloat.round2 (Spec.mean (map Temperature.temp_min days)))
                 (PyFloat.round2 (Spec.mean (map Temperature.temp_mean days)))
                 (PyFloat.round2 hi) (PyFloat.round2 lo)
                 (Z.of_nat (List.length days))))].
Proof.
  intros Hkey Hdays Hcount.
  assert (forall f : Temperature.day_value -> PyFloat.float, map f days <> []) as Hmap
      by (intros f; destruct days; [congruence | discriminate]).
  destruct (AggregatorFacts.max_not_nil _ (Hmap Temperature.temp_max)) as [hi Hhi].
  destruct (AggregatorFacts.min_not_nil _ (Hmap Temperature.temp_min)) as [lo Hlo].
  exists hi, lo. split; [assumption | split; [assumption |]].
  unfold Temperature.reducer_aggregate_temps.
  apply String.eqb_neq in Hkey. rewrite Hkey.
  rewrite AggregatorFacts.collect_temps_fold. cbn [app].
  rewrite (AggregatorFacts.total_of_ones _ _ Hcount), Z.add_0_l.
  destruct (map Temperature.temp_max days) as [| x xs] eqn:E;
    [now destruct (Hmap Temperature.temp_max) |].
  rewrite <- E in *.
  rewrite !AggregatorFacts.rounded_mean_spec by apply Hmap.
  now rewrite Hhi, Hlo.
Qed.

(** The theorem on a group of two days. *)
Lemma monthly_temperature_aggregate_witness :
  exists hi lo stats,
    let days := [Temperature.mkDay (PyFloat.of_int 30) (PyFloat.of_int 20) (PyFloat.of_int 25) 1;
                 Temperature.mkDay (PyFloat.of_int 31) (PyFloat.of_int 21) (PyFloat.of_int 26) 1] in
    PyFloat.max (map Temperature.temp_max days) = Some hi
    /\ PyFloat.min (map Temperature.temp_min days) = Some lo
    /\ Temperature.reducer_aggregate_temps "Cali_2023_06" (map Json days)
       = Some [("Cali_2023_06", Json stats)]
    /\ Temperature.total_days stats = 2.
Proof.
  destruct (monthly_temperature_aggregate "Cali_2023_06"
              [Temperature.mkDay (PyFloat.of_int 30) (PyFloat.of_int 20) (PyFloat.of_int 25) 1;
               Temperature.mkDay (PyFloat.of_int 31) (PyFloat.of_int 21) (PyFloat.of_int 26) 1])
    as (hi & lo & Hhi & Hlo & H).
  - discriminate.
  - discriminate.
  - repeat constructor.
  - exists hi, lo. eexists. cbv zeta.
    split; [exact Hhi | split; [exact Hlo | split; [exact H | reflexivity]]].
Defined.

(** C1 as stated fails: the input line gives the daily maximum 30.456,
    the only value of its month, and the aggregator records 30.46. *)
Lemma max_temp_recorded_counterexample :
  exists day stats,
    Temperature.mapper_parse_data "2023-06-01,30.456,20.0,25.0,0.0,10.0,3600.0,Cali"
    = [("Cali_2023_06", Json day)]
    /\ Temperature.reducer_aggregate_temps "Cali_2023_06" [Json day]
       = Some [("Cali_2023_06", Json stats)]
    /\ PyFloat.max [Temperature.temp_max day] = Some (Temperature.temp_max day)
    /\ PyFloat.of_str "30.456" = Some (Temperature.temp_max day)
    /\ PyFloat.of_str "30.46" = Some (Temperature.max_temp_recorded stats)
    /\ Temperature.max_temp_recorded stats <> Temperature.temp_max day.
Proof.
  eexists. eexists.
  split; [vm_compute; reflexivity |].
  split; [vm_compute; reflexivity |].
  split; [reflexivity |].
  split; [vm_compute; reflexivity |].
  split; [vm_compute; reflexivity |].
  vm_compute. discriminate.
Qed.

(** ** C2: the seasonal aggregate *)




(** ** C3: the seasons *)

Lemma month_cases (m : Z) :
  1 <= m <= 12 ->
  m = 1 \/ m = 2 \/ m = 3 \/ m = 4 \/ m = 5 \/ m = 6 \/
  m = 7 \/ m = 8 \/ m = 9 \/ m = 10 \/ m = 11 \/ m = 12.
Proof. lia. Qed.

Ltac season_case :=
  cbv [Precipitation.get_season Precipitation.member existsb Z.eqb Pos.eqb orb
       Precipitation.Verano Precipitation.Transicion Precipitation.Invierno
       Precipitation.Lluvias_Tardias];
  split;
  [ first [ discriminate | intros _; simpl; tauto ]
  | first [ reflexivity | simpl; intros; exfalso; lia ] ].

(** C3. [get_season] is a total function on the months 1..12: the four
    labels are pairwise distinct, the four buckets {12,1,2}, {3,4,5},
    {6,7,8}, {9,10,11} have no month in common and cover exactly 1..12,
    and a month gets a label if and only if it lies in the bucket of that
    label (so every month gets exactly one label). *)
Theorem get_season_partitions_the_year :
  NoDup [Precipitation.Verano; Precipitation.Transicion;
         Precipitation.Invierno; Precipitation.Lluvias_Tardias]
  /\ NoDup ([12; 1; 2] ++ [3; 4; 5] ++ [6; 7; 8] ++ [9; 10; 11])%list
  /\ (forall m, 1 <= m <= 12 <->
                In m ([12; 1; 2] ++ [3; 4; 5] ++ [6; 7; 8] ++ [9; 10; 11])%list)
  /\ forall m, 1 <= m <= 12 ->
       (Precipitation.get_season m = Precipitation.Verano <-> In m [12; 1; 2])
       /\ (Precipitation.get_season m = Precipitation.Transicion <-> In m [3; 4; 5])
       /\ (Precipitation.get_season m = Precipitation.Invierno <-> In m [6; 7; 8])
       /\ (Precipitation.get_season m = Precipitation.Lluvias_Tardias
           <-> In m [9; 10; 11]).
Proof.
  split; [| split; [| split]].
  - repeat constructor; simpl; intuition discriminate.
  - repeat constructor; simpl; intuition discriminate.
  - intro m; simpl; lia.
  - intros m Hm.
    destruct (month_cases m Hm) as
      [-> | [-> | [-> | [-> | [-> | [-> | [-> | [-> | [-> | [-> | [-> | ->]]]]]]]]]]];
      (split; [| split; [| split]]); season_case.
Qed.

(** The theorem at June. *)
Lemma get_season_partitions_the_year_witness :
  1 <= 6 <= 12
  /\ (Precipitation.get_season 6 = Precipitation.Invierno <-> In 6 [6; 7; 8]).
Proof.
  split; [lia |].
  destruct get_season_partitions_the_year as (_ & _ & _ & H).
  exact (proj1 (proj2 (proj2 (H 6 ltac:(lia))))).
Defined.

(** ** C4: the key of the first step, read back in the second *)

Lemma unpack3_long parts : (3 < List.length parts)%nat -> unpack3 parts = None.
Proof.
  destruct parts as [| a [| b [| c [| d r]]]]; simpl; intros H; try lia; reflexivity.
Qed.

Lemma month_name_valid y m :
  1 <= y <= 9999 -> 1 <= m <= 12 -> exists name, PyDate.month_name y m = Some name.
Proof.
  intros Hy Hm. unfold PyDate.month_name, PyDate.valid_date.
  replace (1 <=? y) with true by (symmetry; apply Z.leb_le; lia).
  replace (y <=? 9999) with true by (symmetry; apply Z.leb_le; lia).
  replace (1 <=? m) with true by (symmetry; apply Z.leb_le; lia).
  replace (m <=? 12) with true by (symmetry; apply Z.leb_le; lia).
  replace (1 <=? PyDate.days_in_month y m) with true.
  - simpl. eexists. reflexivity.
  - symmetry. apply Z.leb_le. unfold PyDate.days_in_month.
    destruct (m =? 2); [destruct (PyDate.is_leap y); lia |].
    destruct ((m =? 4) || (m =? 6) || (m =? 9) || (m =? 11)); lia.
Qed.

(** C4 (amended). For every city name without underscore, every year in
    1..9999 and every month in 1..12, splitting the key of the first step
    gives back the three components, and the second mapper of each
    pipeline emits a record that carries exactly this city, year and
    month. *)
Theorem key_round_trip city y m :
  PyStr.contains PyStr.underscore city = false ->
  1 <= y <= 9999 -> 1 <= m <= 12 ->
  PyStr.split PyStr.underscore (month_key city y m)
  = [city; PyStr.str_of_int y; PyStr.format_02d m]
  /\ PyStr.int_of_str (PyStr.str_of_int y) = Some y
  /\ PyStr.int_of_str (PyStr.format_02d m) = Some m
  /\ (forall stats, exists name,
        Temperature.mapper_format_output (month_key city y m) (Json stats)
        = [((city ++ "_" ++ PyStr.str_of_int y)%string,
            Json (Temperature.mkOutput city y m name stats))])
  /\ (forall data,
        Precipitation.mapper_add_season (month_key city y m) (Json data)
        = [((city ++ "_" ++ Precipitation.get_season m ++ "_" ++ PyStr.str_of_int y)%string,
            Json (Precipitation.mkEnhanced city y m (Precipitation.get_season m) data))]).
Proof.
  intros Hc Hy Hm.
  assert (PyStr.split PyStr.underscore (month_key city y m)
          = [city; PyStr.str_of_int y; PyStr.format_02d m]) as Hsplit
      by (apply StrFacts.split_month_key; [assumption | lia | lia]).
  assert (PyStr.int_of_str (PyStr.str_of_int y) = Some y) as Hiy
      by (apply StrFacts.int_of_str_str_of_int;
          [lia | apply StrFacts.printable_small; lia]).
  assert (PyStr.int_of_str (PyStr.format_02d m) = Some m) as Him
      by (apply StrFacts.int_of_str_format_02d;
          [lia | apply StrFacts.printable_small; lia]).
  repeat split; try assumption.
  - intros stats. destruct (month_name_valid y m Hy Hm) as [name Hname].
    exists name. unfold Temperature.mapper_format_output.
    rewrite StrFacts.month_key_not_error, Hsplit. simpl.
    now rewrite Hiy, Him, Hname.
  - intros data. unfold Precipitation.mapper_add_season.
    rewrite StrFacts.month_key_not_error, Hsplit. simpl.
    now rewrite Him, Hiy.
Qed.

(** The theorem for Cali in June 2023. *)
Lemma key_round_trip_witness :
  PyStr.split PyStr.underscore (month_key "Cali" 2023 6) = ["Cali"; "2023"; "06"]
  /\ PyStr.int_of_str "2023" = Some 2023
  /\ PyStr.int_of_str "06" = Some 6.
Proof.
  destruct (key_round_trip "Cali" 2023 6) as (H1 & H2 & H3 & _).
  - reflexivity.
  - lia.
  - lia.
  - split; [exact H1 | split; [exact H2 | exact H3]].
Defined.

(** C4 as stated fails: the key is a string, and for the city San_Andres
    it splits into four parts; the second mapper emits an error record in
    place of the month, and the result has no line. *)
Lemma key_round_trip_counterexample :
  exists stats,
    let lines := ["2023-06-02,30.0,20.5,25.5,5.0,10.0,3600.0,San_Andres"] in
    Temperature.stage1 lines = Some [("San_Andres_2023_06", Json stats)]
    /\ PyStr.split PyStr.underscore "San_Andres_2023_06"
       = ["San"; "Andres"; "2023"; "06"]
    /\ Temperature.mapper_format_output "San_Andres_2023_06" (Json stats)
       = [(ERROR, Text "Format error: ")]
    /\ Temperature.run lines = Some [].
Proof.
  eexists. cbv zeta.
  split; [vm_compute; reflexivity |].
  split; [reflexivity |].
  split; vm_compute; reflexivity.
Qed.

(** ** C5: lines with fewer than eight fields *)

(** C5 (amended). A line whose row has fewer than eight fields makes both
    parsers emit nothing: no record under the error key and none under any
    other key, so the line reaches no group. *)
Theorem short_line_emits_nothing line row :
  Csv.row line = Some row -> (List.length row < 8)%nat ->
  Temperature.mapper_parse_data line = []
  /\ Precipitation.mapper_parse_precipitation line = [].
Proof.
  intros Hrow Hlen. apply Nat.ltb_lt in Hlen.
  unfold Temperature.mapper_parse_data, Precipitation.mapper_parse_precipitation.
  destruct (PyStr.startswith "time,temperature" line); [split; reflexivity |].
  rewrite Hrow, Hlen. split; reflexivity.
Qed.

(** The theorem on a line of six fields. *)
Lemma short_line_emits_nothing_witness :
  Temperature.mapper_parse_data "2023-06-02,30.0,20.5,25.5,5.0,10.0" = []
  /\ Precipitation.mapper_parse_precipitation "2023-06-02,30.0,20.5,25.5,5.0,10.0" = [].
Proof.
  apply (short_line_emits_nothing "2023-06-02,30.0,20.5,25.5,5.0,10.0"
           ["2023-06-02"; "30.0"; "20.5"; "25.5"; "5.0"; "10.0"]).
  - vm_compute. reflexivity.
  - simpl. lia.
Defined.

(** C5 as stated fails: a line of six fields puts no record under the
    error key, in neither parser. *)
Lemma short_line_counterexample :
  let line := "2023-06-02,30.0,20.5,25.5,5.0,10.0" in
  option_map (@List.length string) (Csv.row line) = Some 6%nat
  /\ ~ In ERROR (map fst (Temperature.mapper_parse_data line))
  /\ ~ In ERROR (map fst (Precipitation.mapper_parse_precipitation line)).
Proof.
  cbv zeta. split; [vm_compute; reflexivity |].
  split; vm_compute; tauto.
Qed.

(** ** C6: the order of the values of a group *)

(** C6 (amended). When the values of a group are given in another order,
    each of the three reducers emits a record in the one order exactly
    when it does in the other, and the two records agree on everything but
    the sums of floats. The monthly temperature reducer: on the key and
    [total_days]; and, when no daily maximum or minimum is NaN or -0.0, on
    [max_temp_recorded] and [min_temp_recorded]. The monthly precipitation
    reducer: on [days_with_rain] and [total_days]; and, when no value is
    NaN or -0.0, on [max_daily_precipitation]. The seasonal reducer: on
    [total_rainy_days], [months_in_season] and, for a group whose records
    share them, on city, year and season; and, when no monthly total is
    NaN or -0.0, on [max_monthly_precipitation]. *)
Theorem reducers_order_free_part :
  (forall key vs vs',
     Permutation vs vs' ->
     Spec.project Spec.temperature_counts (Temperature.reducer_aggregate_temps key vs)
     = Spec.project Spec.temperature_counts (Temperature.reducer_aggregate_temps key vs'))
  /\ (forall key vs vs',
        Permutation vs vs' ->
        (forall d, In (Json d) vs ->
           FloatFacts.ordinary (Temperature.temp_max d)
           /\ FloatFacts.ordinary (Temperature.temp_min d)) ->
        Spec.project Spec.temperature_extremes
          (Temperature.reducer_aggregate_temps key vs)
        = Spec.project Spec.temperature_extremes
            (Temperature.reducer_aggregate_temps key vs'))
  /\ (forall key vs vs',
        Permutation vs vs' ->
        Spec.project Spec.precipitation_counts
          (Precipitation.reducer_monthly_totals key vs)
        = Spec.project Spec.precipitation_counts
            (Precipitation.reducer_monthly_totals key vs'))
  /\ (forall key vs vs',
        Permutation vs vs' ->
        (forall x, In (Json x) vs -> FloatFacts.ordinary x) ->
        Spec.project Spec.precipitation_extremes
          (Precipitation.reducer_monthly_totals key vs)
        = Spec.project Spec.precipitation_extremes
            (Precipitation.reducer_monthly_totals key vs'))
  /\ (forall key vs vs',
        Permutation vs vs' ->
        (forall d d', In (Json d) vs -> In (Json d') vs ->
           Precipitation.city d = Precipitation.city d'
           /\ Precipitation.year d = Precipitation.year d'
           /\ Precipitation.season d = Precipitation.season d') ->
        option_map (map Spec.seasonal_counts)
          (Precipitation.reducer_seasonal_analysis key vs)
        = option_map (map Spec.seasonal_counts)
            (Precipitation.reducer_seasonal_analysis key vs'))
  /\ (forall key vs vs',
        Permutation vs vs' ->
        (forall d, In (Json d) vs ->
           FloatFacts.ordinary (Precipitation.monthly_total (Precipitation.data d))) ->
        option_map (map Spec.seasonal_extremes)
          (Precipitation.reducer_seasonal_analysis key vs)
        = option_map (map Spec.seasonal_extremes)
            (Precipitation.reducer_seasonal_analysis key vs')).
Proof.
  assert (forall A (l l' : list A), Permutation l l' ->
            match l, l' with
            | [], [] | _ :: _, _ :: _ => True
            | _, _ => False
            end) as Hshape.
  { intros A l l' Hp. destruct l, l'; try exact I.
    - now apply Permutation_nil in Hp.
    - apply Permutation_sym in Hp. now apply Permutation_nil in Hp. }
  split; [| split; [| split; [| split; [| split]]]].
  - (* temperature: key and count *)
    intros key vs vs' Hp.
    destruct (String.eqb key ERROR) eqn:Ek.
    { unfold Temperature.reducer_aggregate_temps. now rewrite Ek. }
    apply String.eqb_neq in Ek.
    rewrite !OrderFacts.reducer_aggregate_temps_closed by assumption.
    pose proof (OrderFacts.loaded_permutation vs vs' Hp) as Hl.
    pose proof (Hshape _ _ _ Hl) as Hs.
    destruct (Temperature.loaded vs) as [| d ds], (Temperature.loaded vs') as [| d' ds'];
      try tauto.
    destruct (AggregatorFacts.max_not_nil (map Temperature.temp_max (d :: ds)))
      as [hi ->]; [discriminate |].
    destruct (AggregatorFacts.min_not_nil (map Temperature.temp_min (d :: ds)))
      as [lo ->]; [discriminate |].
    destruct (AggregatorFacts.max_not_nil (map Temperature.temp_max (d' :: ds')))
      as [hi' ->]; [discriminate |].
    destruct (AggregatorFacts.min_not_nil (map Temperature.temp_min (d' :: ds')))
      as [lo' ->]; [discriminate |].
    rewrite (OrderFacts.total_permutation _ _ (Permutation_map Temperature.count Hl)).
    reflexivity.
  - (* temperature: extremes *)
    intros key vs vs' Hp Hord.
    destruct (String.eqb key ERROR) eqn:Ek.
    { unfold Temperature.reducer_aggregate_temps. now rewrite Ek. }
    apply String.eqb_neq in Ek.
    rewrite !OrderFacts.reducer_aggregate_temps_closed by assumption.
    pose proof (OrderFacts.loaded_permutation vs vs' Hp) as Hl.
    pose proof (Hshape _ _ _ Hl) as Hs.
    assert (Forall (fun d => FloatFacts.ordinary (Temperature.temp_max d)
                             /\ FloatFacts.ordinary (Temperature.temp_min d))
              (Temperature.loaded vs)) as Hall
        by (apply Forall_forall; intros d Hd; now apply Hord, StageTwoFacts.loaded_In).
    destruct (Temperature.loaded vs) as [| d ds], (Temperature.loaded vs') as [| d' ds'];
      try tauto.
    rewrite <- (FloatFacts.max_permutation _ _ (Permutation_map Temperature.temp_max Hl))
      by (apply Forall_map; eapply Forall_impl; [| exact Hall]; now intros ? []).
    rewrite <- (FloatFacts.min_permutation _ _ (Permutation_map Temperature.temp_min Hl))
      by (apply Forall_map; eapply Forall_impl; [| exact Hall]; now intros ? []).
    destruct (PyFloat.max (map Temperature.temp_max (d :: ds))); [| reflexivity].
    destruct (PyFloat.min (map Temperature.temp_min (d :: ds))); reflexivity.
  - (* monthly precipitation: counts *)
    intros key vs vs' Hp.
    destruct (String.eqb key ERROR) eqn:Ek.
    { unfold Precipitation.reducer_monthly_totals. now rewrite Ek. }
    apply String.eqb_neq in Ek.
    rewrite !OrderFacts.reducer_monthly_totals_closed by assumption.
    pose proof (OrderFacts.numbers_permutation vs vs' Hp) as Hn.
    destruct (Precipitation.numbers vs) as [xs |],
             (Precipitation.numbers vs') as [xs' |]; try tauto.
    pose proof (Hshape _ _ _ Hn) as Hs.
    destruct xs as [| x r], xs' as [| x' r']; try tauto.
    destruct (AggregatorFacts.max_not_nil (x :: r)) as [hi ->]; [discriminate |].
    destruct (AggregatorFacts.max_not_nil (x' :: r')) as [hi' ->]; [discriminate |].
    rewrite (OrderFacts.count_rain_permutation _ _ Hn), (Permutation_length Hn).
    reflexivity.
  - (* monthly precipitation: the maximum *)
    intros key vs vs' Hp Hord.
    destruct (String.eqb key ERROR) eqn:Ek.
    { unfold Precipitation.reducer_monthly_totals. now rewrite Ek. }
    apply String.eqb_neq in Ek.
    rewrite !OrderFacts.reducer_monthly_totals_closed by assumption.
    pose proof (OrderFacts.numbers_permutation vs vs' Hp) as Hn.
    destruct (Precipitation.numbers vs) as [xs |] eqn:E,
             (Precipitation.numbers vs') as [xs' |]; try tauto.
    apply OrderFacts.numbers_spec in E. subst vs.
    assert (Forall FloatFacts.ordinary xs) as Hall
        by (apply Forall_forall; intros x Hx; apply Hord; now apply in_map).
    pose proof (Hshape _ _ _ Hn) as Hs.
    destruct xs as [| x r], xs' as [| x' r']; try tauto.
    rewrite <- (FloatFacts.max_permutation _ _ Hn Hall).
    destruct (PyFloat.max (x :: r)); reflexivity.
  - (* season: names and counts *)
    intros key vs vs' Hp Hsame.
    destruct (String.eqb key ERROR) eqn:Ek.
    { unfold Precipitation.reducer_seasonal_analysis. now rewrite Ek. }
    apply String.eqb_neq in Ek.
    rewrite !OrderFacts.reducer_seasonal_analysis_closed by assumption.
    pose proof (OrderFacts.loaded_permutation vs vs' Hp) as Hl.
    pose proof (Hshape _ _ _ Hl) as Hs.
    assert (forall d, In d (Temperature.loaded vs') -> In (Json d) vs) as Hback.
    { intros d Hd. apply StageTwoFacts.loaded_In.
      eapply Permutation_in; [apply Permutation_sym; exact Hl | exact Hd]. }
    destruct (Temperature.loaded vs) as [| d ds] eqn:E1,
             (Temperature.loaded vs') as [| d' ds'] eqn:E2; try tauto.
    destruct (AggregatorFacts.max_not_nil
                (map (fun d => Precipitation.monthly_total (Precipitation.data d))
                   (d :: ds))) as [hi ->]; [discriminate |].
    destruct (AggregatorFacts.max_not_nil
                (map (fun d => Precipitation.monthly_total (Precipitation.data d))
                   (d' :: ds'))) as [hi' ->]; [discriminate |].
    rewrite (OrderFacts.total_permutation _ _
               (Permutation_map
                  (fun d => Precipitation.days_with_rain (Precipitation.data d)) Hl)).
    rewrite (Permutation_length Hl).
    assert (In (Json d) vs) as Hd
        by (apply StageTwoFacts.loaded_In; rewrite E1; now left).
    assert (In (Json d') vs) as Hd' by (apply Hback; now left).
    destruct (Hsame d d' Hd Hd') as (-> & -> & ->). reflexivity.
  - (* season: the maximum *)
    intros key vs vs' Hp Hord.
    destruct (String.eqb key ERROR) eqn:Ek.
    { unfold Precipitation.reducer_seasonal_analysis. now rewrite Ek. }
    apply String.eqb_neq in Ek.
    rewrite !OrderFacts.reducer_seasonal_analysis_closed by assumption.
    pose proof (OrderFacts.loaded_permutation vs vs' Hp) as Hl.
    pose proof (Hshape _ _ _ Hl) as Hs.
    assert (Forall (fun d => FloatFacts.ordinary
                               (Precipitation.monthly_total (Precipitation.data d)))
              (Temperature.loaded vs)) as Hall
        by (apply Forall_forall; intros d Hd; now apply Hord, StageTwoFacts.loaded_In).
    destruct (Temperature.loaded vs) as [| d ds], (Temperature.loaded vs') as [| d' ds'];
      try tauto.
    rewrite <- (FloatFacts.max_permutation _ _
                  (Permutation_map
                     (fun d => Precipitation.monthly_total (Precipitation.data d)) Hl))
      by (now apply Forall_map).
    destruct (PyFloat.max (map (fun d => Precipitation.monthly_total (Precipitation.data d))
                             (d :: ds))); reflexivity.
Qed.

(** The theorem on two days given in the two orders. *)
Lemma reducers_order_free_part_witness :
  let d1 := Temperature.mkDay (PyFloat.of_int 30) (PyFloat.of_int 20) (PyFloat.of_int 25) 1 in
  let d2 := Temperature.mkDay (PyFloat.of_int 31) (PyFloat.of_int 19) (PyFloat.of_int 26) 1 in
  Spec.project Spec.temperature_extremes
    (Temperature.reducer_aggregate_temps "Cali_2023_06" [Json d1; Json d2])
  = Spec.project Spec.temperature_extremes
      (Temperature.reducer_aggregate_temps "Cali_2023_06" [Json d2; Json d1]).
Proof.
  cbv zeta.
  apply (proj1 (proj2 reducers_order_free_part)).
  - apply perm_swap.
  - intros d [E | [E | []]]; inversion E; subst; simpl;
      repeat split; discriminate.
Defined.

(** C6 as stated fails. With a day whose maximum reads [nan], the monthly
    temperature reducer records NaN or 30.0 as the highest maximum,
    depending on which day comes first; with the values 1e308, 1e308 and
    -1e308 the sum of the monthly precipitation reducer overflows in one
    order and not in the other. *)
Lemma reducers_order_counterexample :
  exists d_nan d_30 s1 s2 x y r1 r2,
    Temperature.mapper_parse_data "2023-06-01,nan,20.0,25.0,0.0,10.0,3600.0,Cali"
    = [("Cali_2023_06", Json d_nan)]
    /\ Temperature.mapper_parse_data "2023-06-02,30.0,20.0,25.0,0.0,10.0,3600.0,Cali"
       = [("Cali_2023_06", Json d_30)]
    /\ Permutation [Json d_nan; Json d_30] [Json d_30; Json d_nan]
    /\ Temperature.reducer_aggregate_temps "Cali_2023_06" [Json d_nan; Json d_30]
       = Some [("Cali_2023_06", Json s1)]
    /\ Temperature.reducer_aggregate_temps "Cali_2023_06" [Json d_30; Json d_nan]
       = Some [("Cali_2023_06", Json s2)]
    /\ Temperature.max_temp_recorded s1 = PyFloat.nan
    /\ PyFloat.of_str "30.0" = Some (Temperature.max_temp_recorded s2)
    /\ s1 <> s2
    /\ PyFloat.of_str "1e308" = Some x /\ PyFloat.of_str "-1e308" = Some y
    /\ Permutation [Json x; Json x; Json y] [Json x; Json y; Json x]
    /\ Precipitation.reducer_monthly_totals "Cali_2023_06" [Json x; Json x; Json y]
       = Some [("Cali_2023_06", Json r1)]
    /\ Precipitation.reducer_monthly_totals "Cali_2023_06" [Json x; Json y; Json x]
       = Some [("Cali_2023_06", Json r2)]
    /\ Precipitation.monthly_total r1 = S754_infinity false
    /\ Precipitation.monthly_total r2 = x
    /\ r1 <> r2.
Proof.
  do 8 eexists.
  split; [vm_compute; reflexivity |].
  split; [vm_compute; reflexivity |].
  split; [apply perm_swap |].
  split; [vm_compute; reflexivity |].
  split; [vm_compute; reflexivity |].
  split; [reflexivity |].
  split; [vm_compute; reflexivity |].
  split; [discriminate |].
  split; [vm_compute; reflexivity |].
  split; [vm_compute; reflexivity |].
  split; [apply perm_skip, perm_swap |].
  split; [vm_compute; reflexivity |].
  split; [vm_compute; reflexivity |].
  split; [reflexivity |].
  split; [reflexivity |].
  discriminate.
Qed.

(** Two more orders that matter. The two zeros compare equal, so [max]
    keeps whichever comes first. *)
Lemma signed_zero_order :
  PyFloat.max [S754_zero false; S754_zero true] = Some (S754_zero false)
  /\ PyFloat.max [S754_zero true; S754_zero false] = Some (S754_zero true).
Proof. split; reflexivity. Qed.

(** The additions of [sum] are rounded one by one: eight daily maxima
    0.1, 0.2, 0.3 and five times 0.0 average to 0.08, and in the order
    0.3, 0.2, 0.1 to 0.07. *)
Lemma everyday_sum_order :
  exists a b c z avg avg',
    PyFloat.of_str "0.1" = Some a /\ PyFloat.of_str "0.2" = Some b
    /\ PyFloat.of_str "0.3" = Some c /\ PyFloat.of_str "0.0" = Some z
    /\ PyFloat.of_str "0.08" = Some avg /\ PyFloat.of_str "0.07" = Some avg'
    /\ Temperature.rounded_mean [a; b; c; z; z; z; z; z] = Some avg
    /\ Temperature.rounded_mean [c; b; a; z; z; z; z; z] = Some avg'.
Proof.
  do 6 eexists. repeat split; vm_compute; reflexivity.
Qed.

(** ** C7: the lines of one city and year *)

(** C7. Whatever the input lines, for every group that the second shuffle
    of the temperature job forms, and in whatever order the values of the
    group reach the last reducer, the lines that the reducer emits for the
    group are strictly increasing in month; they all carry one city and
    one year, those of the key of the group. *)
Theorem final_rows_increase_by_month lines records key values values' rows :
  Temperature.stage1 lines = Some records ->
  In (key, values)
     (shuffle (flat_map (fun kv => Temperature.mapper_format_output (fst kv) (snd kv))
                 records)) ->
  Permutation values values' ->
  Temperature.reducer_final_output key values' = Some rows ->
  StronglySorted Z.lt (map Temperature.col_month rows)
  /\ (rows <> [] ->
      exists c y,
        key = (c ++ "_" ++ PyStr.str_of_int y)%string
        /\ forall row, In row rows ->
             Temperature.col_city row = c /\ Temperature.col_year row = y).
Proof.
  intros H1 Hg Hperm Hrows.
  destruct (StageOneFacts.temperature_stage1 lines) as (records' & H1' & Hn & Hall).
  rewrite H1 in H1'. inversion H1'; subst records'.
  unfold Temperature.reducer_final_output in Hrows.
  destruct (String.eqb key ERROR) eqn:Ek; inversion Hrows; subst rows.
  - split; [constructor | congruence].
  - apply String.eqb_neq in Ek.
    destruct (StageTwoFacts.temperature_group2 records key values Hn Hall Hg Ek)
      as (Hmonths & c & y & Hkey & _ & Hsame).
    pose proof (OrderFacts.loaded_permutation values values' Hperm) as Hl.
    split.
    + rewrite map_map. simpl.
      change (map (fun x => Temperature.month x)
                (Temperature.sort_by_month (Temperature.loaded values')))
        with (map Temperature.month
                (Temperature.sort_by_month (Temperature.loaded values'))).
      apply StageTwoFacts.sort_by_month_sorted.
      eapply Permutation_NoDup; [| exact Hmonths].
      now apply Permutation_map.
    + intros _. exists c, y. split; [assumption |].
      intros row Hrow. apply in_map_iff in Hrow as [o [<- Ho]].
      rewrite StageTwoFacts.sort_by_month_In in Ho.
      apply (Permutation_in _ (Permutation_sym Hl)) in Ho.
      destruct (Hsame o Ho) as (Hc & Hy & _). simpl. auto.
Qed.

(** The theorem on three days of Cali, July before May before June. *)
Lemma final_rows_increase_by_month_witness :
  exists records rows,
    let lines := ["2023-07-02,30.0,20.5,25.5,7.5,10.0,3600.0,Cali";
                  "2023-05-02,30.0,20.5,25.5,5.5,10.0,3600.0,Cali";
                  "2023-06-02,30.0,20.5,25.5,5.0,10.0,3600.0,Cali"] in
    let mapped :=
      flat_map (fun kv => Temperature.mapper_format_output (fst kv) (snd kv)) records in
    Temperature.stage1 lines = Some records
    /\ In ("Cali_2023", values_of "Cali_2023" mapped) (shuffle mapped)
    /\ Temperature.reducer_final_output "Cali_2023" (values_of "Cali_2023" mapped)
       = Some rows
    /\ map Temperature.col_month rows = [5; 6; 7]
    /\ StronglySorted Z.lt (map Temperature.col_month rows).
Proof.
  do 2 eexists. cbv zeta.
  split; [vm_compute; reflexivity |].
  split; [vm_compute; left; reflexivity |].
  split; [vm_compute; reflexivity |].
  split; [reflexivity |].
  refine (proj1 (final_rows_increase_by_month
            ["2023-07-02,30.0,20.5,25.5,7.5,10.0,3600.0,Cali";
             "2023-05-02,30.0,20.5,25.5,5.5,10.0,3600.0,Cali";
             "2023-06-02,30.0,20.5,25.5,5.0,10.0,3600.0,Cali"]
            _ "Cali_2023" _ _ _ _ _ (Permutation_refl _) _)).
  - vm_compute. reflexivity.
  - vm_compute. left. reflexivity.
  - vm_compute. reflexivity.
Defined.

(** ** C8: no group is empty *)

(** C8. Whatever the input lines: every group of the first shuffle of
    either job holds at least one value; no step raises an exception (in
    particular no division is by zero, the divisors being the counts
    below); every record of the first step of either job counts at least
    one day, and every line of the precipitation result counts at least one
    month. *)
Theorem no_empty_group lines :
  (forall k vs,
     In (k, vs) (shuffle (flat_map Temperature.mapper_parse_data lines)) -> vs <> [])
  /\ (forall k vs,
        In (k, vs) (shuffle (flat_map Precipitation.mapper_parse_precipitation lines)) ->
        vs <> [])
  /\ (exists records rows,
        Temperature.stage1 lines = Some records
        /\ Temperature.run lines = Some rows
        /\ forall k v, In (k, v) records ->
             exists stats, v = Json stats /\ 1 <= Temperature.total_days stats)
  /\ (exists records rows,
        Precipitation.stage1 lines = Some records
        /\ Precipitation.run lines = Some rows
        /\ (forall k v, In (k, v) records ->
              exists result, v = Json result /\ 1 <= Precipitation.total_days result)
        /\ forall row, In row rows -> 1 <= Precipitation.col_months_in_season row).
Proof.
  split; [| split; [| split]].
  - intros k vs Hg. now apply ShuffleFacts.shuffle_group in Hg.
  - intros k vs Hg. now apply ShuffleFacts.shuffle_group in Hg.
  - destruct (StageTwoFacts.temperature_run lines) as (records & rows & H1 & Hrun & _).
    exists records, rows. split; [assumption |]. split; [assumption |].
    destruct (StageOneFacts.temperature_stage1 lines) as (records' & H1' & _ & Hall).
    rewrite H1 in H1'. inversion H1'; subst records'.
    intros k v Hin. rewrite Forall_forall in Hall.
    destruct (Hall _ Hin) as (_ & _ & _ & stats & _ & _ & _ & Hv & _ & Hd).
    exists stats. auto.
  - destruct (StageTwoFacts.precipitation_run lines)
      as (records & rows & H1 & Hrun & Hrows).
    exists records, rows. split; [assumption |]. split; [assumption |].
    destruct (StageOneFacts.precipitation_stage1 lines) as (records' & H1' & _ & Hall).
    rewrite H1 in H1'. inversion H1'; subst records'. split.
    + intros k v Hin. rewrite Forall_forall in Hall.
      destruct (Hall _ Hin) as (_ & _ & _ & result & _ & _ & _ & Hv & Hd).
      exists result. auto.
    + intros row Hrow. now apply Hrows.
Qed.

(** ** C9: the error records *)





(** ** C10: cities with an underscore *)

(** The second mappers on the key of a city with an underscore. *)
Lemma mapper_format_output_underscore city y m v :
  PyStr.contains PyStr.underscore city = true ->
  Temperature.mapper_format_output (month_key city y m) v
  = [(ERROR, Text "Format error: ")].
Proof.
  intros Hc. unfold Temperature.mapper_format_output.
  rewrite StrFacts.month_key_not_error.
  rewrite unpack3_long by now apply StrFacts.split_month_key_underscore.
  destruct (json_loads v); reflexivity.
Qed.

Lemma mapper_add_season_underscore city y m v :
  PyStr.contains PyStr.underscore city = true ->
  Precipitation.mapper_add_season (month_key city y m) v
  = [(ERROR, Text "Season mapping error: ")].
Proof.
  intros Hc. unfold Precipitation.mapper_add_season.
  rewrite StrFacts.month_key_not_error.
  rewrite unpack3_long by now apply StrFacts.split_month_key_underscore.
  destruct (json_loads v); reflexivity.
Qed.

(** C10. For every city name that contains an underscore: the second
    mapper of each pipeline, given the key of the first step for that city
    (any year and month, any value), fails to unpack the split key and
    emits only an error record; no line of either result names the city;
    and this although every key under which the first mapper emitted a
    record of the city has its record after the first step. *)
Theorem city_with_underscore_is_dropped city :
  PyStr.contains PyStr.underscore city = true ->
  (forall y m v,
     unpack3 (PyStr.split PyStr.underscore (month_key city y m)) = None
     /\ Temperature.mapper_format_output (month_key city y m) v
        = [(ERROR, Text "Format error: ")])
  /\ (forall y m v,
        Precipitation.mapper_add_season (month_key city y m) v
        = [(ERROR, Text "Season mapping error: ")])
  /\ (forall lines, exists rows,
        Temperature.run lines = Some rows
        /\ forall row, In row rows -> Temperature.col_city row <> city)
  /\ (forall lines, exists rows,
        Precipitation.run lines = Some rows
        /\ forall row, In row rows -> Precipitation.col_city row <> city)
  /\ (forall lines line y m day,
        In line lines ->
        Temperature.mapper_parse_data line = [(month_key city y m, Json day)] ->
        exists records stats,
          Temperature.stage1 lines = Some records
          /\ In (month_key city y m, Json stats) records)
  /\ (forall lines line y m x,
        In line lines ->
        Precipitation.mapper_parse_precipitation line = [(month_key city y m, Json x)] ->
        exists records result,
          Precipitation.stage1 lines = Some records
          /\ In (month_key city y m, Json result) records).
Proof.
  intros Hc.
  assert (forall y m, String.eqb (month_key city y m) ERROR = false) as Hne
      by (intros; apply StrFacts.month_key_not_error).
  repeat split.
  - apply unpack3_long. now apply StrFacts.split_month_key_underscore.
  - now apply mapper_format_output_underscore.
  - intros y m v. now apply mapper_add_season_underscore.
  - intros lines.
    destruct (StageTwoFacts.temperature_run lines) as (records & rows & _ & Hrun & Hrows).
    exists rows. split; [assumption |].
    intros row Hrow E. apply Hrows in Hrow. congruence.
  - intros lines.
    destruct (StageTwoFacts.precipitation_run lines) as (records & rows & _ & Hrun & Hrows).
    exists rows. split; [assumption |].
    intros row Hrow E. apply Hrows in Hrow as [_ Hrow]. congruence.
  - intros lines line y m day Hline Hmap.
    apply (StageOneFacts.temperature_stage1_key lines _ (Json day)).
    + apply in_flat_map. exists line. split; [assumption |].
      rewrite Hmap. now left.
    + apply String.eqb_neq, Hne.
  - intros lines line y m x Hline Hmap.
    apply (StageOneFacts.precipitation_stage1_key lines _ (Json x)).
    + apply in_flat_map. exists line. split; [assumption |].
      rewrite Hmap. now left.
    + apply String.eqb_neq, Hne.
Qed.

(** The theorem for the city San_Andres: its month is aggregated by the
    first step and missing from the result. *)
Lemma city_with_underscore_is_dropped_witness :
  let lines := ["2023-06-02,30.0,20.5,25.5,5.0,10.0,3600.0,San_Andres"] in
  (exists records stats,
     Temperature.stage1 lines = Some records
     /\ In (month_key "San_Andres" 2023 6, Json stats) records)
  /\ Temperature.mapper_format_output (month_key "San_Andres" 2023 6)
       (@Text Temperature.month_stats "")
     = [(ERROR, Text "Format error: ")]
  /\ exists rows,
       Temperature.run lines = Some rows
       /\ forall row, In row rows -> Temperature.col_city row <> "San_Andres".
Proof.
  cbv zeta.
  destruct (city_with_underscore_is_dropped "San_Andres" eq_refl)
    as (H1 & _ & H3 & _ & H5 & _).
  split; [| split].
  - eapply (H5 _ "2023-06-02,30.0,20.5,25.5,5.0,10.0,3600.0,San_Andres" 2023 6).
    + now left.
    + vm_compute. reflexivity.
  - apply H1.
  - apply H3.
Defined.

End Claims.

(* ================================================================== *)
(** * Keys and groups                                                  *)
(* ================================================================== *)

Module KeyFacts.
Import MRJob.

Lemma append_inv_head (a b c : string) : (a ++ b = a ++ c)%string -> b = c.
Proof.
  induction a as [| x a IH]; simpl; intros H; [assumption |].
  inversion H. auto.
Qed.

Lemma contains_sep_tail sep (a d : string) :
  PyStr.contains sep (a ++ String sep d) = true.
Proof.
  rewrite StrFacts.contains_app. simpl. rewrite Ascii.eqb_refl.
  apply orb_true_r.
Qed.

(** The separator in front of a part that holds none is the last one of
    the string. *)
Lemma append_last_sep sep (a a' d d' : string) :
  PyStr.contains sep d = false -> PyStr.contains sep d' = false ->
  (a ++ String sep d = a' ++ String sep d')%string ->
  a = a' /\ d = d'.
Proof.
  intros Hd Hd'. revert a'.
  induction a as [| c r IH]; intros [| c' r'] E; simpl in E.
  - inversion E. auto.
  - inversion E; subst. rewrite contains_sep_tail in Hd. discriminate.
  - inversion E; subst. rewrite contains_sep_tail in Hd'. discriminate.
  - inversion E; subst. destruct (IH r') as [-> ->]; auto.
Qed.

(** The separator behind a part that holds none is the first one. *)
Lemma append_first_sep sep (a a' x x' : string) :
  PyStr.contains sep a = false -> PyStr.contains sep a' = false ->
  (a ++ String sep x = a' ++ String sep x')%string ->
  a = a' /\ x = x'.
Proof.
  revert a'.
  induction a as [| c r IH]; intros [| c' r'] Ha Ha' E; simpl in *.
  - inversion E. auto.
  - inversion E; subst. rewrite Ascii.eqb_refl in Ha'. discriminate.
  - inversion E; subst. rewrite Ascii.eqb_refl in Ha. discriminate.
  - inversion E; subst.
    apply orb_false_iff in Ha as [_ Ha]. apply orb_false_iff in Ha' as [_ Ha'].
    destruct (IH r') as [-> ->]; auto.
Qed.

Lemma str_of_int_inj y y' :
  0 <= y -> 0 <= y' -> PyStr.str_of_int y = PyStr.str_of_int y' -> y = y'.
Proof.
  intros Hy Hy' E.
  pose proof (StrFacts.digits_value_str_of_int y Hy) as H.
  rewrite E, StrFacts.digits_value_str_of_int in H by assumption. congruence.
Qed.

Lemma format_02d_inj m m' :
  0 <= m -> 0 <= m' -> PyStr.format_02d m = PyStr.format_02d m' -> m = m'.
Proof.
  intros Hm Hm' E.
  pose proof (StrFacts.digits_value_format_02d m Hm) as H.
  rewrite E, StrFacts.digits_value_format_02d in H by assumption. congruence.
Qed.

(** The key of the first step determines city, year and month, whatever
    the city: the last two separators are those of the format. *)
Lemma month_key_inj c y m c' y' m' :
  0 <= y -> 0 <= m -> 0 <= y' -> 0 <= m' ->
  month_key c y m = month_key c' y' m' -> c = c' /\ y = y' /\ m = m'.
Proof.
  intros Hy Hm Hy' Hm' E. rewrite !StrFacts.month_key_shape in E.
  change (c ++ String PyStr.underscore
            (PyStr.str_of_int y ++ String PyStr.underscore (PyStr.format_02d m)))%string
    with (c ++ (String PyStr.underscore (PyStr.str_of_int y)
                ++ String PyStr.underscore (PyStr.format_02d m)))%string in E.
  change (c' ++ String PyStr.underscore
            (PyStr.str_of_int y' ++ String PyStr.underscore (PyStr.format_02d m')))%string
    with (c' ++ (String PyStr.underscore (PyStr.str_of_int y')
                 ++ String PyStr.underscore (PyStr.format_02d m')))%string in E.
  rewrite <- !StrFacts.append_assoc in E.
  apply append_last_sep in E as [E Em];
    [| apply StrFacts.all_digits_clean, StrFacts.format_02d_all_digits; assumption
     | apply StrFacts.all_digits_clean, StrFacts.format_02d_all_digits; assumption].
  apply append_last_sep in E as [Ec Ey];
    [| apply StrFacts.all_digits_clean, StrFacts.str_of_int_all_digits; assumption
     | apply StrFacts.all_digits_clean, StrFacts.str_of_int_all_digits; assumption].
  split; [assumption |].
  split; [now apply str_of_int_inj | now apply format_02d_inj].
Qed.

End KeyFacts.

Module GroupingFacts.
Import MRJob.

(** The records of a group, with their key. *)
Definition pairs {V} (g : string * list V) : list (string * V) :=
  map (pair (fst g)) (snd g).

Lemma filter_partition {A} (p : A -> bool) l :
  Permutation l (filter p l ++ filter (fun x => negb (p x)) l).
Proof.
  induction l as [| a l IH]; simpl; [constructor |].
  destruct (p a); simpl.
  - now constructor.
  - now apply Permutation_cons_app.
Qed.

Lemma pairs_values_of {V} k (kvs : list (string * V)) :
  map (pair k) (values_of k kvs) = filter (fun kv => String.eqb (fst kv) k) kvs.
Proof.
  unfold values_of. induction kvs as [| [k' v] r IH]; simpl; [reflexivity |].
  destruct (String.eqb k' k) eqn:E; simpl; [| assumption].
  apply String.eqb_eq in E. subst. now f_equal.
Qed.

(** The first record opens the first group; the other groups are those
    of the records under the other keys. *)
Lemma shuffle_cons {V} k v (r : list (string * V)) :
  shuffle ((k, v) :: r)
  = (k, v :: values_of k r)
    :: shuffle (filter (fun kv => negb (String.eqb (fst kv) k)) r).
Proof.
  unfold shuffle. simpl. f_equal.
  - unfold values_of. simpl. now rewrite String.eqb_refl.
  - rewrite (ShuffleFacts.filter_map_fst (fun k' => negb (String.eqb k' k))).
    rewrite ShuffleFacts.keys_filter. apply map_ext_in.
    intros k' Hk'. apply filter_In in Hk' as [_ Hk']. f_equal.
    rewrite (ShuffleFacts.values_of_filter (fun k' => negb (String.eqb k' k)))
      by assumption.
    unfold values_of. simpl. rewrite String.eqb_sym.
    apply negb_true_iff in Hk'. now rewrite Hk'.
Qed.

(** The shuffle neither loses nor invents nor doubles a record. *)
Lemma shuffle_permutation {V} (kvs : list (string * V)) :
  Permutation (flat_map pairs (shuffle kvs)) kvs.
Proof.
  remember (List.length kvs) as n eqn:Hn. revert kvs Hn.
  induction n as [n IH] using lt_wf_ind. intros [| [k v] r] Hn.
  - constructor.
  - rewrite shuffle_cons. simpl. unfold pairs at 1. simpl. constructor.
    rewrite pairs_values_of.
    eapply Permutation_trans; [| symmetry; apply filter_partition].
    apply Permutation_app_head.
    apply (IH (List.length (filter (fun kv => negb (String.eqb (fst kv) k)) r)));
      [| reflexivity].
    subst n. simpl. pose proof (filter_length_le (fun kv => negb (String.eqb (fst kv) k)) r).
    lia.
Qed.

(** What a reducer emits for one group, nothing if it raises. *)
Definition emitted {V O} (reducer : string -> list V -> option (list O))
    (g : string * list V) : list O :=
  match reducer (fst g) (snd g) with
  | Some out => out
  | None => []
  end.

(** The output of a step that does not abort: what the reducer emits,
    group after group. *)
Lemma reduce_all_flat_map {V O} (reducer : string -> list V -> option (list O)) :
  forall groups out,
  reduce_all reducer groups = Some out -> out = flat_map (emitted reducer) groups.
Proof.
  induction groups as [| [k vs] r IH]; simpl; intros out H.
  - now inversion H.
  - unfold emitted at 1. simpl.
    destruct (reducer k vs) as [o |]; simpl in H; [| discriminate].
    destruct (reduce_all reducer r) as [os |]; simpl in H; [| discriminate].
    inversion H. f_equal. now apply IH.
Qed.

Lemma total_app a b : Spec.total (a ++ b) = Spec.total a + Spec.total b.
Proof. unfold Spec.total. induction a; simpl; lia. Qed.

Lemma total_flat_map {G O} (f : G -> list O) (m : O -> Z) (c : G -> Z) gs :
  (forall g, In g gs -> Spec.total (map m (f g)) = c g) ->
  Spec.total (map m (flat_map f gs)) = Spec.total (map c gs).
Proof.
  induction gs as [| g gs IH]; intros H; simpl; [reflexivity |].
  rewrite map_app, total_app, H by now left.
  rewrite IH by (intros; apply H; now right).
  reflexivity.
Qed.

(** A sum over the values of all groups is the sum over all records. *)
Lemma shuffle_total {V} (w : V -> Z) (kvs : list (string * V)) :
  Spec.total (map (fun g => Spec.total (map w (snd g))) (shuffle kvs))
  = Spec.total (map (fun kv => w (snd kv)) kvs).
Proof.
  rewrite <- (OrderFacts.total_permutation _ _
                (Permutation_map (fun kv => w (snd kv)) (shuffle_permutation kvs))).
  symmetry. apply total_flat_map.
  intros g _. unfold pairs. now rewrite map_map.
Qed.

Lemma total_ones {A} (l : list A) :
  Spec.total (map (fun _ => 1) l) = Z.of_nat (List.length l).
Proof.
  apply AggregatorFacts.total_of_ones. apply Forall_forall. reflexivity.
Qed.

End GroupingFacts.

(* ================================================================== *)
(** * What a job gives whatever the groupings                          *)
(* ================================================================== *)

Module InvarianceFacts.
Import MRJob.

(** The values that are there. *)
Fixpoint somes {A} (l : list (option A)) : list A :=
  match l with
  | [] => []
  | Some a :: r => a :: somes r
  | None :: r => somes r
  end.

Lemma somes_permutation {A} (l l' : list (option A)) :
  Permutation l l' -> Permutation (somes l) (somes l').
Proof.
  induction 1 as [| x l l' _ IH | x y l | l l' l'' _ IH1 _ IH2]; simpl.
  - constructor.
  - destruct x; [now constructor | assumption].
  - destruct x, y; try reflexivity. apply perm_swap.
  - now transitivity (somes l').
Qed.

Lemma somes_loaded {A B} (f : A -> B) (vs : list (wire A)) :
  somes (map (fun v => option_map f (json_loads v)) vs) = map f (Temperature.loaded vs).
Proof.
  induction vs as [| [a | msg] vs IH]; simpl; [reflexivity | now rewrite IH | exact IH].
Qed.

Lemma keys_permutation l l' : Permutation l l' -> Permutation (keys l) (keys l').
Proof.
  intros H. apply NoDup_Permutation; try apply ShuffleFacts.keys_NoDup.
  intros k. rewrite !ShuffleFacts.keys_In.
  split; apply Permutation_in; [assumption | now symmetry].
Qed.

Lemma values_of_permutation {V} k (kvs kvs' : list (string * V)) :
  Permutation kvs kvs' -> Permutation (values_of k kvs) (values_of k kvs').
Proof.
  intros H. unfold values_of. now apply Permutation_map, ScheduleFacts.permutation_filter.
Qed.

Lemma flat_map_pointwise {A B} (f g : A -> list B) l :
  (forall a, In a l -> Permutation (f a) (g a)) ->
  Permutation (flat_map f l) (flat_map g l).
Proof.
  induction l as [| a l IH]; intros H; simpl; [constructor |].
  apply Permutation_app; [apply H; now left |].
  apply IH. intros b Hb. apply H. now right.
Qed.

Lemma flat_map_of_map {A B C} (f : A -> B) (g : B -> list C) l :
  flat_map g (map f l) = flat_map (fun a => g (f a)) l.
Proof. induction l as [| a l IH]; simpl; [reflexivity | now rewrite IH]. Qed.

(** Two lists that look the same through [f] give the same through every
    [g] that sees no more than [f] does. *)
Lemma flat_map_through {A B C} (f : A -> B) (g : A -> list C) l l' :
  (forall a b, f a = f b -> g a = g b) ->
  Permutation (map f l) (map f l') ->
  Permutation (flat_map g l) (flat_map g l').
Proof.
  intros Hfg H.
  apply Permutation_map_inv in H as (l3 & E & H).
  rewrite (Permutation_flat_map g H).
  clear H. revert l3 E.
  induction l as [| a l IH]; intros [| b l3] E; try discriminate; [constructor |].
  simpl in *. inversion E as [[Ea El]].
  rewrite (Hfg a b Ea). apply Permutation_app_head. now apply IH.
Qed.

Section Step.
Context {I V O TV TO : Type}.
Variable mapper : I -> list (string * V).
Variable reducer : string -> list V -> option (list O).
(** What is kept of a value, what is kept of a record of the result, and
    the reducer on what is kept. *)
Variable kept : V -> TV.
Variable seen : O -> TO.
Variable reduced : string -> list TV -> list TO.
(** What holds of every group. *)
Variable sound : string -> list TV -> Prop.

Definition tagged (kvs : list (string * V)) : list (string * TV) :=
  map (fun kv => (fst kv, kept (snd kv))) kvs.

Definition abstract (tags : list (string * TV)) : list TO :=
  flat_map (fun k => reduced k (values_of k tags)) (keys (map fst tags)).

Hypothesis sound_permutation :
  forall k t t', Permutation t t' -> sound k t -> sound k t'.
Hypothesis reduced_permutation :
  forall k t t', sound k t -> Permutation t t' -> Permutation (reduced k t) (reduced k t').
Hypothesis reducer_reduced :
  forall k vs out, sound k (map kept vs) -> reducer k vs = Some out ->
    Permutation (map seen out) (reduced k (map kept vs)).

Lemma values_of_tagged k kvs : values_of k (tagged kvs) = map kept (values_of k kvs).
Proof.
  unfold values_of, tagged. induction kvs as [| [k' v] kvs IH]; simpl; [reflexivity |].
  destruct (String.eqb k' k); simpl; now rewrite IH.
Qed.

Lemma keys_tagged kvs : map fst (tagged kvs) = map fst kvs.
Proof. unfold tagged. rewrite map_map. reflexivity. Qed.

Lemma abstract_permutation tags tags' :
  (forall k, sound k (values_of k tags)) ->
  Permutation tags tags' -> Permutation (abstract tags) (abstract tags').
Proof.
  intros Hs H. unfold abstract.
  rewrite (Permutation_flat_map _ (keys_permutation _ _ (Permutation_map fst H))).
  apply flat_map_pointwise. intros k _.
  apply reduced_permutation; [apply Hs | now apply values_of_permutation].
Qed.

Lemma reduce_all_seen groups :
  forall out,
  (forall k vs, In (k, vs) groups -> sound k (map kept vs)) ->
  reduce_all reducer groups = Some out ->
  Permutation (map seen out)
    (flat_map (fun g => reduced (fst g) (map kept (snd g))) groups).
Proof.
  induction groups as [| [k vs] groups IH]; intros out Hs H; simpl in *.
  - inversion H. constructor.
  - destruct (reducer k vs) as [o |] eqn:Ek; [| discriminate].
    destruct (reduce_all reducer groups) as [os |]; [| discriminate].
    inversion H. rewrite map_app. apply Permutation_app.
    + apply reducer_reduced; [apply Hs; now left | assumption].
    + apply IH; [| reflexivity]. intros k' vs' Hin. apply Hs. now right.
Qed.

(** Whatever the grouping, what is seen of the result of a step is what
    the reducer on what is kept gives, up to the order. *)
Lemma outcome_abstract input out :
  (forall k, sound k (values_of k (tagged (flat_map mapper input)))) ->
  outcome mapper reducer input (Some out) ->
  Permutation (map seen out) (abstract (tagged (flat_map mapper input))).
Proof.
  intros Hs (groups & [Hkeys Hvalues] & Hout).
  set (kvs := flat_map mapper input) in *.
  assert (forall k vs, In (k, vs) groups -> sound k (map kept vs)) as Hs'.
  { intros k vs Hg.
    apply (sound_permutation k (values_of k (tagged kvs))); [| apply Hs].
    rewrite values_of_tagged. apply Permutation_map. symmetry. now apply Hvalues. }
  rewrite (reduce_all_seen groups out Hs' Hout).
  unfold abstract. rewrite keys_tagged, <- Hkeys.
  rewrite flat_map_of_map.
  apply flat_map_pointwise. intros [k vs] Hg. simpl.
  rewrite values_of_tagged.
  apply reduced_permutation; [now apply Hs' |].
  apply Permutation_map. now apply Hvalues.
Qed.

End Step.

End InvarianceFacts.

(* ================================================================== *)
(** * Further properties of the two jobs                               *)
(* ================================================================== *)

Module Properties.
Import MRJob.

(** ** The key of a day *)

Lemma mapper_parse_data_key line row y m d k v :
  Csv.row line = Some row ->
  PyDate.strptime (nth 0 row "") = Some (y, m, d) ->
  In (k, Json v) (Temperature.mapper_parse_data line) ->
  k = month_key (nth 7 row "") y m.
Proof.
  intros Hrow Hdate. unfold Temperature.mapper_parse_data.
  destruct (PyStr.startswith "time,temperature" line); [intros [] |].
  rewrite Hrow. destruct (List.length row <? 8)%nat; [intros [] |].
  destruct (float_or_none (nth 1 row "")) as [[tmax |] |];
    destruct (float_or_none (nth 2 row "")) as [[tmin |] |];
    destruct (float_or_none (nth 3 row "")) as [[tmean |] |];
    simpl; try (intros [H | []]; discriminate H); try (intros []).
  rewrite Hdate. simpl. intros [H | []]. now inversion H.
Qed.

(** X1. Two days that the temperature parser accepts get the same key,
    and so reach the same group of the first step, exactly when their
    lines name the same city, the same year and the same month; this
    holds for every city name, underscores included. *)
Theorem days_share_a_month_group line line' row row' y m d y' m' d' k v k' v' :
  Csv.row line = Some row -> Csv.row line' = Some row' ->
  PyDate.strptime (nth 0 row "") = Some (y, m, d) ->
  PyDate.strptime (nth 0 row' "") = Some (y', m', d') ->
  In (k, Json v) (Temperature.mapper_parse_data line) ->
  In (k', Json v') (Temperature.mapper_parse_data line') ->
  k = k' <-> nth 7 row "" = nth 7 row' "" /\ y = y' /\ m = m'.
Proof.
  intros Hrow Hrow' Hdate Hdate' Hk Hk'.
  rewrite (mapper_parse_data_key _ _ _ _ _ _ _ Hrow Hdate Hk).
  rewrite (mapper_parse_data_key _ _ _ _ _ _ _ Hrow' Hdate' Hk').
  apply ParserFacts.strptime_valid in Hdate as [Hy Hm].
  apply ParserFacts.strptime_valid in Hdate' as [Hy' Hm'].
  split.
  - intros E. apply KeyFacts.month_key_inj in E; [assumption | lia | lia | lia | lia].
  - intros (-> & -> & ->). reflexivity.
Qed.

(** The theorem on a day of June and a day of July of San_Andres. *)
Lemma days_share_a_month_group_witness :
  exists v v',
    let line := "2023-06-02,30.0,20.5,25.5,5.0,10.0,3600.0,San_Andres" in
    let line' := "2023-07-15,31.0,21.5,26.5,0.0,10.0,3600.0,San_Andres" in
    In ("San_Andres_2023_06", Json v) (Temperature.mapper_parse_data line)
    /\ In ("San_Andres_2023_07", Json v') (Temperature.mapper_parse_data line')
    /\ ("San_Andres_2023_06" = "San_Andres_2023_07"
        <-> "San_Andres" = "San_Andres" /\ 2023 = 2023 /\ 6 = 7).
Proof.
  do 2 eexists. cbv zeta.
  split; [vm_compute; left; reflexivity |].
  split; [vm_compute; left; reflexivity |].
  refine (days_share_a_month_group
            "2023-06-02,30.0,20.5,25.5,5.0,10.0,3600.0,San_Andres"
            "2023-07-15,31.0,21.5,26.5,0.0,10.0,3600.0,San_Andres"
            ["2023-06-02"; "30.0"; "20.5"; "25.5"; "5.0"; "10.0"; "3600.0"; "San_Andres"]
            ["2023-07-15"; "31.0"; "21.5"; "26.5"; "0.0"; "10.0"; "3600.0"; "San_Andres"]
            2023 6 2 2023 7 15 _ _ _ _ _ _ _ _ _ _).
  - vm_compute. reflexivity.
  - vm_compute. reflexivity.
  - vm_compute. reflexivity.
  - vm_compute. reflexivity.
  - vm_compute. left. reflexivity.
  - vm_compute. left. reflexivity.
Defined.

(** X2. A day that the temperature parser accepts is never lost without
    a trace by the precipitation parser: this one emits either a record
    under the very same key or, when the precipitation field is no
    number, one error record. *)
Theorem accepted_day_in_both_jobs line k v :
  In (k, Json v) (Temperature.mapper_parse_data line) ->
  (exists x, Precipitation.mapper_parse_precipitation line = [(k, Json x)])
  \/ Precipitation.mapper_parse_precipitation line = [(ERROR, Text "Parse error: ")].
Proof.
  unfold Temperature.mapper_parse_data, Precipitation.mapper_parse_precipitation.
  destruct (PyStr.startswith "time,temperature" line); [intros [] |].
  destruct (Csv.row line) as [row |]; simpl; [| intros [H | []]; discriminate H].
  destruct (List.length row <? 8)%nat; [intros [] |].
  destruct (float_or_none (nth 1 row "")) as [[tmax |] |];
    destruct (float_or_none (nth 2 row "")) as [[tmin |] |];
    destruct (float_or_none (nth 3 row "")) as [[tmean |] |];
    simpl; try (intros [H | []]; discriminate H); try (intros []).
  destruct (PyDate.strptime (nth 0 row "")) as [[[y m] d] |]; simpl;
    [| intros [H | []]; discriminate H].
  intros [H | []]. inversion H; subst.
  destruct (nth 4 row "") as [| a f]; simpl.
  - left. eexists. reflexivity.
  - destruct (PyFloat.of_str (String a f)) as [x |]; simpl.
    + left. eexists. reflexivity.
    + now right.
Qed.

(** The theorem on a day of Cali. *)
Lemma accepted_day_in_both_jobs_witness :
  exists v,
    let line := "2023-06-02,30.0,20.5,25.5,5.0,10.0,3600.0,Cali" in
    In ("Cali_2023_06", Json v) (Temperature.mapper_parse_data line)
    /\ ((exists x, Precipitation.mapper_parse_precipitation line
                   = [("Cali_2023_06", Json x)])
        \/ Precipitation.mapper_parse_precipitation line
           = [(ERROR, Text "Parse error: ")]).
Proof.
  eexists. cbv zeta. split; [vm_compute; left; reflexivity |].
  refine (accepted_day_in_both_jobs
            "2023-06-02,30.0,20.5,25.5,5.0,10.0,3600.0,Cali" "Cali_2023_06" _ _).
  vm_compute. left. reflexivity.
Defined.

(** [float(row[4]) if row[4] else 0.0] *)
Definition precipitation_of (field : string) : option PyFloat.float :=
  match field with
  | EmptyString => Some PyFloat.zero
  | String c r => PyFloat.of_str (String c r)
  end.

(** X3. A line of at least eight fields whose three temperature fields
    are each empty or a number, one of them at least empty, gives the
    temperature job nothing: no record and no error record, whatever the
    rest of the line, the date included. If the date of the line is one
    and its precipitation field is empty or a number, the precipitation
    parser emits the day of the same line under the key of its month: the
    precipitation job counts a day that the temperature job does not. *)
Theorem missing_temperature_is_silent line row tmax tmin tmean :
  PyStr.startswith "time,temperature" line = false ->
  Csv.row line = Some row -> (8 <= List.length row)%nat ->
  float_or_none (nth 1 row "") = Some tmax ->
  float_or_none (nth 2 row "") = Some tmin ->
  float_or_none (nth 3 row "") = Some tmean ->
  tmax = None \/ tmin = None \/ tmean = None ->
  Temperature.mapper_parse_data line = []
  /\ forall y m d x,
       PyDate.strptime (nth 0 row "") = Some (y, m, d) ->
       precipitation_of (nth 4 row "") = Some x ->
       Precipitation.mapper_parse_precipitation line
       = [(month_key (nth 7 row "") y m, Json x)].
Proof.
  intros Hhead Hrow Hlen Ha Hb Hc Hnone.
  assert ((List.length row <? 8)%nat = false) as Hlen' by (apply Nat.ltb_ge; lia).
  split.
  - unfold Temperature.mapper_parse_data.
    rewrite Hhead, Hrow, Hlen', Ha, Hb, Hc. simpl.
    destruct Hnone as [-> | [-> | ->]]; [reflexivity | |].
    + destruct tmax; reflexivity.
    + destruct tmax; [destruct tmin |]; reflexivity.
  - intros y m d x Hdate Hx.
    unfold Precipitation.mapper_parse_precipitation.
    rewrite Hhead, Hrow. simpl. rewrite Hlen'.
    fold (precipitation_of (nth 4 row "")). rewrite Hx. simpl.
    rewrite Hdate. reflexivity.
Qed.

(** The theorem on a day of Cali without maximal temperature: the
    temperature job has no line for the month, the first step of the
    precipitation job a record of one day. *)
Lemma missing_temperature_is_silent_witness :
  exists x result,
    let line := "2023-06-02,,20.5,25.5,5.0,10.0,3600.0,Cali" in
    PyFloat.of_str "5.0" = Some x
    /\ Temperature.mapper_parse_data line = []
    /\ Precipitation.mapper_parse_precipitation line = [("Cali_2023_06", Json x)]
    /\ Temperature.run [line] = Some []
    /\ Precipitation.stage1 [line] = Some [("Cali_2023_06", Json result)]
    /\ Precipitation.total_days result = 1.
Proof.
  do 2 eexists. cbv zeta.
  split; [vm_compute; reflexivity |].
  destruct (missing_temperature_is_silent
              "2023-06-02,,20.5,25.5,5.0,10.0,3600.0,Cali"
              ["2023-06-02"; ""; "20.5"; "25.5"; "5.0"; "10.0"; "3600.0"; "Cali"]
              None (PyFloat.of_str "20.5") (PyFloat.of_str "25.5"))
    as [Ht Hp].
  - vm_compute. reflexivity.
  - vm_compute. reflexivity.
  - simpl. lia.
  - reflexivity.
  - vm_compute. reflexivity.
  - vm_compute. reflexivity.
  - left. reflexivity.
  - split; [exact Ht |].
    split; [apply (Hp 2023 6 2); vm_compute; reflexivity |].
    split; [vm_compute; reflexivity |].
    split; [vm_compute; reflexivity | reflexivity].
Defined.

(** ** The months of the first step *)

(** X4. The first step of the temperature job never aborts and emits
    exactly one record for each key, other than the error key, under
    which the parser emitted a day: no month is emitted twice, none is
    missing and none is invented. *)
Theorem temperature_months lines :
  exists records,
    Temperature.stage1 lines = Some records
    /\ NoDup (map fst records)
    /\ forall k,
         In k (map fst records)
         <-> k <> ERROR
             /\ In k (map fst (flat_map Temperature.mapper_parse_data lines)).
Proof.
  destruct (StageOneFacts.temperature_stage1 lines) as (records & H1 & Hn & Hall).
  exists records. split; [assumption |]. split; [assumption |].
  intros k. split.
  - intros Hk. split.
    + apply in_map_iff in Hk as [kv [<- Hkv]].
      rewrite Forall_forall in Hall.
      destruct (Hall kv Hkv) as (c & y & m & stats & -> & _).
      apply String.eqb_neq, StrFacts.month_key_not_error.
    + unfold Temperature.stage1, step in H1.
      destruct (StageOneFacts.reduce_all_keys Temperature.reducer_aggregate_temps
                  StageOneFacts.reducer_aggregate_temps_one _ _ H1) as [Hin _].
      apply Hin in Hk. rewrite ShuffleFacts.shuffle_keys in Hk.
      rewrite ShuffleFacts.keys_In in Hk. exact Hk.
  - intros [Hne Hk]. apply in_map_iff in Hk as [[k' v] [E Hkv]].
    simpl in E. subst k'.
    destruct (StageOneFacts.temperature_stage1_key lines k v Hkv Hne)
      as (records' & stats & H1' & Hin).
    rewrite H1 in H1'. inversion H1'; subst records'.
    apply in_map_iff. now exists (k, Json stats).
Qed.

(** X5. The same for the first step of the precipitation job. *)
Theorem precipitation_months lines :
  exists records,
    Precipitation.stage1 lines = Some records
    /\ NoDup (map fst records)
    /\ forall k,
         In k (map fst records)
         <-> k <> ERROR
             /\ In k (map fst (flat_map Precipitation.mapper_parse_precipitation lines)).
Proof.
  destruct (StageOneFacts.precipitation_stage1 lines) as (records & H1 & Hn & Hall).
  exists records. split; [assumption |]. split; [assumption |].
  intros k. split.
  - intros Hk. split.
    + apply in_map_iff in Hk as [kv [<- Hkv]].
      rewrite Forall_forall in Hall.
      destruct (Hall kv Hkv) as (c & y & m & result & -> & _).
      apply String.eqb_neq, StrFacts.month_key_not_error.
    + unfold Precipitation.stage1, step in H1.
      destruct (StageOneFacts.reduce_all_keys Precipitation.reducer_monthly_totals
                  StageOneFacts.reducer_monthly_totals_one _ _ H1) as [Hin _].
      apply Hin in Hk. rewrite ShuffleFacts.shuffle_keys in Hk.
      rewrite ShuffleFacts.keys_In in Hk. exact Hk.
  - intros [Hne Hk]. apply in_map_iff in Hk as [[k' v] [E Hkv]].
    simpl in E. subst k'.
    destruct (StageOneFacts.precipitation_stage1_key lines k v Hkv Hne)
      as (records' & result & H1' & Hin).
    rewrite H1 in H1'. inversion H1'; subst records'.
    apply in_map_iff. now exists (k, Json result).
Qed.

(** ** Counting the days *)

(** The inputs for which a mapper emits a record that is no error. *)
Definition accepted {I V} (mapper : I -> list (string * V)) (input : I) : bool :=
  existsb (fun kv => ShuffleFacts.not_error (fst kv)) (mapper input).

(** The lines for which the precipitation parser emits a positive value. *)
Definition rainy (line : string) : bool :=
  existsb (fun kv => match json_loads (snd kv) with
                     | Some x => PyFloat.gt x PyFloat.zero
                     | None => false
                     end)
    (Precipitation.mapper_parse_precipitation line).

(** A record weighs [w] of its value, an error record nothing. *)
Definition weight {V} (w : V -> Z) (kv : string * V) : Z :=
  if ShuffleFacts.not_error (fst kv) then w (snd kv) else 0.

Lemma total_filter {A} (p : A -> bool) (w : A -> Z) l :
  Spec.total (map w (filter p l))
  = Spec.total (map (fun x => if p x then w x else 0) l).
Proof.
  induction l as [| a l IH]; simpl; [reflexivity |].
  destruct (p a); simpl; rewrite IH; reflexivity.
Qed.

Lemma total_indicator {A} (b : A -> bool) l :
  Spec.total (map (fun x => if b x then 1 else 0) l)
  = Z.of_nat (List.length (filter b l)).
Proof.
  induction l as [| a l IH]; [reflexivity |].
  cbn [map filter]. change (Spec.total (?x :: ?r)) with (x + Spec.total r).
  rewrite IH. destruct (b a); simpl List.length; lia.
Qed.

Lemma total_loaded {A} (f : A -> Z) (vs : list (wire A)) :
  Spec.total (map f (Temperature.loaded vs))
  = Spec.total (map (fun v => match json_loads v with
                              | Some a => f a
                              | None => 0
                              end) vs).
Proof.
  induction vs as [| [a | s] vs IH]; simpl; [reflexivity | | assumption].
  now rewrite IH.
Qed.

(** The sum of a measure [m] over what a step emits: when the reducer
    turns the weights [w] of the values of each group into the measure
    of what it emits for the group, the sum is that of the weights of
    all records that are no errors. *)
Lemma step_total {I V O} (mapper : I -> list (string * V))
    (reducer : string -> list V -> option (list O))
    (m : O -> Z) (w : V -> Z) input out :
  (forall vs, reducer ERROR vs = Some []) ->
  (forall k vs,
     In (k, vs) (shuffle (flat_map mapper input)) -> k <> ERROR ->
     Spec.total (map m (GroupingFacts.emitted reducer (k, vs)))
     = Spec.total (map w vs)) ->
  step mapper reducer input = Some out ->
  Spec.total (map m out) = Spec.total (map (weight w) (flat_map mapper input)).
Proof.
  intros Herr Hgroup Hout.
  rewrite ShuffleFacts.step_without_errors in Hout by assumption.
  apply GroupingFacts.reduce_all_flat_map in Hout. subst out.
  rewrite (GroupingFacts.total_flat_map _ m (fun g => Spec.total (map w (snd g)))).
  - rewrite GroupingFacts.shuffle_total.
    rewrite (total_filter (fun kv => ShuffleFacts.not_error (fst kv))
               (fun kv => w (snd kv))).
    reflexivity.
  - intros [k vs] Hg.
    rewrite (ShuffleFacts.shuffle_filter ShuffleFacts.not_error) in Hg.
    apply filter_In in Hg as [Hg Hk]. simpl in Hk.
    apply Hgroup; [assumption |].
    apply String.eqb_neq. now apply negb_true_iff in Hk.
Qed.

(** The same sum, line by line. *)
Lemma count_lines {I V} (mapper : I -> list (string * V))
    (u : string * V -> Z) (b : I -> bool) lines :
  (forall line, Spec.total (map u (mapper line)) = if b line then 1 else 0) ->
  Spec.total (map u (flat_map mapper lines))
  = Z.of_nat (List.length (filter b lines)).
Proof.
  intros H.
  rewrite (GroupingFacts.total_flat_map mapper u (fun line => if b line then 1 else 0))
    by (intros; apply H).
  apply total_indicator.
Qed.

Lemma count_rain_total xs :
  Precipitation.count_rain xs
  = Spec.total (map (fun x => if PyFloat.gt x PyFloat.zero then 1 else 0) xs).
Proof.
  unfold Precipitation.count_rain. symmetry. apply total_indicator.
Qed.

(** X6. The day counts of the monthly temperature records add up to the
    number of input lines that the parser accepted: every accepted day
    is counted in exactly one month, and nothing else is counted. *)
Theorem temperature_days_conserved lines :
  exists records,
    Temperature.stage1 lines = Some records
    /\ Spec.total (map Temperature.total_days (Temperature.loaded (map snd records)))
       = Z.of_nat (List.length
                     (filter (accepted Temperature.mapper_parse_data) lines)).
Proof.
  destruct (StageOneFacts.temperature_stage1 lines) as (records & H1 & _ & _).
  exists records. split; [assumption |].
  rewrite total_loaded, map_map.
  unfold Temperature.stage1 in H1.
  rewrite (step_total Temperature.mapper_parse_data
             Temperature.reducer_aggregate_temps
             (fun kv => match json_loads (snd kv) with
                        | Some a => Temperature.total_days a
                        | None => 0
                        end)
             (fun _ => 1) lines records (fun _ => eq_refl));
    [| | exact H1].
  - apply count_lines. intros line. unfold accepted.
    destruct (ParserFacts.mapper_parse_data_parsed line) as [| msg | c y m v _ _ _];
      [reflexivity | reflexivity |].
    unfold weight, ShuffleFacts.not_error. simpl.
    now rewrite StrFacts.month_key_not_error.
  - intros k vs Hg Hk.
    destruct (StageOneFacts.temperature_group lines k vs Hg Hk)
      as (days & -> & Hne & Hcount & _).
    destruct (StageOneFacts.reducer_aggregate_temps_emits k days Hk Hne)
      as (stats & Hr & _ & Hdays).
    unfold GroupingFacts.emitted. simpl. rewrite Hr. simpl.
    rewrite Hdays, (AggregatorFacts.total_of_ones _ _ Hcount).
    rewrite GroupingFacts.total_ones, length_map. lia.
Qed.

(** X7. In the precipitation job the day counts of the monthly records
    add up to the number of accepted lines, and the counts of rainy days
    to the number of accepted lines with a positive precipitation. *)
Theorem precipitation_days_conserved lines :
  exists records,
    Precipitation.stage1 lines = Some records
    /\ Spec.total (map Precipitation.total_days (Precipitation.loaded (map snd records)))
       = Z.of_nat (List.length
                     (filter (accepted Precipitation.mapper_parse_precipitation) lines))
    /\ Spec.total (map Precipitation.days_with_rain
                     (Precipitation.loaded (map snd records)))
       = Z.of_nat (List.length (filter rainy lines)).
Proof.
  destruct (StageOneFacts.precipitation_stage1 lines) as (records & H1 & _ & _).
  exists records. split; [assumption |].
  unfold Precipitation.stage1 in H1.
  assert (forall k vs,
            In (k, vs) (shuffle (flat_map Precipitation.mapper_parse_precipitation lines)) ->
            k <> ERROR ->
            exists xs hi,
              vs = map Json xs
              /\ GroupingFacts.emitted Precipitation.reducer_monthly_totals (k, vs)
                 = [(k, Json (Precipitation.mkResult
                        (PyFloat.round2 (PyFloat.sum xs))
                        (Precipitation.count_rain xs)
                        (PyFloat.round2 hi)
                        (PyFloat.round2 (Spec.mean xs))
                        (Z.of_nat (List.length xs))))]) as Hgroup.
  { intros k vs Hg Hk.
    destruct (StageOneFacts.precipitation_group lines k vs Hg Hk)
      as (xs & -> & Hne & _).
    destruct (StageOneFacts.reducer_monthly_totals_emits k xs Hk Hne) as (hi & _ & Hr).
    exists xs, hi. split; [reflexivity |].
    unfold GroupingFacts.emitted. simpl. now rewrite Hr. }
  rewrite !StageTwoFacts.loaded_same.
  split.
  - rewrite total_loaded, map_map.
    rewrite (step_total Precipitation.mapper_parse_precipitation
               Precipitation.reducer_monthly_totals
               (fun kv => match json_loads (snd kv) with
                          | Some a => Precipitation.total_days a
                          | None => 0
                          end)
               (fun _ => 1) lines records (fun _ => eq_refl));
      [| | exact H1].
    + apply count_lines. intros line. unfold accepted.
      destruct (ParserFacts.mapper_parse_precipitation_parsed line)
        as [| msg | c y m v _ _ _]; [reflexivity | reflexivity |].
      unfold weight, ShuffleFacts.not_error. simpl.
      now rewrite StrFacts.month_key_not_error.
    + intros k vs Hg Hk. destruct (Hgroup k vs Hg Hk) as (xs & hi & -> & ->).
      simpl. rewrite GroupingFacts.total_ones, length_map. lia.
  - rewrite total_loaded, map_map.
    rewrite (step_total Precipitation.mapper_parse_precipitation
               Precipitation.reducer_monthly_totals
               (fun kv => match json_loads (snd kv) with
                          | Some a => Precipitation.days_with_rain a
                          | None => 0
                          end)
               (fun v => match json_loads v with
                         | Some x => if PyFloat.gt x PyFloat.zero then 1 else 0
                         | None => 0
                         end) lines records (fun _ => eq_refl));
      [| | exact H1].
    + apply count_lines. intros line. unfold rainy.
      destruct (ParserFacts.mapper_parse_precipitation_parsed line)
        as [| msg | c y m v _ _ _]; [reflexivity | reflexivity |].
      unfold weight, ShuffleFacts.not_error. simpl.
      rewrite StrFacts.month_key_not_error. simpl.
      destruct (PyFloat.gt v PyFloat.zero); reflexivity.
    + intros k vs Hg Hk. destruct (Hgroup k vs Hg Hk) as (xs & hi & -> & ->).
      simpl. rewrite count_rain_total, map_map. simpl. lia.
Qed.

(** ** The monthly precipitation record *)

(** X8. Whatever the key and the values: a record that the monthly
    precipitation reducer emits is under the key of the group, counts as
    days the values of the group, and never counts more rainy days than
    days. *)
Theorem rainy_days_bounded key values out k r :
  Precipitation.reducer_monthly_totals key values = Some out ->
  In (k, Json r) out ->
  k = key
  /\ Precipitation.total_days r = Z.of_nat (List.length values)
  /\ 0 <= Precipitation.days_with_rain r <= Precipitation.total_days r.
Proof.
  intros Hout Hin.
  destruct (String.eqb key ERROR) eqn:Ek.
  - unfold Precipitation.reducer_monthly_totals in Hout. rewrite Ek in Hout.
    inversion Hout; subst. destruct Hin.
  - apply String.eqb_neq in Ek.
    rewrite OrderFacts.reducer_monthly_totals_closed in Hout by assumption.
    destruct (Precipitation.numbers values) as [xs |] eqn:Hxs; [| discriminate].
    apply OrderFacts.numbers_spec in Hxs. subst values.
    destruct (match xs with [] => Some PyFloat.zero | _ :: _ => PyFloat.max xs end)
      as [hi |]; [| discriminate].
    inversion Hout; subst out. destruct Hin as [H | []]. inversion H; subst.
    simpl. rewrite length_map. split; [reflexivity |]. split; [reflexivity |].
    unfold Precipitation.count_rain.
    pose proof (filter_length_le (fun v => PyFloat.gt v PyFloat.zero) xs). lia.
Qed.

(** The theorem on a rainy and a dry day. *)
Lemma rainy_days_bounded_witness :
  exists r,
    let values := [Json (PyFloat.of_int 5); Json PyFloat.zero] in
    Precipitation.reducer_monthly_totals "Cali_2023_06" values
    = Some [("Cali_2023_06", Json r)]
    /\ Precipitation.days_with_rain r = 1
    /\ Precipitation.total_days r = 2
    /\ 0 <= Precipitation.days_with_rain r <= Precipitation.total_days r.
Proof.
  eexists. cbv zeta. split; [vm_compute; reflexivity |].
  split; [reflexivity |].
  refine (proj2 (rainy_days_bounded "Cali_2023_06"
                   [Json (PyFloat.of_int 5); Json PyFloat.zero] _ "Cali_2023_06" _ _ _)).
  - vm_compute. reflexivity.
  - left. reflexivity.
Defined.

(** ** The last reducer of the temperature job *)

Lemma insert_by_month_permutation x l :
  Permutation (Temperature.insert_by_month x l) (x :: l).
Proof.
  induction l as [| y r IH]; simpl; [reflexivity |].
  destruct (Temperature.month x <=? Temperature.month y); [reflexivity |].
  rewrite IH. apply perm_swap.
Qed.

Lemma sort_by_month_permutation l : Permutation (Temperature.sort_by_month l) l.
Proof.
  induction l as [| x l IH]; simpl; [constructor |].
  rewrite insert_by_month_permutation. now constructor.
Qed.

Lemma insert_by_month_ordered x l :
  StronglySorted Z.le (map Temperature.month l) ->
  StronglySorted Z.le (map Temperature.month (Temperature.insert_by_month x l)).
Proof.
  induction l as [| y r IH]; simpl; intros Hs.
  - repeat constructor.
  - inversion Hs as [| ? ? Hr Hy]; subst.
    destruct (Temperature.month x <=? Temperature.month y) eqn:E.
    + apply Z.leb_le in E. simpl. constructor; [assumption |].
      constructor; [assumption |].
      eapply Forall_impl; [| exact Hy]. simpl. intros; lia.
    + apply Z.leb_gt in E. simpl. constructor; [now apply IH |].
      apply Forall_forall. intros z Hz.
      apply in_map_iff in Hz as [o [<- Ho]].
      apply StageTwoFacts.insert_by_month_In in Ho as [-> | Ho]; [lia |].
      rewrite Forall_forall in Hy. apply Hy. now apply in_map.
Qed.

Lemma sort_by_month_ordered l :
  StronglySorted Z.le (map Temperature.month (Temperature.sort_by_month l)).
Proof.
  induction l as [| x l IH]; simpl; [constructor |].
  now apply insert_by_month_ordered.
Qed.

(** A record goes in front of the records of its own month. *)
Lemma insert_by_month_filter m x l :
  filter (fun o => Temperature.month o =? m) (Temperature.insert_by_month x l)
  = filter (fun o => Temperature.month o =? m) (x :: l).
Proof.
  induction l as [| y r IH]; [reflexivity |].
  cbn [Temperature.insert_by_month].
  destruct (Temperature.month x <=? Temperature.month y) eqn:E; [reflexivity |].
  apply Z.leb_gt in E. cbn [filter] in *. rewrite IH.
  destruct (Temperature.month x =? m) eqn:Ex; [| reflexivity].
  apply Z.eqb_eq in Ex.
  assert ((Temperature.month y =? m) = false) as -> by (apply Z.eqb_neq; lia).
  reflexivity.
Qed.

Lemma sort_by_month_filter m l :
  filter (fun o => Temperature.month o =? m) (Temperature.sort_by_month l)
  = filter (fun o => Temperature.month o =? m) l.
Proof.
  induction l as [| x l IH]; [reflexivity |].
  cbn [Temperature.sort_by_month fold_right].
  fold (Temperature.sort_by_month l).
  rewrite insert_by_month_filter. cbn [filter]. now rewrite IH.
Qed.

Lemma filter_map_swap {A B} (f : A -> B) (p : B -> bool) l :
  filter p (map f l) = map f (filter (fun a => p (f a)) l).
Proof.
  induction l as [| a l IH]; simpl; [reflexivity |].
  destruct (p (f a)); simpl; now rewrite IH.
Qed.

(** The values that the second mapper hands to the last reducer: a
    complete record whose integers can be written, or the text of an
    error, which is no JSON document. *)
Definition formatted (v : wire Temperature.month_output) : Prop :=
  match v with
  | Json o => Temperature.writable o
  | Text s => PyStr.startswith "Format error: " s = true
  end.

(** X9. On a group that is not the error group and whose values are
    records of the second mapper or texts of its errors, in any number
    and order, the last reducer of the temperature job does not raise; it
    emits one line for each record and none for an error text, in
    non-decreasing order of the month, and the lines of one month stay in
    the order in which their records came. *)
Theorem final_output_sorts key values :
  key <> ERROR -> Forall formatted values ->
  exists rows,
    Temperature.reducer_final_output key values = Some rows
    /\ Permutation rows (map Temperature.format_line (Temperature.loaded values))
    /\ StronglySorted Z.le (map Temperature.col_month rows)
    /\ forall m,
         filter (fun row => Temperature.col_month row =? m) rows
         = map Temperature.format_line
             (filter (fun o => Temperature.month o =? m) (Temperature.loaded values)).
Proof.
  intros Hkey _. apply String.eqb_neq in Hkey.
  unfold Temperature.reducer_final_output. rewrite Hkey.
  eexists. split; [reflexivity |]. split; [| split].
  - apply Permutation_map, sort_by_month_permutation.
  - rewrite map_map. apply sort_by_month_ordered.
  - intros m. rewrite filter_map_swap. simpl. now rewrite sort_by_month_filter.
Qed.

(** The theorem on a group of July, an error text and two records of May. *)
Lemma final_output_sorts_witness :
  let stats := Temperature.mkStats "Cali_2023" PyFloat.zero PyFloat.zero PyFloat.zero
                 PyFloat.zero PyFloat.zero in
  let values := [Json (Temperature.mkOutput "Cali" 2023 7 "July" (stats 3));
                 Text "Format error: ";
                 Json (Temperature.mkOutput "Cali" 2023 5 "May" (stats 1));
                 Json (Temperature.mkOutput "Cali" 2023 5 "May" (stats 2))] in
  exists rows,
    Temperature.reducer_final_output "Cali_2023" values = Some rows
    /\ Permutation rows (map Temperature.format_line (Temperature.loaded values))
    /\ StronglySorted Z.le (map Temperature.col_month rows)
    /\ forall m,
         filter (fun row => Temperature.col_month row =? m) rows
         = map Temperature.format_line
             (filter (fun o => Temperature.month o =? m) (Temperature.loaded values)).
Proof.
  cbv zeta. apply final_output_sorts; [discriminate |].
  repeat constructor; vm_compute; reflexivity.
Defined.

(** ** The result of the temperature job *)

Lemma unpack3_too_long parts : (3 < List.length parts)%nat -> unpack3 parts = None.
Proof.
  destruct parts as [| a [| b [| c [| d r]]]]; simpl; intros H;
    try (exfalso; lia); reflexivity.
Qed.

(** The second mapper on the key of a month: the month of a city without
    underscore is formatted if its date exists; the month of a city with
    an underscore is an error. *)
Lemma mapper_format_output_clean city y m stats :
  PyStr.contains PyStr.underscore city = false -> 0 <= y -> 0 <= m ->
  PyStr.printable y -> PyStr.printable m ->
  Temperature.mapper_format_output (month_key city y m) (Json stats)
  = match PyDate.month_name y m with
    | Some name =>
        [((city ++ "_" ++ PyStr.str_of_int y)%string,
          Json (Temperature.mkOutput city y m name stats))]
    | None => [(ERROR, Text "Format error: ")]
    end.
Proof.
  intros Hc Hy Hm Hpy Hpm. unfold Temperature.mapper_format_output.
  rewrite StrFacts.month_key_not_error, StrFacts.split_month_key by assumption.
  simpl.
  rewrite StrFacts.int_of_str_str_of_int, StrFacts.int_of_str_format_02d by assumption.
  destruct (PyDate.month_name y m); reflexivity.
Qed.

Lemma mapper_format_output_dirty city y m v :
  PyStr.contains PyStr.underscore city = true ->
  Temperature.mapper_format_output (month_key city y m) v
  = [(ERROR, Text "Format error: ")].
Proof.
  intros Hc. unfold Temperature.mapper_format_output.
  rewrite StrFacts.month_key_not_error.
  rewrite unpack3_too_long by now apply StrFacts.split_month_key_underscore.
  destruct (json_loads v); reflexivity.
Qed.

Lemma permutation_flat_map {A B} (f f' : A -> list B) l :
  (forall a, In a l -> Permutation (f a) (f' a)) ->
  Permutation (flat_map f l) (flat_map f' l).
Proof.
  induction l as [| a l IH]; simpl; intros H; [constructor |].
  apply Permutation_app; [apply H; now left |].
  apply IH. intros; apply H; now right.
Qed.

Lemma map_flat_map {A B C} (f : B -> C) (h : A -> list B) l :
  map f (flat_map h l) = flat_map (fun a => map f (h a)) l.
Proof.
  induction l as [| a l IH]; simpl; [reflexivity |].
  now rewrite map_app, IH.
Qed.

(** The records that the reducers of a step read are, all groups taken
    together, the records that the mapper emitted. *)
Lemma shuffle_loaded {A} (kvs : list (string * wire A)) :
  Permutation (flat_map (fun g => Temperature.loaded (snd g)) (shuffle kvs))
    (Temperature.loaded (map snd kvs)).
Proof.
  eapply Permutation_trans;
    [| apply OrderFacts.loaded_permutation, Permutation_map,
         GroupingFacts.shuffle_permutation].
  rewrite StageTwoFacts.loaded_flat_map.
  erewrite flat_map_ext; [reflexivity |].
  intros g. unfold GroupingFacts.pairs. rewrite map_map. simpl.
  now rewrite map_id.
Qed.

Lemma loaded_without_errors {A} (kvs : list (string * wire A)) :
  (forall kv, In kv kvs -> fst kv = ERROR -> exists msg, snd kv = Text msg) ->
  Temperature.loaded
    (map snd (filter (fun kv => ShuffleFacts.not_error (fst kv)) kvs))
  = Temperature.loaded (map snd kvs).
Proof.
  induction kvs as [| [k v] r IH]; intros H; [reflexivity |].
  cbn [filter fst]. unfold ShuffleFacts.not_error at 1.
  destruct (String.eqb k ERROR) eqn:Ek; cbn [negb map snd Temperature.loaded].
  - apply String.eqb_eq in Ek.
    destruct (H (k, v) (or_introl eq_refl) Ek) as [msg E]. simpl in E. subst v.
    simpl. apply IH. intros; apply H; [now right | assumption].
  - rewrite IH by (intros; apply H; [now right | assumption]). reflexivity.
Qed.

Lemma temperature_output_error kv :
  StageTwoFacts.temperature_output kv ->
  fst kv = ERROR -> exists msg, snd kv = Text msg.
Proof.
  intros [[_ H] | (o & _ & Hk & _)] E; [assumption |].
  exfalso. rewrite E in Hk.
  assert (PyStr.contains PyStr.underscore ERROR = true) as C
      by (rewrite Hk, StrFacts.contains_app; simpl; apply orb_true_r).
  discriminate C.
Qed.

(** The lines of the result are, up to their order, the records that the
    second mapper emitted. *)
Lemma temperature_stage2_rows records rows :
  NoDup (map fst records) ->
  Forall StageOneFacts.temperature_month records ->
  Temperature.stage2 records = Some rows ->
  Permutation rows
    (map Temperature.format_line
       (Temperature.loaded (map snd (StageTwoFacts.format_records records)))).
Proof.
  intros Hn Hall H2. unfold Temperature.stage2 in H2.
  rewrite ShuffleFacts.step_without_errors in H2 by reflexivity.
  apply GroupingFacts.reduce_all_flat_map in H2. subst rows.
  fold (StageTwoFacts.format_records records).
  destruct (StageTwoFacts.temperature_mapped2 records Hn Hall) as [Hshape _].
  rewrite Forall_forall in Hshape.
  rewrite <- loaded_without_errors
    by (intros kv Hkv; apply temperature_output_error; now apply Hshape).
  eapply Permutation_trans;
    [| apply Permutation_map, shuffle_loaded].
  rewrite map_flat_map. apply permutation_flat_map.
  intros [k vs] Hg.
  rewrite (ShuffleFacts.shuffle_filter ShuffleFacts.not_error) in Hg.
  apply filter_In in Hg as [_ Hk]. simpl in Hk.
  unfold GroupingFacts.emitted, Temperature.reducer_final_output. simpl.
  apply negb_true_iff in Hk. rewrite Hk.
  apply Permutation_map, sort_by_month_permutation.
Qed.

Lemma temperature_pipeline lines :
  exists records rows,
    Temperature.stage1 lines = Some records
    /\ Temperature.run lines = Some rows
    /\ NoDup (map fst records)
    /\ Forall StageOneFacts.temperature_month records
    /\ Permutation rows
         (map Temperature.format_line
            (Temperature.loaded (map snd (StageTwoFacts.format_records records)))).
Proof.
  destruct (StageOneFacts.temperature_stage1 lines) as (records & H1 & Hn & Hall).
  destruct (StageTwoFacts.temperature_run lines) as (records' & rows & H1' & Hrun & _).
  rewrite H1 in H1'. inversion H1'; subst records'.
  exists records, rows. repeat (split; [assumption |]).
  apply temperature_stage2_rows; try assumption.
  unfold Temperature.run in Hrun. now rewrite H1 in Hrun.
Qed.

(** The lines of the result, one by one. *)
Lemma temperature_rows_In records rows :
  Forall StageOneFacts.temperature_month records ->
  Permutation rows
    (map Temperature.format_line
       (Temperature.loaded (map snd (StageTwoFacts.format_records records)))) ->
  forall row,
    In row rows
    <-> exists city y m name stats,
          In (month_key city y m, Json stats) records
          /\ PyStr.contains PyStr.underscore city = false
          /\ PyDate.month_name y m = Some name
          /\ row = Temperature.format_line (Temperature.mkOutput city y m name stats).
Proof.
  intros Hall Hp row. rewrite Forall_forall in Hall. split.
  - intros Hrow. apply (Permutation_in _ Hp) in Hrow.
    apply in_map_iff in Hrow as [o [<- Ho]].
    apply StageTwoFacts.loaded_In, in_map_iff in Ho as [[k2 v2] [E Hkv2]].
    simpl in E. subst v2.
    apply in_flat_map in Hkv2 as [[k v] [Hkv Hkv2]].
    destruct (Hall (k, v) Hkv) as (c & y & m & stats & Hk & Hy & Hm & Hv & _).
    simpl in *. subst k v.
    destruct (PyStr.contains PyStr.underscore c) eqn:Hc.
    + rewrite mapper_format_output_dirty in Hkv2 by assumption.
      destruct Hkv2 as [H | []]. discriminate H.
    + rewrite mapper_format_output_clean in Hkv2
      by (assumption || lia || (apply StrFacts.printable_small; lia)).
      destruct (PyDate.month_name y m) as [name |] eqn:Hname;
        destruct Hkv2 as [H | []]; [| discriminate H].
      inversion H; subst. now exists c, y, m, name, stats.
  - intros (c & y & m & name & stats & Hkv & Hc & Hname & ->).
    apply (Permutation_in _ (Permutation_sym Hp)), in_map.
    apply StageTwoFacts.loaded_In, in_map_iff.
    exists ((c ++ "_" ++ PyStr.str_of_int y)%string,
            Json (Temperature.mkOutput c y m name stats)).
    split; [reflexivity |].
    apply in_flat_map. exists (month_key c y m, Json stats).
    split; [assumption |]. simpl.
    destruct (StageTwoFacts.month_name_some _ _ _ Hname) as [Hy Hm].
    rewrite mapper_format_output_clean, Hname
      by (assumption || lia || (apply StrFacts.printable_small; lia)).
    now left.
Qed.

(** No two of them are for the same month of the same city. *)
Lemma temperature_rows_NoDup records rows :
  NoDup (map fst records) ->
  Forall StageOneFacts.temperature_month records ->
  Permutation rows
    (map Temperature.format_line
       (Temperature.loaded (map snd (StageTwoFacts.format_records records)))) ->
  NoDup (map (fun row => (Temperature.col_city row, Temperature.col_year row,
                          Temperature.col_month row)) rows).
Proof.
  intros Hn Hall Hp.
  eapply Permutation_NoDup; [apply Permutation_map, Permutation_sym, Hp |].
  rewrite map_map. simpl.
  destruct (StageTwoFacts.temperature_mapped2 records Hn Hall) as [Hshape Htags].
  rewrite Forall_forall in Hshape.
  apply (NoDup_map_inv (fun t => month_key (fst (fst t)) (snd (fst t)) (snd t))).
  rewrite map_map. simpl.
  erewrite map_ext_in; [exact Htags |].
  intros o Ho. simpl.
  apply StageTwoFacts.loaded_In, in_map_iff in Ho as [[k v] [E Hkv]].
  simpl in E. subst v.
  destruct (Hshape _ Hkv) as [[_ [msg E]] | (o' & E & _ & _ & _ & _ & Htag)];
    simpl in E; [discriminate |].
  inversion E; subst o'. now rewrite Htag.
Qed.

(** X10. The temperature job never aborts, and its result is exactly
    this: one line for each monthly record of the first step whose city
    holds no underscore, carrying the city, the year and the month of the
    key, the English name of the month and the statistics of the record
    unchanged; there is no other line. *)
Theorem temperature_result lines :
  exists records rows,
    Temperature.stage1 lines = Some records
    /\ Temperature.run lines = Some rows
    /\ forall row,
         In row rows
         <-> exists city y m name stats,
               In (month_key city y m, Json stats) records
               /\ PyStr.contains PyStr.underscore city = false
               /\ PyDate.month_name y m = Some name
               /\ row = Temperature.format_line
                          (Temperature.mkOutput city y m name stats).
Proof.
  destruct (temperature_pipeline lines) as (records & rows & H1 & Hrun & Hn & Hall & Hp).
  exists records, rows. split; [assumption |]. split; [assumption |].
  intros row. split.
  - intros Hrow. now apply (temperature_rows_In records rows Hall Hp).
  - intros Hrow. now apply (temperature_rows_In records rows Hall Hp).
Qed.

(** X11. No two lines of the result of the temperature job are for the
    same city, year and month. *)
Theorem temperature_result_unique lines :
  exists rows,
    Temperature.run lines = Some rows
    /\ NoDup (map (fun row => (Temperature.col_city row, Temperature.col_year row,
                               Temperature.col_month row)) rows).
Proof.
  destruct (temperature_pipeline lines) as (records & rows & H1 & Hrun & Hn & Hall & Hp).
  exists rows. split; [assumption |].
  now apply (temperature_rows_NoDup records).
Qed.

(** ** The result of the precipitation job *)

(** The key of the second step, as the second mapper writes it. *)
Definition season_key (e : Precipitation.enhanced) : string :=
  Precipitation.city e ++ "_" ++ Precipitation.season e ++ "_"
  ++ PyStr.str_of_int (Precipitation.year e).

Lemma mapper_add_season_clean city y m data :
  PyStr.contains PyStr.underscore city = false -> 0 <= y -> 0 <= m ->
  PyStr.printable y -> PyStr.printable m ->
  Precipitation.mapper_add_season (month_key city y m) (Json data)
  = [(season_key (Precipitation.mkEnhanced city y m (Precipitation.get_season m) data),
      Json (Precipitation.mkEnhanced city y m (Precipitation.get_season m) data))].
Proof.
  intros Hc Hy Hm Hpy Hpm. unfold Precipitation.mapper_add_season.
  rewrite StrFacts.month_key_not_error, StrFacts.split_month_key by assumption.
  simpl.
  rewrite StrFacts.int_of_str_str_of_int, StrFacts.int_of_str_format_02d by assumption.
  reflexivity.
Qed.

Lemma mapper_add_season_dirty city y m v :
  PyStr.contains PyStr.underscore city = true ->
  Precipitation.mapper_add_season (month_key city y m) v
  = [(ERROR, Text "Season mapping error: ")].
Proof.
  intros Hc. unfold Precipitation.mapper_add_season.
  rewrite StrFacts.month_key_not_error.
  rewrite unpack3_too_long by now apply StrFacts.split_month_key_underscore.
  destruct (json_loads v); reflexivity.
Qed.

Lemma season_key_not_error e : season_key e <> ERROR.
Proof.
  intros E.
  assert (PyStr.contains PyStr.underscore ERROR = true) as C
      by (rewrite <- E; unfold season_key; rewrite StrFacts.contains_app; simpl;
          apply orb_true_r).
  discriminate C.
Qed.

(** The key of the second step determines city, season and year. *)
Lemma season_key_inj e e' :
  PyStr.contains PyStr.underscore (Precipitation.city e) = false ->
  PyStr.contains PyStr.underscore (Precipitation.city e') = false ->
  0 <= Precipitation.year e -> 0 <= Precipitation.year e' ->
  season_key e = season_key e' ->
  Precipitation.city e = Precipitation.city e'
  /\ Precipitation.season e = Precipitation.season e'
  /\ Precipitation.year e = Precipitation.year e'.
Proof.
  intros Hc Hc' Hy Hy' E. unfold season_key in E.
  change (?c ++ "_" ++ ?s ++ "_" ++ ?y)%string
    with (c ++ String PyStr.underscore (s ++ String PyStr.underscore y))%string in E.
  apply KeyFacts.append_first_sep in E as [Ec E]; [| assumption | assumption].
  apply KeyFacts.append_last_sep in E as [Es E];
    [| apply StrFacts.all_digits_clean, StrFacts.str_of_int_all_digits; assumption
     | apply StrFacts.all_digits_clean, StrFacts.str_of_int_all_digits; assumption].
  split; [assumption |]. split; [assumption |].
  now apply KeyFacts.str_of_int_inj.
Qed.

(** What the second mapper emits for the records of the first step. *)
Definition season_output (kv : string * wire Precipitation.enhanced) : Prop :=
  (fst kv = ERROR /\ exists msg, snd kv = Text msg)
  \/ (exists e,
        snd kv = Json e /\ fst kv = season_key e
        /\ PyStr.contains PyStr.underscore (Precipitation.city e) = false
        /\ 1 <= Precipitation.year e <= 9999 /\ 1 <= Precipitation.month e <= 12
        /\ Precipitation.season e = Precipitation.get_season (Precipitation.month e)).

Definition month_tag (e : Precipitation.enhanced) : string :=
  month_key (Precipitation.city e) (Precipitation.year e) (Precipitation.month e).

Lemma mapper_add_season_month kv :
  StageOneFacts.precipitation_month kv ->
  Precipitation.mapper_add_season (fst kv) (snd kv)
  = [(ERROR, Text "Season mapping error: ")]
  \/ (exists e,
        Precipitation.mapper_add_season (fst kv) (snd kv) = [(season_key e, Json e)]
        /\ season_output (season_key e, Json e)
        /\ month_tag e = fst kv
        /\ snd kv = Json (Precipitation.data e)).
Proof.
  intros (c & y & m & result & Hk & Hy & Hm & Hv & _). rewrite Hk, Hv.
  destruct (PyStr.contains PyStr.underscore c) eqn:Hc.
  - left. now apply mapper_add_season_dirty.
  - right. eexists. split; [apply mapper_add_season_clean;
                      (assumption || lia || (apply StrFacts.printable_small; lia)) |].
    split; [| split; reflexivity].
    right. eexists. split; [reflexivity |]. simpl. repeat split; (assumption || lia).
Qed.

Lemma precipitation_mapped2 records :
  NoDup (map fst records) ->
  Forall StageOneFacts.precipitation_month records ->
  Forall season_output (StageTwoFacts.season_records records)
  /\ NoDup (map month_tag
             (Temperature.loaded (map snd (StageTwoFacts.season_records records)))).
Proof.
  intros Hn Hall. rewrite Forall_forall in Hall. split.
  - apply Forall_forall. intros kv2 Hkv2.
    apply in_flat_map in Hkv2 as [kv [Hkv Hkv2]].
    destruct (mapper_add_season_month kv (Hall kv Hkv)) as [E | (e & E & He & _)];
      rewrite E in Hkv2; destruct Hkv2 as [<- | []]; [| assumption].
    left. simpl. eauto.
  - unfold StageTwoFacts.season_records. rewrite StageTwoFacts.loaded_flat_map.
    apply (StageTwoFacts.NoDup_tags fst); [assumption |].
    intros kv Hkv.
    destruct (mapper_add_season_month kv (Hall kv Hkv)) as [E | (e & E & _ & He & _)];
      rewrite E; simpl.
    + now left.
    + right. now exists e.
Qed.

(** The records of one group of the second step: at least one, of one
    city, one year and one season, and of pairwise different months. *)
Lemma precipitation_group2 records key values :
  NoDup (map fst records) ->
  Forall StageOneFacts.precipitation_month records ->
  In (key, values) (shuffle (StageTwoFacts.season_records records)) ->
  key <> ERROR ->
  exists e0 es,
    values = map Json (e0 :: es)
    /\ NoDup (map Precipitation.month (e0 :: es))
    /\ forall e, In e (e0 :: es) ->
         key = season_key e
         /\ Precipitation.city e = Precipitation.city e0
         /\ Precipitation.year e = Precipitation.year e0
         /\ Precipitation.season e = Precipitation.season e0
         /\ PyStr.contains PyStr.underscore (Precipitation.city e) = false
         /\ 1 <= Precipitation.year e <= 9999
         /\ 1 <= Precipitation.month e <= 12
         /\ Precipitation.get_season (Precipitation.month e) = Precipitation.season e0.
Proof.
  intros Hn Hall Hg Hkey.
  destruct (precipitation_mapped2 records Hn Hall) as [Hout Htags].
  rewrite Forall_forall in Hout.
  pose proof Hg as Hg'. apply ShuffleFacts.shuffle_In in Hg' as [_ Hvalues].
  apply ShuffleFacts.shuffle_group in Hg as [Hne Hvs].
  assert (forall v, In v values ->
            exists e, v = Json e /\ key = season_key e
              /\ PyStr.contains PyStr.underscore (Precipitation.city e) = false
              /\ 1 <= Precipitation.year e <= 9999
              /\ 1 <= Precipitation.month e <= 12
              /\ Precipitation.season e
                 = Precipitation.get_season (Precipitation.month e)) as Hin.
  { intros v Hv. apply Hvs, Hout in Hv.
    destruct Hv as [[E _] | (e & E & H)]; simpl in *; [congruence |].
    now exists e. }
  destruct (StageOneFacts.all_json values) as [es Ees];
    [intros v Hv; destruct (Hin v Hv) as (e & -> & _); now exists e |].
  destruct es as [| e0 es]; [now destruct Hne |].
  exists e0, es. split; [assumption |].
  assert (forall e, In e (e0 :: es) ->
            key = season_key e
            /\ PyStr.contains PyStr.underscore (Precipitation.city e) = false
            /\ 1 <= Precipitation.year e <= 9999
            /\ 1 <= Precipitation.month e <= 12
            /\ Precipitation.season e
               = Precipitation.get_season (Precipitation.month e)) as Hin'.
  { intros e He. destruct (Hin (Json e)) as (e' & E & H);
      [rewrite Ees; now apply in_map |].
    inversion E; subst e'. exact H. }
  destruct (Hin' e0 (or_introl eq_refl)) as (Hk0 & Hc0 & Hy0 & _).
  assert (forall e, In e (e0 :: es) ->
            Precipitation.city e = Precipitation.city e0
            /\ Precipitation.season e = Precipitation.season e0
            /\ Precipitation.year e = Precipitation.year e0) as Hsame.
  { intros e He. destruct (Hin' e He) as (Hk & Hc & Hy & _).
    rewrite Hk0 in Hk. symmetry in Hk.
    apply season_key_inj in Hk; [assumption | assumption | assumption | lia | lia]. }
  split.
  - apply (NoDup_map_inv
             (month_key (Precipitation.city e0) (Precipitation.year e0))).
    rewrite map_map.
    pose proof (proj2 (StageTwoFacts.loaded_values_of_NoDup month_tag key
                         (StageTwoFacts.season_records records)) Htags) as Hnd.
    rewrite <- Hvalues, Ees, <- StageTwoFacts.loaded_same,
      AggregatorFacts.loaded_json in Hnd.
    erewrite map_ext_in; [exact Hnd |].
    intros e He. unfold month_tag.
    destruct (Hsame e He) as (-> & _ & ->). reflexivity.
  - intros e He. destruct (Hin' e He) as (Hk & Hc & Hy & Hm & Hs).
    destruct (Hsame e He) as (Ec & Es & Ey).
    repeat (split; [assumption |]). now rewrite <- Es.
Qed.

(** A season has three months. *)
Lemma season_size es s :
  NoDup (map Precipitation.month es) ->
  (forall e, In e es ->
     1 <= Precipitation.month e <= 12
     /\ Precipitation.get_season (Precipitation.month e) = s) ->
  (List.length es <= 3)%nat.
Proof.
  intros Hn Hes. destruct es as [| e0 es']; [simpl; lia |].
  remember (e0 :: es') as es eqn:Ees.
  rewrite <- (length_map Precipitation.month).
  assert (List.length
            (filter (fun m => String.eqb (Precipitation.get_season m) s)
               [1; 2; 3; 4; 5; 6; 7; 8; 9; 10; 11; 12]%Z) <= 3)%nat as Hb.
  { destruct (Hes e0) as [Hm Hs]; [subst es; now left |].
    remember (Precipitation.month e0) as m0 eqn:Em0. clear Em0. subst s.
    assert (m0 = 1 \/ m0 = 2 \/ m0 = 3 \/ m0 = 4 \/ m0 = 5 \/ m0 = 6 \/ m0 = 7
            \/ m0 = 8 \/ m0 = 9 \/ m0 = 10 \/ m0 = 11 \/ m0 = 12) as Hcases by lia.
    repeat (destruct Hcases as [-> | Hcases]; [vm_compute; lia |]).
    subst m0. vm_compute. lia. }
  eapply Nat.le_trans; [| exact Hb].
  apply NoDup_incl_length; [assumption |].
  intros m Hm. apply in_map_iff in Hm as [e [<- He]].
  destruct (Hes e He) as [Hm Hs]. apply filter_In. split.
  - assert (Precipitation.month e = 1 \/ Precipitation.month e = 2
            \/ Precipitation.month e = 3 \/ Precipitation.month e = 4
            \/ Precipitation.month e = 5 \/ Precipitation.month e = 6
            \/ Precipitation.month e = 7 \/ Precipitation.month e = 8
            \/ Precipitation.month e = 9 \/ Precipitation.month e = 10
            \/ Precipitation.month e = 11 \/ Precipitation.month e = 12) as Hcases by lia.
    simpl. intuition.
  - now apply String.eqb_eq.
Qed.

(** The line that the last reducer emits for a group of records. *)
Definition season_line (e0 : Precipitation.enhanced) (es : list Precipitation.enhanced)
    (line : Precipitation.csv_line) : Prop :=
  Precipitation.col_city line = Precipitation.city e0
  /\ Precipitation.col_year line = Precipitation.year e0
  /\ Precipitation.col_season line = Precipitation.season e0
  /\ Precipitation.col_months_in_season line = Z.of_nat (List.length (e0 :: es))
  /\ Precipitation.col_total_rainy_days line
     = Spec.total (map (fun e => Precipitation.days_with_rain (Precipitation.data e))
                     (e0 :: es)).

Lemma reducer_seasonal_analysis_line key vs :
  key <> ERROR ->
  match Temperature.loaded vs with
  | [] => GroupingFacts.emitted Precipitation.reducer_seasonal_analysis (key, vs) = []
  | e0 :: es =>
      exists line,
        GroupingFacts.emitted Precipitation.reducer_seasonal_analysis (key, vs) = [line]
        /\ season_line e0 es line
  end.
Proof.
  intros Hkey. unfold GroupingFacts.emitted. simpl.
  rewrite OrderFacts.reducer_seasonal_analysis_closed by assumption.
  destruct (Temperature.loaded vs) as [| e0 es]; [reflexivity |].
  destruct (AggregatorFacts.max_not_nil
              (map (fun d => Precipitation.monthly_total (Precipitation.data d))
                 (e0 :: es))) as [hi Hhi]; [discriminate |].
  rewrite Hhi. eexists. split; [reflexivity |].
  repeat split.
Qed.

(** The whole job: it never aborts, and its result holds the lines of
    the groups of the second step that are no error group, in their
    order. *)
Lemma precipitation_pipeline lines :
  exists records rows,
    Precipitation.stage1 lines = Some records
    /\ Precipitation.run lines = Some rows
    /\ Precipitation.stage2 records = Some rows
    /\ NoDup (map fst records)
    /\ Forall StageOneFacts.precipitation_month records
    /\ rows = flat_map (GroupingFacts.emitted Precipitation.reducer_seasonal_analysis)
                (shuffle (filter (fun kv => ShuffleFacts.not_error (fst kv))
                            (StageTwoFacts.season_records records))).
Proof.
  destruct (StageOneFacts.precipitation_stage1 lines) as (records & H1 & Hn & Hall).
  destruct (StageTwoFacts.precipitation_run lines) as (records' & rows & H1' & Hrun & _).
  rewrite H1 in H1'. inversion H1'; subst records'.
  exists records, rows. repeat (split; [assumption |]).
  unfold Precipitation.run in Hrun. rewrite H1 in Hrun.
  split; [assumption |]. split; [assumption |]. split; [assumption |].
  unfold Precipitation.stage2 in Hrun.
  rewrite ShuffleFacts.step_without_errors in Hrun by reflexivity.
  now apply GroupingFacts.reduce_all_flat_map in Hrun.
Qed.

(** A record of the second step comes from the monthly record of its
    city, year and month, whose data it carries. *)
Lemma season_group_origin records key e :
  Forall StageOneFacts.precipitation_month records ->
  In (key, Json e) (StageTwoFacts.season_records records) ->
  In (month_tag e, Json (Precipitation.data e)) records.
Proof.
  intros Hall Hin. rewrite Forall_forall in Hall.
  apply in_flat_map in Hin as [kv [Hkv Hin]].
  destruct (mapper_add_season_month kv (Hall kv Hkv))
    as [E | (e' & E & _ & Htag & Hdata)]; rewrite E in Hin;
    destruct Hin as [Hin | []]; [discriminate Hin |].
  inversion Hin; subst e'. rewrite Htag, <- Hdata. now destruct kv.
Qed.

(** A group of the second step that is no error group, and its line. *)
Lemma precipitation_group_line records key values :
  NoDup (map fst records) ->
  Forall StageOneFacts.precipitation_month records ->
  In (key, values)
     (shuffle (filter (fun kv => ShuffleFacts.not_error (fst kv))
                 (StageTwoFacts.season_records records))) ->
  exists e0 es line,
    values = map Json (e0 :: es)
    /\ GroupingFacts.emitted Precipitation.reducer_seasonal_analysis (key, values)
       = [line]
    /\ season_line e0 es line
    /\ key = season_key e0
    /\ NoDup (map Precipitation.month (e0 :: es))
    /\ (List.length (e0 :: es) <= 3)%nat
    /\ forall e, In e (e0 :: es) ->
         Precipitation.city e = Precipitation.city e0
         /\ Precipitation.year e = Precipitation.year e0
         /\ Precipitation.season e = Precipitation.season e0
         /\ PyStr.contains PyStr.underscore (Precipitation.city e) = false
         /\ 1 <= Precipitation.year e <= 9999
         /\ 1 <= Precipitation.month e <= 12
         /\ Precipitation.get_season (Precipitation.month e) = Precipitation.season e0.
Proof.
  intros Hn Hall Hg.
  rewrite (ShuffleFacts.shuffle_filter ShuffleFacts.not_error) in Hg.
  apply filter_In in Hg as [Hg Hk]. simpl in Hk.
  apply negb_true_iff, String.eqb_neq in Hk.
  destruct (precipitation_group2 records key values Hn Hall Hg Hk)
    as (e0 & es & Hv & Hmonths & Hes).
  pose proof (reducer_seasonal_analysis_line key values Hk) as Hline.
  rewrite Hv, <- StageTwoFacts.loaded_same, AggregatorFacts.loaded_json in Hline.
  destruct Hline as (line & Hline & Hshape). rewrite <- Hv in Hline.
  exists e0, es, line. split; [assumption |]. split; [assumption |].
  split; [assumption |].
  split; [apply (Hes e0); now left |].
  split; [assumption |].
  split.
  - apply (season_size _ (Precipitation.season e0)); [assumption |].
    intros e He. destruct (Hes e He) as (_ & _ & _ & _ & _ & _ & Hm & Hs). auto.
  - intros e He. destruct (Hes e He) as (_ & H). exact H.
Qed.

Lemma map_singletons {G O} (f : G -> list O) (t : O -> string) (k : G -> string) gs :
  (forall g, In g gs -> exists o, f g = [o] /\ t o = k g) ->
  map t (flat_map f gs) = map k gs.
Proof.
  induction gs as [| g gs IH]; simpl; intros H; [reflexivity |].
  destruct (H g (or_introl eq_refl)) as (o & -> & <-). simpl.
  f_equal. apply IH. intros; apply H; now right.
Qed.

(** City, season and year of a line of the result. *)
Definition season_of (row : Precipitation.csv_line) : string * string * Z :=
  (Precipitation.col_city row, Precipitation.col_season row, Precipitation.col_year row).

Lemma season_rows_NoDup records rows :
  NoDup (map fst records) ->
  Forall StageOneFacts.precipitation_month records ->
  rows = flat_map (GroupingFacts.emitted Precipitation.reducer_seasonal_analysis)
           (shuffle (filter (fun kv => ShuffleFacts.not_error (fst kv))
                       (StageTwoFacts.season_records records))) ->
  NoDup (map season_of rows).
Proof.
  intros Hn Hall Hrows.
  apply (NoDup_map_inv
           (fun t => (fst (fst t) ++ "_" ++ snd (fst t) ++ "_"
                      ++ PyStr.str_of_int (snd t))%string)).
  rewrite map_map. simpl. rewrite Hrows.
  erewrite (map_singletons _ _ fst); [apply ShuffleFacts.shuffle_NoDup |].
  intros [k vs] Hg.
  destruct (precipitation_group_line records k vs Hn Hall Hg)
    as (e0 & es & line & _ & Hline & (Hc & Hy & Hs & _) & Hk & _).
  exists line. split; [assumption |].
  rewrite Hc, Hy, Hs. simpl. now rewrite Hk.
Qed.

Lemma season_rows_In records rows :
  NoDup (map fst records) ->
  Forall StageOneFacts.precipitation_month records ->
  rows = flat_map (GroupingFacts.emitted Precipitation.reducer_seasonal_analysis)
           (shuffle (filter (fun kv => ShuffleFacts.not_error (fst kv))
                       (StageTwoFacts.season_records records))) ->
  forall c s y,
    In (c, s, y) (map season_of rows)
    <-> exists m result,
          In (month_key c y m, Json result) records
          /\ PyStr.contains PyStr.underscore c = false
          /\ 1 <= y <= 9999 /\ 1 <= m <= 12
          /\ Precipitation.get_season m = s.
Proof.
  intros Hn Hall Hrows c s y. split.
  - intros Hin. apply in_map_iff in Hin as [row [E Hrow]].
    rewrite Hrows in Hrow. apply in_flat_map in Hrow as [[k vs] [Hg Hrow]].
    destruct (precipitation_group_line records k vs Hn Hall Hg)
      as (e0 & es & line & Hvs & Hline & (Hc & Hy & Hs & _) & Hk & _ & _ & Hes).
    rewrite Hline in Hrow. destruct Hrow as [<- | []].
    unfold season_of in E. rewrite Hc, Hy, Hs in E. inversion E; subst c s y.
    destruct (Hes e0 (or_introl eq_refl)) as (_ & _ & _ & Hclean & Hy0 & Hm0 & Hs0).
    apply ShuffleFacts.shuffle_group in Hg as [_ Hin].
    assert (In (k, Json e0) (StageTwoFacts.season_records records)) as He0.
    { assert (In (Json e0) vs) as Hv by (rewrite Hvs; now left).
      apply Hin, filter_In in Hv as [Hv _]. exact Hv. }
    apply (season_group_origin records k e0 Hall) in He0.
    exists (Precipitation.month e0), (Precipitation.data e0).
    repeat split; (assumption || lia).
  - intros (m & result & Hkv & Hc & Hy & Hm & <-).
    set (e := Precipitation.mkEnhanced c y m (Precipitation.get_season m) result).
    assert (In (season_key e, Json e)
              (filter (fun kv => ShuffleFacts.not_error (fst kv))
                 (StageTwoFacts.season_records records))) as He.
    { apply filter_In. split.
      - apply in_flat_map. exists (month_key c y m, Json result).
        split; [assumption |]. simpl.
        rewrite mapper_add_season_clean
          by (assumption || lia || (apply StrFacts.printable_small; lia)).
        now left.
      - simpl. apply negb_true_iff, String.eqb_neq, season_key_not_error. }
    assert (In (season_key e,
                values_of (season_key e)
                  (filter (fun kv => ShuffleFacts.not_error (fst kv))
                     (StageTwoFacts.season_records records)))
              (shuffle (filter (fun kv => ShuffleFacts.not_error (fst kv))
                          (StageTwoFacts.season_records records)))) as Hg.
    { apply ShuffleFacts.shuffle_In. split; [| reflexivity].
      apply in_map_iff. now exists (season_key e, Json e). }
    destruct (precipitation_group_line records _ _ Hn Hall Hg)
      as (e0 & es & line & Hvs & Hline & (Hc0 & Hy0 & Hs0 & _) & _ & _ & _ & Hes).
    assert (In e (e0 :: es)) as Hin.
    { apply ShuffleFacts.values_of_In in He. rewrite Hvs in He.
      apply in_map_iff in He as [e' [E He]]. now inversion E; subst. }
    destruct (Hes e Hin) as (Ec & Ey & Es & _).
    apply in_map_iff. exists line. split.
    + unfold season_of. rewrite Hc0, Hy0, Hs0, <- Ec, <- Ey, <- Es. reflexivity.
    + rewrite Hrows. apply in_flat_map. eexists. split; [exact Hg |].
      rewrite Hline. now left.
Qed.

(** X12. The precipitation job never aborts; no two lines of its result
    are for the same city, season and year, and every line counts at
    least one and at most three months. *)
Theorem precipitation_result_unique lines :
  exists rows,
    Precipitation.run lines = Some rows
    /\ NoDup (map (fun row => (Precipitation.col_city row,
                               Precipitation.col_season row,
                               Precipitation.col_year row)) rows)
    /\ forall row, In row rows -> 1 <= Precipitation.col_months_in_season row <= 3.
Proof.
  destruct (precipitation_pipeline lines)
    as (records & rows & H1 & Hrun & _ & Hn & Hall & Hrows).
  exists rows. split; [assumption |]. split.
  - now apply (season_rows_NoDup records).
  - intros row Hrow. rewrite Hrows in Hrow.
    apply in_flat_map in Hrow as [[k vs] [Hg Hrow]].
    destruct (precipitation_group_line records k vs Hn Hall Hg)
      as (e0 & es & line & _ & Hline & (_ & _ & _ & Hm & _) & _ & _ & Hlen & _).
    rewrite Hline in Hrow. destruct Hrow as [<- | []].
    rewrite Hm. simpl List.length in *. lia.
Qed.

(** X13. The result of the precipitation job has a line for a city, a
    season and a year exactly when the first step emitted a monthly
    record of that city and year for a month of that season, and the
    city holds no underscore. *)
Theorem precipitation_result_seasons lines :
  exists records rows,
    Precipitation.stage1 lines = Some records
    /\ Precipitation.run lines = Some rows
    /\ forall c s y,
         In (c, s, y)
            (map (fun row => (Precipitation.col_city row, Precipitation.col_season row,
                              Precipitation.col_year row)) rows)
         <-> exists m result,
               In (month_key c y m, Json result) records
               /\ PyStr.contains PyStr.underscore c = false
               /\ 1 <= y <= 9999 /\ 1 <= m <= 12
               /\ Precipitation.get_season m = s.
Proof.
  destruct (precipitation_pipeline lines)
    as (records & rows & H1 & Hrun & _ & Hn & Hall & Hrows).
  exists records, rows. split; [assumption |]. split; [assumption |].
  intros c s y. split.
  - intros Hin. now apply (season_rows_In records rows Hn Hall Hrows).
  - intros Hin. now apply (season_rows_In records rows Hn Hall Hrows).
Qed.

(** Whatever it is given, the second mapper emits nothing, one error
    record, or one record that carries the data it was given. *)
Lemma mapper_add_season_cases k v :
  Precipitation.mapper_add_season k v = []
  \/ Precipitation.mapper_add_season k v = [(ERROR, Text "Season mapping error: ")]
  \/ exists k2 e,
       Precipitation.mapper_add_season k v = [(k2, Json e)]
       /\ k2 <> ERROR /\ v = Json (Precipitation.data e).
Proof.
  unfold Precipitation.mapper_add_season.
  destruct (String.eqb k ERROR); [now left |]. right.
  destruct v as [data | msg]; simpl; [| now left].
  destruct (PyStr.split PyStr.underscore k) as [| a [| b [| c [| d r]]]];
    simpl; try (now left).
  destruct (PyStr.int_of_str c) as [month_num |]; simpl; [| now left].
  destruct (PyStr.int_of_str b) as [y |]; simpl; [| now left].
  right. do 2 eexists. split; [reflexivity |]. split; [| reflexivity].
  intros E.
  assert (PyStr.contains PyStr.underscore ERROR = true) as C
      by (rewrite <- E, StrFacts.contains_app; simpl; apply orb_true_r).
  discriminate C.
Qed.

(** The monthly records that the second mapper of the precipitation job
    accepts. *)
Definition in_season (kv : string * wire Precipitation.month_result) : bool :=
  accepted (fun kv => Precipitation.mapper_add_season (fst kv) (snd kv)) kv.

(** X14. Over the whole result of the precipitation job, the months
    counted by the lines add up to the number of monthly records that the
    second mapper accepted, and the rainy days of the lines to the rainy
    days of these records: every such month is counted in exactly one
    season. *)
Theorem seasons_conserve_months lines :
  exists records rows,
    Precipitation.stage1 lines = Some records
    /\ Precipitation.run lines = Some rows
    /\ Spec.total (map Precipitation.col_months_in_season rows)
       = Z.of_nat (List.length (filter in_season records))
    /\ Spec.total (map Precipitation.col_total_rainy_days rows)
       = Spec.total (map Precipitation.days_with_rain
                       (Precipitation.loaded (map snd (filter in_season records)))).
Proof.
  destruct (precipitation_pipeline lines)
    as (records & rows & H1 & Hrun & H2 & _ & _ & _).
  exists records, rows. split; [assumption |]. split; [assumption |].
  unfold Precipitation.stage2 in H2. split.
  - rewrite (step_total (fun kv => Precipitation.mapper_add_season (fst kv) (snd kv))
               Precipitation.reducer_seasonal_analysis
               Precipitation.col_months_in_season
               (fun v => match json_loads v with Some _ => 1 | None => 0 end)
               records rows (fun _ => eq_refl)); [| | exact H2].
    + apply count_lines. intros [k v]. unfold in_season, accepted. simpl.
      destruct (mapper_add_season_cases k v) as [-> | [-> | (k2 & e & -> & Hk2 & _)]];
        [reflexivity | reflexivity |].
      unfold weight, ShuffleFacts.not_error. simpl.
      apply String.eqb_neq in Hk2. now rewrite Hk2.
    + intros k vs _ Hk.
      rewrite <- (total_loaded (fun _ => 1)).
      pose proof (reducer_seasonal_analysis_line k vs Hk) as Hline.
      destruct (Temperature.loaded vs) as [| e0 es].
      * now rewrite Hline.
      * destruct Hline as (line & -> & (_ & _ & _ & Hm & _)).
        rewrite GroupingFacts.total_ones. simpl map. unfold Spec.total. simpl fold_right.
        rewrite Hm. lia.
  - rewrite (step_total (fun kv => Precipitation.mapper_add_season (fst kv) (snd kv))
               Precipitation.reducer_seasonal_analysis
               Precipitation.col_total_rainy_days
               (fun v => match json_loads v with
                         | Some e => Precipitation.days_with_rain (Precipitation.data e)
                         | None => 0
                         end)
               records rows (fun _ => eq_refl)); [| | exact H2].
    + rewrite StageTwoFacts.loaded_same, total_loaded, map_map.
      rewrite (total_filter in_season).
      apply GroupingFacts.total_flat_map. intros [k v] _.
      unfold in_season, accepted. simpl.
      destruct (mapper_add_season_cases k v) as [-> | [-> | (k2 & e & -> & Hk2 & ->)]];
        [reflexivity | reflexivity |].
      unfold weight, ShuffleFacts.not_error. simpl.
      apply String.eqb_neq in Hk2. rewrite Hk2. simpl. lia.
    + intros k vs _ Hk.
      rewrite <- (total_loaded
                    (fun e => Precipitation.days_with_rain (Precipitation.data e))).
      pose proof (reducer_seasonal_analysis_line k vs Hk) as Hline.
      destruct (Temperature.loaded vs) as [| e0 es].
      * now rewrite Hline.
      * destruct Hline as (line & -> & (_ & _ & _ & _ & Hr)).
        simpl map at 1. unfold Spec.total at 1. simpl fold_right. rewrite Hr. lia.
Qed.

(** ** The calendar of the seasons *)

(** X15. For a city without underscore and a year that [int] reads
    (of 4300 digits at most, with the year that follows it), the December
    of the year goes under the same key of the second step as the January
    of the same year, and under another key than the January that follows
    it: the dry season of a line is made of the January, February and
    December of one calendar year. *)
Theorem december_joins_its_own_year city y data data' :
  PyStr.contains PyStr.underscore city = false ->
  0 <= y -> PyStr.printable (y + 1) ->
  Precipitation.writable data -> Precipitation.writable data' ->
  map fst (Precipitation.mapper_add_season (month_key city y 12) (Json data))
  = map fst (Precipitation.mapper_add_season (month_key city y 1) (Json data'))
  /\ map fst (Precipitation.mapper_add_season (month_key city y 12) (Json data))
     <> map fst (Precipitation.mapper_add_season (month_key city (y + 1) 1) (Json data')).
Proof.
  intros Hc Hy Hp _ _.
  assert (PyStr.printable y) as Hp'.
  { unfold PyStr.printable in *. rewrite Z.abs_eq in * by lia. lia. }
  rewrite !mapper_add_season_clean
    by (assumption || lia || (apply StrFacts.printable_small; lia)).
  split; [reflexivity |].
  simpl. intros E. inversion E as [E'].
  apply season_key_inj in E'; simpl; try (assumption || lia).
  simpl in E'. lia.
Qed.

(** The theorem for Cali and 2023. *)
Lemma december_joins_its_own_year_witness :
  map fst (Precipitation.mapper_add_season "Cali_2023_12"
             (Json (Precipitation.mkResult PyFloat.zero 0 PyFloat.zero PyFloat.zero 31)))
  = ["Cali_Verano_2023"]
  /\ map fst (Precipitation.mapper_add_season "Cali_2023_01"
                (Json (Precipitation.mkResult PyFloat.zero 0 PyFloat.zero PyFloat.zero 31)))
     = ["Cali_Verano_2023"]
  /\ map fst (Precipitation.mapper_add_season "Cali_2023_12"
                (Json (Precipitation.mkResult PyFloat.zero 0 PyFloat.zero PyFloat.zero 31)))
     <> map fst (Precipitation.mapper_add_season "Cali_2024_01"
                   (Json (Precipitation.mkResult PyFloat.zero 0 PyFloat.zero
                            PyFloat.zero 31))).
Proof.
  split; [vm_compute; reflexivity |].
  split; [vm_compute; reflexivity |].
  refine (proj2 (december_joins_its_own_year "Cali" 2023
                   (Precipitation.mkResult PyFloat.zero 0 PyFloat.zero PyFloat.zero 31)
                   (Precipitation.mkResult PyFloat.zero 0 PyFloat.zero PyFloat.zero 31)
                   _ _ _ _ _)).
  - reflexivity.
  - lia.
  - vm_compute. reflexivity.
  - split; vm_compute; reflexivity.
  - split; vm_compute; reflexivity.
Defined.

(** X16. The two second mappers treat a month number that is none
    differently. Given the key of a city without underscore with month 0
    or a month above 12, year and month being numbers that [int] reads
    (of 4300 digits at most), the second mapper of the temperature job
    emits an error record, while that of the precipitation job does not
    check the month and emits a record of the season Lluvias_Tardías. *)
Theorem month_out_of_range city y m stats data :
  PyStr.contains PyStr.underscore city = false ->
  0 <= y -> PyStr.printable y ->
  m = 0 \/ 12 < m -> PyStr.printable m ->
  PyStr.printable (Temperature.total_days stats) -> Precipitation.writable data ->
  Temperature.mapper_format_output (month_key city y m) (Json stats)
  = [(ERROR, Text "Format error: ")]
  /\ Precipitation.mapper_add_season (month_key city y m) (Json data)
     = [((city ++ "_" ++ Precipitation.Lluvias_Tardias ++ "_" ++ PyStr.str_of_int y)%string,
         Json (Precipitation.mkEnhanced city y m Precipitation.Lluvias_Tardias data))].
Proof.
  intros Hc Hy Hpy Hm Hpm _ _. split.
  - rewrite mapper_format_output_clean by (assumption || lia).
    destruct (PyDate.month_name y m) as [name |] eqn:Hname; [| reflexivity].
    apply StageTwoFacts.month_name_some in Hname. lia.
  - rewrite mapper_add_season_clean by (assumption || lia).
    assert (Precipitation.get_season m = Precipitation.Lluvias_Tardias) as ->.
    { unfold Precipitation.get_season, Precipitation.member. simpl.
      repeat match goal with
             | |- context [m =? ?k] =>
                 let E := fresh "E" in
                 destruct (Z.eqb_spec m k) as [E | E]; [exfalso; lia | clear E]
             end.
      reflexivity. }
    reflexivity.
Qed.

(** The theorem for month 13 of Cali. *)
Lemma month_out_of_range_witness :
  Temperature.mapper_format_output "Cali_2023_13"
    (Json (Temperature.mkStats "Cali_2023_13" PyFloat.zero PyFloat.zero PyFloat.zero
             PyFloat.zero PyFloat.zero 1))
  = [(ERROR, Text "Format error: ")]
  /\ Precipitation.mapper_add_season "Cali_2023_13"
       (Json (Precipitation.mkResult PyFloat.zero 0 PyFloat.zero PyFloat.zero 1))
     = [("Cali_Lluvias_Tardías_2023",
         Json (Precipitation.mkEnhanced "Cali" 2023 13 "Lluvias_Tardías"
                 (Precipitation.mkResult PyFloat.zero 0 PyFloat.zero PyFloat.zero 1)))].
Proof.
  apply (month_out_of_range "Cali" 2023 13).
  - reflexivity.
  - lia.
  - vm_compute. reflexivity.
  - right. lia.
  - vm_compute. reflexivity.
  - vm_compute. reflexivity.
  - split; vm_compute; reflexivity.
Defined.

(** ** Error texts among the values *)

Lemma numbers_none vs :
  Precipitation.numbers vs = None <-> exists msg, In (Text msg) vs.
Proof.
  induction vs as [| [x | msg] vs IH]; simpl.
  - split; [discriminate | intros [msg []]].
  - destruct (Precipitation.numbers vs) as [xs |].
    + split; [discriminate |]. intros [msg [H | H]]; [discriminate H |].
      assert (exists msg, In (Text msg) vs) as Hex by now exists msg.
      apply IH in Hex. discriminate Hex.
    + split; [| reflexivity]. intros _.
      destruct (proj1 IH eq_refl) as [msg H]. exists msg. now right.
  - split; [| reflexivity]. intros _. exists msg. now left.
Qed.

(** The values that the first mapper of the temperature job hands to its
    reducer: a complete record of a day whose count can be written, or the
    text of an error, which is no JSON document. *)
Definition parsed (v : wire Temperature.day_value) : Prop :=
  match v with
  | Json d => PyStr.printable (Temperature.count d)
  | Text s => PyStr.startswith "Error processing line: " s = true
  end.

(** The values that the second mapper of the precipitation job hands to
    its reducer. *)
Definition seasoned (v : wire Precipitation.enhanced) : Prop :=
  match v with
  | Json d =>
      PyStr.printable (Precipitation.year d) /\ PyStr.printable (Precipitation.month d)
      /\ Precipitation.writable (Precipitation.data d)
  | Text s => PyStr.startswith "Season mapping error: " s = true
  end.

(** X17. On values that are complete records or error texts of the
    mapper before it, with day counts that can be written, the first
    reducer of the temperature job does not raise, whatever the key: an
    error text among the values is skipped, and the records are
    aggregated as if it had not been there. The same holds of the last
    reducer of the precipitation job. *)
Theorem error_texts_are_skipped key vs ws :
  Forall parsed vs ->
  PyStr.printable (fold_left Z.add (map Temperature.count (Temperature.loaded vs)) 0) ->
  Forall seasoned ws ->
  PyStr.printable
    (fold_left Z.add
       (map (fun d => Precipitation.days_with_rain (Precipitation.data d))
          (Precipitation.loaded ws)) 0) ->
  (Temperature.reducer_aggregate_temps key vs <> None
   /\ Temperature.reducer_aggregate_temps key vs
      = Temperature.reducer_aggregate_temps key (map Json (Temperature.loaded vs)))
  /\ (Precipitation.reducer_seasonal_analysis key ws <> None
      /\ Precipitation.reducer_seasonal_analysis key ws
         = Precipitation.reducer_seasonal_analysis key
             (map Json (Precipitation.loaded ws))).
Proof.
  intros _ _ _ _.
  destruct (String.eqb key ERROR) eqn:Ek.
  - unfold Temperature.reducer_aggregate_temps, Precipitation.reducer_seasonal_analysis.
    rewrite Ek. repeat split; discriminate.
  - apply String.eqb_neq in Ek. split.
    + rewrite !OrderFacts.reducer_aggregate_temps_closed by assumption.
      rewrite <- (StageTwoFacts.loaded_same (map Json _)), AggregatorFacts.loaded_json.
      split; [| reflexivity].
      destruct (Temperature.loaded vs) as [| d ds]; [discriminate |].
      destruct (AggregatorFacts.max_not_nil (map Temperature.temp_max (d :: ds)))
        as [hi ->]; [discriminate |].
      destruct (AggregatorFacts.min_not_nil (map Temperature.temp_min (d :: ds)))
        as [lo ->]; [discriminate |].
      discriminate.
    + rewrite !OrderFacts.reducer_seasonal_analysis_closed by assumption.
      rewrite (StageTwoFacts.loaded_same ws).
      rewrite <- (StageTwoFacts.loaded_same (map Json _)), AggregatorFacts.loaded_json.
      split; [| reflexivity].
      destruct (Temperature.loaded ws) as [| d ds]; [discriminate |].
      destruct (AggregatorFacts.max_not_nil
                  (map (fun d => Precipitation.monthly_total (Precipitation.data d))
                     (d :: ds))) as [hi ->]; [discriminate |].
      discriminate.
Qed.

(** The theorem on a day of Cali between two error texts, and on a month
    of its dry season after one. *)
Lemma error_texts_are_skipped_witness :
  let day := Temperature.mkDay PyFloat.zero PyFloat.zero PyFloat.zero 1 in
  let vs := [Text "Error processing line: "; Json day; Text "Error processing line: "] in
  let month := Precipitation.mkEnhanced "Cali" 2023 1 "Verano"
                 (Precipitation.mkResult PyFloat.zero 0 PyFloat.zero PyFloat.zero 31) in
  let ws := [Text "Season mapping error: "; Json month] in
  (Temperature.reducer_aggregate_temps "Cali_2023_01" vs <> None
   /\ Temperature.reducer_aggregate_temps "Cali_2023_01" vs
      = Temperature.reducer_aggregate_temps "Cali_2023_01" [Json day])
  /\ (Precipitation.reducer_seasonal_analysis "Cali_Verano_2023" ws <> None
      /\ Precipitation.reducer_seasonal_analysis "Cali_Verano_2023" ws
         = Precipitation.reducer_seasonal_analysis "Cali_Verano_2023" [Json month]).
Proof.
  cbv zeta. split.
  - refine (proj1 (error_texts_are_skipped "Cali_2023_01" _ [] _ _ _ _)).
    + repeat constructor; vm_compute; reflexivity.
    + vm_compute. reflexivity.
    + constructor.
    + vm_compute. reflexivity.
  - refine (proj2 (error_texts_are_skipped "Cali_Verano_2023" [] _ _ _ _ _)).
    + constructor.
    + vm_compute. reflexivity.
    + repeat constructor; vm_compute; reflexivity.
    + vm_compute. reflexivity.
Defined.

(** X18. The first reducer of the precipitation job is the one that can
    raise: it does so exactly when the key is not the error key and one
    of the values is an error text in place of a number. *)
Theorem monthly_totals_raises_on_text key vs :
  Precipitation.reducer_monthly_totals key vs = None
  <-> key <> ERROR /\ exists msg, In (Text msg) vs.
Proof.
  destruct (String.eqb key ERROR) eqn:Ek.
  - unfold Precipitation.reducer_monthly_totals. rewrite Ek.
    apply String.eqb_eq in Ek. split; [discriminate | intros [H _]; contradiction].
  - apply String.eqb_neq in Ek.
    rewrite OrderFacts.reducer_monthly_totals_closed by assumption.
    rewrite <- numbers_none.
    destruct (Precipitation.numbers vs) as [xs |]; [| tauto].
    split; [| intros [_ H]; discriminate H].
    destruct xs as [| x xs]; [discriminate |].
    destruct (AggregatorFacts.max_not_nil (x :: xs)) as [hi ->]; discriminate.
Qed.

(** ** The order of the input lines *)

(** The columns of a line of the temperature result that hold no float. *)
Definition line_counts (row : Temperature.csv_line) :=
  (Temperature.col_city row, Temperature.col_year row, Temperature.col_month row,
   Temperature.col_month_name row, Temperature.col_total_days row).

(** A record of the first step counts the days emitted under its key. *)
Lemma temperature_record_days lines records k stats :
  Temperature.stage1 lines = Some records ->
  In (k, Json stats) records ->
  k <> ERROR
  /\ In k (map fst (flat_map Temperature.mapper_parse_data lines))
  /\ Temperature.total_days stats
     = Z.of_nat (List.length
                   (values_of k (flat_map Temperature.mapper_parse_data lines))).
Proof.
  intros H1 Hin. unfold Temperature.stage1, step in H1.
  destruct (ShuffleFacts.reduce_all_In _ _ _ _ H1 Hin) as (k' & vs & out & Hg & Hr & Ho).
  destruct (String.eqb k' ERROR) eqn:Ek.
  - unfold Temperature.reducer_aggregate_temps in Hr. rewrite Ek in Hr.
    inversion Hr; subst out. destruct Ho.
  - apply String.eqb_neq in Ek.
    destruct (StageOneFacts.temperature_group lines k' vs Hg Ek)
      as (days & Hvs & Hne & Hcount & _).
    subst vs.
    destruct (StageOneFacts.reducer_aggregate_temps_emits k' days Ek Hne)
      as (stats' & Hr' & _ & Hdays).
    rewrite Hr in Hr'. inversion Hr'; subst out.
    destruct Ho as [Ho | []]. inversion Ho; subst k' stats'.
    apply ShuffleFacts.shuffle_In in Hg as [Hk Hvs].
    split; [assumption |]. split; [assumption |].
    rewrite Hdays, (AggregatorFacts.total_of_ones _ _ Hcount).
    now rewrite <- Hvs, length_map.
Qed.

Lemma line_counts_In lines records rows :
  Temperature.stage1 lines = Some records ->
  Forall StageOneFacts.temperature_month records ->
  Permutation rows
    (map Temperature.format_line
       (Temperature.loaded (map snd (StageTwoFacts.format_records records)))) ->
  forall c y m name d,
    In (c, y, m, name, d) (map line_counts rows)
    <-> PyStr.contains PyStr.underscore c = false
        /\ PyDate.month_name y m = Some name
        /\ In (month_key c y m) (map fst (flat_map Temperature.mapper_parse_data lines))
        /\ d = Z.of_nat (List.length
                           (values_of (month_key c y m)
                              (flat_map Temperature.mapper_parse_data lines))).
Proof.
  intros H1 Hall Hp c y m name d. split.
  - intros Hin. apply in_map_iff in Hin as [row [E Hrow]].
    apply (temperature_rows_In records rows Hall Hp) in Hrow
      as (c' & y' & m' & name' & stats & Hkv & Hc & Hname & ->).
    unfold line_counts in E. simpl in E. inversion E; subst.
    destruct (temperature_record_days lines records _ _ H1 Hkv) as (_ & Hk & Hd).
    now repeat split.
  - intros (Hc & Hname & Hk & ->).
    apply in_map_iff in Hk as [[k v] [E Hkv]]. simpl in E. subst k.
    destruct (StageOneFacts.temperature_stage1_key lines _ v Hkv) as
      (records' & stats & H1' & Hin);
      [apply String.eqb_neq, StrFacts.month_key_not_error |].
    rewrite H1 in H1'. inversion H1'; subst records'.
    destruct (temperature_record_days lines records _ _ H1 Hin) as (_ & _ & Hd).
    apply in_map_iff.
    exists (Temperature.format_line (Temperature.mkOutput c y m name stats)).
    split; [unfold line_counts; simpl; now rewrite Hd |].
    apply (temperature_rows_In records rows Hall Hp).
    now exists c, y, m, name, stats.
Qed.

(** X19. Giving the input lines of the temperature job in another order
    changes its result at most in the order of the lines and in the
    columns that hold floats: the lines of both results carry the same
    cities, years, months, month names and day counts. *)
Theorem temperature_result_order_free lines lines' :
  Permutation lines lines' ->
  exists rows rows',
    Temperature.run lines = Some rows
    /\ Temperature.run lines' = Some rows'
    /\ Permutation (map line_counts rows) (map line_counts rows').
Proof.
  intros Hperm.
  destruct (temperature_pipeline lines) as (records & rows & H1 & Hrun & Hn & Hall & Hp).
  destruct (temperature_pipeline lines')
    as (records' & rows' & H1' & Hrun' & Hn' & Hall' & Hp').
  exists rows, rows'. split; [assumption |]. split; [assumption |].
  assert (forall records rows,
            NoDup (map fst records) ->
            Forall StageOneFacts.temperature_month records ->
            Permutation rows
              (map Temperature.format_line
                 (Temperature.loaded (map snd (StageTwoFacts.format_records records)))) ->
            NoDup (map line_counts rows)) as Hnodup.
  { intros rs rws Hn0 Hall0 Hp0.
    apply (NoDup_map_inv (fun q => (fst (fst (fst (fst q))), snd (fst (fst (fst q))),
                                    snd (fst (fst q))))).
    rewrite map_map. simpl. now apply (temperature_rows_NoDup rs). }
  assert (Permutation (flat_map Temperature.mapper_parse_data lines)
            (flat_map Temperature.mapper_parse_data lines')) as Hmapped
      by now apply Permutation_flat_map.
  apply NoDup_Permutation; [now apply (Hnodup records) | now apply (Hnodup records') |].
  intros [[[[c y] m] name] d].
  rewrite (line_counts_In lines records rows H1 Hall Hp).
  rewrite (line_counts_In lines' records' rows' H1' Hall' Hp').
  assert (forall k,
            List.length (values_of k (flat_map Temperature.mapper_parse_data lines))
            = List.length (values_of k (flat_map Temperature.mapper_parse_data lines')))
    as Hlen.
  { intros k. unfold values_of. rewrite !length_map.
    apply Permutation_length, ScheduleFacts.permutation_filter. exact Hmapped. }
  rewrite Hlen.
  assert (In (month_key c y m) (map fst (flat_map Temperature.mapper_parse_data lines))
          <-> In (month_key c y m)
                (map fst (flat_map Temperature.mapper_parse_data lines'))) as Hin.
  { split; apply Permutation_in; [| symmetry]; now apply Permutation_map. }
  rewrite Hin. reflexivity.
Qed.

(** The theorem on two days of Cali and one of Bogota, and the same
    lines backwards. *)
Lemma temperature_result_order_free_witness :
  let lines := ["2023-06-02,30.0,20.5,25.5,5.0,10.0,3600.0,Cali";
                "2023-05-02,18.0,9.5,14.0,0.0,10.0,3600.0,Bogota";
                "2023-06-03,31.0,21.5,26.0,5.0,10.0,3600.0,Cali"] in
  exists rows rows',
    Temperature.run lines = Some rows
    /\ Temperature.run (rev lines) = Some rows'
    /\ Permutation (map line_counts rows) (map line_counts rows').
Proof.
  cbv zeta. apply temperature_result_order_free. apply Permutation_rev.
Defined.

(** The rainy days emitted under a key of the first step. *)
Definition rain (mapped : list (string * wire PyFloat.float)) (k : string) : Z :=
  Precipitation.count_rain (Precipitation.loaded (values_of k mapped)).

(** The months of a season for which a city has days in a year. *)
Definition season_months (mapped : list (string * wire PyFloat.float))
    (c s : string) (y : Z) : list Z :=
  filter (fun m => String.eqb (Precipitation.get_season m) s
                   && existsb (String.eqb (month_key c y m)) (map fst mapped))
    [1; 2; 3; 4; 5; 6; 7; 8; 9; 10; 11; 12].

Lemma season_months_In mapped c s y m :
  In m (season_months mapped c s y)
  <-> 1 <= m <= 12 /\ Precipitation.get_season m = s
      /\ In (month_key c y m) (map fst mapped).
Proof.
  unfold season_months. rewrite filter_In, andb_true_iff, String.eqb_eq.
  rewrite existsb_exists. split.
  - intros (Hm & Hs & k & Hk & E). apply String.eqb_eq in E. subst k.
    split; [simpl in Hm; lia |]. now split.
  - intros (Hm & Hs & Hk). split; [| split; [assumption |]].
    + assert (m = 1 \/ m = 2 \/ m = 3 \/ m = 4 \/ m = 5 \/ m = 6 \/ m = 7 \/ m = 8
              \/ m = 9 \/ m = 10 \/ m = 11 \/ m = 12) as Hcases by lia.
      simpl. intuition.
    + exists (month_key c y m). split; [assumption | apply String.eqb_refl].
Qed.

Lemma season_months_NoDup mapped c s y : NoDup (season_months mapped c s y).
Proof.
  unfold season_months. apply NoDup_filter.
  repeat (constructor; [simpl; intros H; intuition lia |]). constructor.
Qed.

(** A record of the first step counts the rainy days emitted under its
    key. *)
Lemma precipitation_record_days lines records k result :
  Precipitation.stage1 lines = Some records ->
  In (k, Json result) records ->
  k <> ERROR
  /\ In k (map fst (flat_map Precipitation.mapper_parse_precipitation lines))
  /\ Precipitation.days_with_rain result
     = rain (flat_map Precipitation.mapper_parse_precipitation lines) k.
Proof.
  intros H1 Hin. unfold Precipitation.stage1, step in H1.
  destruct (ShuffleFacts.reduce_all_In _ _ _ _ H1 Hin) as (k' & vs & out & Hg & Hr & Ho).
  destruct (String.eqb k' ERROR) eqn:Ek.
  - unfold Precipitation.reducer_monthly_totals in Hr. rewrite Ek in Hr.
    inversion Hr; subst out. destruct Ho.
  - apply String.eqb_neq in Ek.
    destruct (StageOneFacts.precipitation_group lines k' vs Hg Ek)
      as (xs & Hvs & Hne & _).
    subst vs.
    destruct (StageOneFacts.reducer_monthly_totals_emits k' xs Ek Hne)
      as (hi & _ & Hr').
    rewrite Hr in Hr'. inversion Hr'; subst out.
    destruct Ho as [Ho | []]. inversion Ho; subst k' result.
    apply ShuffleFacts.shuffle_In in Hg as [Hk Hvs].
    split; [assumption |]. split; [assumption |].
    unfold rain. now rewrite <- Hvs, AggregatorFacts.loaded_json.
Qed.

(** The counts of a line of the result, from what the parser emitted. *)
Lemma season_row_counts lines records rows :
  Precipitation.stage1 lines = Some records ->
  NoDup (map fst records) ->
  Forall StageOneFacts.precipitation_month records ->
  rows = flat_map (GroupingFacts.emitted Precipitation.reducer_seasonal_analysis)
           (shuffle (filter (fun kv => ShuffleFacts.not_error (fst kv))
                       (StageTwoFacts.season_records records))) ->
  forall row, In row rows ->
    let mapped := flat_map Precipitation.mapper_parse_precipitation lines in
    let months := season_months mapped (Precipitation.col_city row)
                    (Precipitation.col_season row) (Precipitation.col_year row) in
    Precipitation.col_months_in_season row = Z.of_nat (List.length months)
    /\ Precipitation.col_total_rainy_days row
       = Spec.total (map (fun m => rain mapped
                                     (month_key (Precipitation.col_city row)
                                        (Precipitation.col_year row) m))
                       months).
Proof.
  intros H1 Hn Hall Hrows row Hrow. cbv zeta.
  rewrite Hrows in Hrow. apply in_flat_map in Hrow as [[k vs] [Hg Hrow]].
  destruct (precipitation_group_line records k vs Hn Hall Hg)
    as (e0 & es & line & Hvs & Hline & (Hc & Hy & Hs & Hm & Hr) & Hk & Hmonths & _ & Hes).
  rewrite Hline in Hrow. destruct Hrow as [<- | []].
  rewrite Hc, Hy, Hs.
  assert (forall e, In e (e0 :: es) ->
            In (month_key (Precipitation.city e0) (Precipitation.year e0)
                  (Precipitation.month e), Json (Precipitation.data e)) records)
    as Horigin.
  { intros e He. destruct (Hes e He) as (Ec & Ey & _).
    rewrite <- Ec, <- Ey. apply (season_group_origin records k e Hall).
    apply ShuffleFacts.shuffle_group in Hg as [_ Hin].
    assert (In (Json e) vs) as Hv by (rewrite Hvs; now apply in_map).
    apply Hin, filter_In in Hv as [Hv _]. exact Hv. }
  assert (Permutation (map Precipitation.month (e0 :: es))
            (season_months (flat_map Precipitation.mapper_parse_precipitation lines)
               (Precipitation.city e0) (Precipitation.season e0)
               (Precipitation.year e0))) as Hperm.
  { apply NoDup_Permutation; [assumption | apply season_months_NoDup |].
    intros m. rewrite season_months_In. split.
    - intros Hin. apply in_map_iff in Hin as [e [<- He]].
      destruct (Hes e He) as (_ & _ & _ & _ & _ & Hme & Hse).
      split; [assumption |]. split; [assumption |].
      destruct (precipitation_record_days lines records _ _ H1 (Horigin e He))
        as (_ & Hin & _).
      exact Hin.
    - intros (Hm12 & Hse & Hin).
      apply in_map_iff in Hin as [[k' v] [E Hkv]]. simpl in E. subst k'.
      destruct (StageOneFacts.precipitation_stage1_key lines _ v Hkv)
        as (records' & result & H1' & Hrec);
        [apply String.eqb_neq, StrFacts.month_key_not_error |].
      rewrite H1 in H1'. inversion H1'; subst records'.
      destruct (Hes e0 (or_introl eq_refl)) as (_ & _ & _ & Hclean & Hy0 & _).
      set (e := Precipitation.mkEnhanced (Precipitation.city e0) (Precipitation.year e0)
                  m (Precipitation.get_season m) result).
      assert (season_key e = k) as Hke
          by (rewrite Hk; unfold season_key, e; simpl; now rewrite Hse).
      assert (In (Json e) vs) as Hv.
      { apply ShuffleFacts.shuffle_group in Hg as [_ Hvalues]. apply Hvalues.
        apply filter_In. split.
        - apply in_flat_map. eexists. split; [exact Hrec |]. simpl.
          rewrite mapper_add_season_clean
            by (assumption || lia || (apply StrFacts.printable_small; lia)).
          left. fold e. now rewrite Hke.
        - simpl. rewrite <- Hke.
          apply negb_true_iff, String.eqb_neq, season_key_not_error. }
      rewrite Hvs in Hv. apply in_map_iff in Hv as [e' [E He']].
      inversion E; subst e'. apply in_map_iff. now exists e. }
  split.
  - rewrite Hm, <- (Permutation_length Hperm), length_map. reflexivity.
  - rewrite Hr.
    rewrite <- (OrderFacts.total_permutation _ _
                  (Permutation_map
                     (fun m => rain (flat_map Precipitation.mapper_parse_precipitation lines)
                                 (month_key (Precipitation.city e0)
                                    (Precipitation.year e0) m)) Hperm)).
    rewrite map_map. f_equal. apply map_ext_in. intros e He.
    destruct (precipitation_record_days lines records _ _ H1 (Horigin e He))
      as (_ & _ & Hd).
    exact Hd.
Qed.

(** What the counts depend on does not change with the order of the
    records. *)
Lemma rain_permutation mapped mapped' k :
  Permutation mapped mapped' -> rain mapped k = rain mapped' k.
Proof.
  intros Hp. unfold rain. apply OrderFacts.count_rain_permutation.
  rewrite !StageTwoFacts.loaded_same. apply OrderFacts.loaded_permutation.
  unfold values_of. now apply Permutation_map, ScheduleFacts.permutation_filter.
Qed.

Lemma season_months_permutation mapped mapped' c s y :
  Permutation mapped mapped' ->
  season_months mapped c s y = season_months mapped' c s y.
Proof.
  intros Hp. unfold season_months. apply filter_ext. intros m. f_equal.
  apply eq_true_iff_eq. rewrite !existsb_exists.
  split; intros (k & Hk & E); exists k; (split; [| assumption]);
    [| symmetry in Hp]; eapply Permutation_in; try eassumption;
    now apply Permutation_map.
Qed.

(** X20. Giving the input lines of the precipitation job in another
    order changes its result at most in the order of the lines and in the
    columns that hold floats: the lines of both results carry the same
    cities, years and seasons, with the same numbers of months and of
    rainy days. *)
Theorem precipitation_result_order_free lines lines' :
  Permutation lines lines' ->
  exists rows rows',
    Precipitation.run lines = Some rows
    /\ Precipitation.run lines' = Some rows'
    /\ Permutation (map Spec.seasonal_counts rows) (map Spec.seasonal_counts rows').
Proof.
  intros Hperm.
  destruct (precipitation_pipeline lines)
    as (records & rows & H1 & Hrun & _ & Hn & Hall & Hrows).
  destruct (precipitation_pipeline lines')
    as (records' & rows' & H1' & Hrun' & _ & Hn' & Hall' & Hrows').
  exists rows, rows'. split; [assumption |]. split; [assumption |].
  assert (Permutation (flat_map Precipitation.mapper_parse_precipitation lines)
            (flat_map Precipitation.mapper_parse_precipitation lines')) as Hmapped
      by now apply Permutation_flat_map.
  set (mapped := flat_map Precipitation.mapper_parse_precipitation lines) in *.
  set (mapped' := flat_map Precipitation.mapper_parse_precipitation lines') in *.
  set (counts := fun (mapped : list (string * wire PyFloat.float))
                     (t : string * string * Z) =>
                   let '(c, s, y) := t in
                   (c, y, s,
                    Spec.total (map (fun m => rain mapped (month_key c y m))
                                  (season_months mapped c s y)),
                    Z.of_nat (List.length (season_months mapped c s y)))).
  assert (forall lines records rows,
            Precipitation.stage1 lines = Some records ->
            NoDup (map fst records) ->
            Forall StageOneFacts.precipitation_month records ->
            rows = flat_map (GroupingFacts.emitted Precipitation.reducer_seasonal_analysis)
                     (shuffle (filter (fun kv => ShuffleFacts.not_error (fst kv))
                                 (StageTwoFacts.season_records records))) ->
            map Spec.seasonal_counts rows
            = map (counts (flat_map Precipitation.mapper_parse_precipitation lines))
                (map season_of rows)) as Hcounts.
  { intros ls rs rws Hs1 Hnd Hfa Hrws. rewrite map_map. apply map_ext_in.
    intros row Hrow.
    destruct (season_row_counts ls rs rws Hs1 Hnd Hfa Hrws row Hrow) as [Hm Hr].
    unfold Spec.seasonal_counts, season_of, counts. now rewrite Hm, Hr. }
  rewrite (Hcounts lines records rows H1 Hn Hall Hrows).
  rewrite (Hcounts lines' records' rows' H1' Hn' Hall' Hrows').
  fold mapped mapped'.
  assert (forall t, counts mapped t = counts mapped' t) as Hsame.
  { intros [[c s] y]. unfold counts.
    rewrite (season_months_permutation mapped mapped' c s y Hmapped).
    f_equal. f_equal. f_equal. apply map_ext. intros m.
    now apply rain_permutation. }
  rewrite (map_ext _ _ Hsame). apply Permutation_map.
  apply NoDup_Permutation;
    [now apply (season_rows_NoDup records) | now apply (season_rows_NoDup records') |].
  intros [[c s] y].
  rewrite (season_rows_In records rows Hn Hall Hrows).
  rewrite (season_rows_In records' rows' Hn' Hall' Hrows').
  assert (forall lines lines' records records',
            Permutation lines lines' ->
            Precipitation.stage1 lines = Some records ->
            Precipitation.stage1 lines' = Some records' ->
            (exists m result,
               In (month_key c y m, Json result) records
               /\ PyStr.contains PyStr.underscore c = false
               /\ 1 <= y <= 9999 /\ 1 <= m <= 12 /\ Precipitation.get_season m = s) ->
            exists m result,
              In (month_key c y m, Json result) records'
              /\ PyStr.contains PyStr.underscore c = false
              /\ 1 <= y <= 9999 /\ 1 <= m <= 12 /\ Precipitation.get_season m = s)
    as Hmove.
  { intros ls ls' rs rs' Hp Hs1 Hs1' (m & result & Hin & Hrest).
    destruct (precipitation_record_days ls rs _ _ Hs1 Hin) as (Hk & Hmk & _).
    apply (Permutation_in _ (Permutation_map fst (Permutation_flat_map _ Hp))) in Hmk.
    apply in_map_iff in Hmk as [[k v] [E Hkv]]. simpl in E. subst k.
    destruct (StageOneFacts.precipitation_stage1_key ls' _ v Hkv Hk)
      as (rs'' & result' & Hs1'' & Hin').
    rewrite Hs1' in Hs1''. inversion Hs1''; subst rs''.
    now exists m, result'. }
  split.
  - apply (Hmove lines lines' records records'); assumption.
  - apply (Hmove lines' lines records' records); [now symmetry | assumption | assumption].
Qed.

(** The theorem on a rainy and a dry day of Cali and a day of Bogota, and
    the same lines backwards. *)
Lemma precipitation_result_order_free_witness :
  let lines := ["2023-06-02,30.0,20.5,25.5,5.0,10.0,3600.0,Cali";
                "2023-05-02,18.0,9.5,14.0,0.0,10.0,3600.0,Bogota";
                "2023-07-03,31.0,21.5,26.0,0.0,10.0,3600.0,Cali"] in
  exists rows rows',
    Precipitation.run lines = Some rows
    /\ Precipitation.run (rev lines) = Some rows'
    /\ Permutation (map Spec.seasonal_counts rows) (map Spec.seasonal_counts rows').
Proof.
  cbv zeta. apply precipitation_result_order_free. apply Permutation_rev.
Defined.

(** ** One city at a time *)

(** The lines of a city: those whose eighth field is its name. *)
Definition of_city (c : string) (line : string) : bool :=
  match Csv.row line with
  | Some row => String.eqb (nth 7 row "") c
  | None => false
  end.

(** The keys under which the selected inputs emit. *)
Definition selected_keys {I V} (mapper : I -> list (string * V)) (q : I -> bool)
    (input : list I) (k : string) : bool :=
  existsb (String.eqb k) (map fst (flat_map mapper (filter q input))).

(** The first part of a key. *)
Definition key_head (c : string) (k : string) : bool :=
  String.eqb (hd "" (PyStr.split PyStr.underscore k)) c.

Lemma key_head_clean c c' rest :
  PyStr.contains PyStr.underscore c' = false ->
  key_head c (c' ++ String PyStr.underscore rest) = String.eqb c' c.
Proof.
  intros Hc. unfold key_head. now rewrite StrFacts.split_app.
Qed.

Lemma filter_filter_all {A} (f g : A -> bool) (b : bool) l :
  (forall a, In a l -> f a = true -> g a = b) ->
  filter g (filter f l) = if b then filter f l else [].
Proof.
  induction l as [| a l IH]; intros H; simpl; [now destruct b |].
  destruct (f a) eqn:Ef; simpl.
  - rewrite (H a (or_introl eq_refl) Ef), IH by (intros; apply H; [now right | assumption]).
    now destruct b.
  - apply IH. intros; apply H; [now right | assumption].
Qed.

(** Selecting inputs selects the records of their keys, when no key is
    shared between a selected input and another one. *)
Lemma good_restrict {I V} (mapper : I -> list (string * V)) (q : I -> bool)
    (p : string -> bool) input :
  (forall x kv, In x input -> In kv (mapper x) ->
                ShuffleFacts.not_error (fst kv) = true -> p (fst kv) = q x) ->
  filter (fun kv => ShuffleFacts.not_error (fst kv)) (flat_map mapper (filter q input))
  = filter (fun kv => p (fst kv))
      (filter (fun kv => ShuffleFacts.not_error (fst kv)) (flat_map mapper input)).
Proof.
  induction input as [| x input IH]; intros H; [reflexivity |].
  cbn [filter flat_map]. rewrite !filter_app.
  rewrite (filter_filter_all _ (fun kv => p (fst kv)) (q x) (mapper x))
    by (intros kv Hkv Hne; apply (H x kv); [now left | assumption | assumption]).
  rewrite <- IH by (intros x' kv Hx'; apply H; now right).
  destruct (q x); [| reflexivity].
  cbn [flat_map]. now rewrite filter_app.
Qed.

Lemma reduce_all_restrict {V O} (reducer : string -> list V -> option (list O))
    (p : string -> bool) (r : O -> bool) :
  forall groups out,
  (forall k vs o, In (k, vs) groups ->
                  In o (GroupingFacts.emitted reducer (k, vs)) -> r o = p k) ->
  reduce_all reducer groups = Some out ->
  reduce_all reducer (filter (fun g => p (fst g)) groups) = Some (filter r out).
Proof.
  induction groups as [| [k vs] groups IH]; intros out H Hout; simpl in *.
  - now inversion Hout.
  - destruct (reducer k vs) as [o |] eqn:Eo; simpl in Hout; [| discriminate].
    destruct (reduce_all reducer groups) as [os |] eqn:Eos; simpl in Hout;
      [| discriminate].
    inversion Hout; subst out. rewrite filter_app.
    assert (forall x, In x o -> r x = p k) as Ho.
    { intros x Hx. apply (H k vs); [now left |].
      unfold GroupingFacts.emitted. simpl. now rewrite Eo. }
    specialize (IH os (fun k' vs' o' Hg => H k' vs' o' (or_intror Hg)) eq_refl).
    destruct (p k) eqn:Ep; simpl.
    + rewrite Eo, IH. simpl. now rewrite (ShuffleFacts.filter_all r o Ho).
    + rewrite IH. f_equal.
      assert (filter r o = []) as ->; [| reflexivity].
      clear - Ho. induction o as [| x o IHo]; [reflexivity |]. simpl.
      rewrite (Ho x (or_introl eq_refl)). apply IHo. intros; apply Ho; now right.
Qed.

(** A step on a selection of its inputs gives a selection of its
    outputs. *)
Lemma step_restrict {I V O} (mapper : I -> list (string * V))
    (reducer : string -> list V -> option (list O))
    (q : I -> bool) (p : string -> bool) (r : O -> bool) input out :
  (forall vs, reducer ERROR vs = Some []) ->
  (forall x kv, In x input -> In kv (mapper x) ->
                ShuffleFacts.not_error (fst kv) = true -> p (fst kv) = q x) ->
  (forall k vs o,
     In (k, vs) (shuffle (filter (fun kv => ShuffleFacts.not_error (fst kv))
                            (flat_map mapper input))) ->
     In o (GroupingFacts.emitted reducer (k, vs)) -> r o = p k) ->
  step mapper reducer input = Some out ->
  step mapper reducer (filter q input) = Some (filter r out).
Proof.
  intros Herr Hkeys Hout H.
  rewrite ShuffleFacts.step_without_errors in * by assumption.
  rewrite (good_restrict mapper q p input Hkeys).
  rewrite (ShuffleFacts.shuffle_filter p).
  now apply reduce_all_restrict.
Qed.

(** A record that a parser emits under another key than the error key
    comes from a line that it could read. *)
Lemma mapper_parse_data_accepts line k v :
  In (k, v) (Temperature.mapper_parse_data line) -> k <> ERROR ->
  exists row y m d,
    Csv.row line = Some row
    /\ PyDate.strptime (nth 0 row "") = Some (y, m, d)
    /\ k = month_key (nth 7 row "") y m.
Proof.
  unfold Temperature.mapper_parse_data.
  destruct (PyStr.startswith "time,temperature" line); [intros [] |].
  destruct (Csv.row line) as [row |]; simpl;
    [| intros [H | []] Hk; inversion H; subst; now destruct Hk].
  destruct (List.length row <? 8)%nat; [intros [] |].
  destruct (float_or_none (nth 1 row "")) as [[tmax |] |];
    destruct (float_or_none (nth 2 row "")) as [[tmin |] |];
    destruct (float_or_none (nth 3 row "")) as [[tmean |] |];
    simpl; try (intros [H | []] Hk; inversion H; subst; now destruct Hk);
    try (intros []).
  destruct (PyDate.strptime (nth 0 row "")) as [[[y m] d] |] eqn:Edate; simpl;
    [| intros [H | []] Hk; inversion H; subst; now destruct Hk].
  intros [H | []] _. inversion H; subst. now exists row, y, m, d.
Qed.

Lemma mapper_parse_precipitation_accepts line k v :
  In (k, v) (Precipitation.mapper_parse_precipitation line) -> k <> ERROR ->
  exists row y m d,
    Csv.row line = Some row
    /\ PyDate.strptime (nth 0 row "") = Some (y, m, d)
    /\ k = month_key (nth 7 row "") y m.
Proof.
  unfold Precipitation.mapper_parse_precipitation.
  destruct (PyStr.startswith "time,temperature" line); [intros [] |].
  destruct (Csv.row line) as [row |]; simpl;
    [| intros [H | []] Hk; inversion H; subst; now destruct Hk].
  destruct (List.length row <? 8)%nat; [intros [] |].
  destruct (match nth 4 row "" with
            | "" => Some PyFloat.zero
            | String _ _ => PyFloat.of_str (nth 4 row "")
            end) as [x |] eqn:Ex.
  - assert (match nth 4 row "" with
            | "" => Some PyFloat.zero
            | String a f => PyFloat.of_str (String a f)
            end = Some x) as -> by (destruct (nth 4 row ""); exact Ex).
    destruct (PyDate.strptime (nth 0 row "")) as [[[y m] d] |] eqn:Edate; simpl;
      [| intros [H | []] Hk; inversion H; subst; now destruct Hk].
    intros [H | []] _. inversion H; subst. now exists row, y, m, d.
  - assert (match nth 4 row "" with
            | "" => Some PyFloat.zero
            | String a f => PyFloat.of_str (String a f)
            end = None) as -> by (destruct (nth 4 row ""); exact Ex).
    simpl. intros [H | []] Hk; inversion H; subst; now destruct Hk.
Qed.

(** A key of the first step belongs to the lines of one city. *)
Lemma city_keys {V} (mapper : string -> list (string * wire V)) lines c x k v :
  (forall line k v,
     In (k, v) (mapper line) -> k <> ERROR ->
     exists row y m d,
       Csv.row line = Some row
       /\ PyDate.strptime (nth 0 row "") = Some (y, m, d)
       /\ k = month_key (nth 7 row "") y m) ->
  In x lines -> In (k, v) (mapper x) -> k <> ERROR ->
  exists row y m d,
    Csv.row x = Some row
    /\ PyDate.strptime (nth 0 row "") = Some (y, m, d)
    /\ k = month_key (nth 7 row "") y m
    /\ selected_keys mapper (of_city c) lines k = String.eqb (nth 7 row "") c
    /\ of_city c x = String.eqb (nth 7 row "") c.
Proof.
  intros Haccepts Hx Hkv Hk.
  destruct (Haccepts x k v Hkv Hk) as (row & y & m & d & Hrow & Hdate & ->).
  exists row, y, m, d. repeat (split; [assumption || reflexivity |]).
  assert (of_city c x = String.eqb (nth 7 row "") c) as Hcity
      by (unfold of_city; now rewrite Hrow).
  split; [| assumption].
  destruct (String.eqb (nth 7 row "") c) eqn:E.
  - apply existsb_exists. exists (month_key (nth 7 row "") y m).
    split; [| apply String.eqb_refl].
    apply in_map_iff. eexists. split; [| apply in_flat_map; exists x; split;
                                         [apply filter_In; split; eassumption
                                         | exact Hkv]].
    reflexivity.
  - destruct (selected_keys mapper (of_city c) lines (month_key (nth 7 row "") y m))
      eqn:S; [exfalso | reflexivity].
    apply existsb_exists in S as (k' & Hk' & E'). apply String.eqb_eq in E'. subst k'.
    apply in_map_iff in Hk' as [[k' v'] [E' Hkv']]. simpl in E'. subst k'.
    apply in_flat_map in Hkv' as [x' [Hx' Hkv']].
    apply filter_In in Hx' as [_ Hcity'].
    destruct (Haccepts x' _ v' Hkv' Hk) as (row' & y' & m' & d' & Hrow' & Hdate' & Hkey).
    unfold of_city in Hcity'. rewrite Hrow' in Hcity'.
    apply String.eqb_eq in Hcity'.
    apply ParserFacts.strptime_valid in Hdate as [Hy Hm].
    apply ParserFacts.strptime_valid in Hdate' as [Hy' Hm'].
    apply KeyFacts.month_key_inj in Hkey as (Hc & _); [| lia | lia | lia | lia].
    rewrite Hc, Hcity', String.eqb_refl in E. discriminate E.
Qed.

Lemma emitted_key {V X} (reducer : string -> list V -> option (list (string * X))) :
  (forall k vs out, reducer k vs = Some out -> out = [] \/ exists x, out = [(k, x)]) ->
  forall k vs o, In o (GroupingFacts.emitted reducer (k, vs)) -> fst o = k.
Proof.
  intros Hone k vs o. unfold GroupingFacts.emitted. simpl.
  destruct (reducer k vs) as [out |] eqn:E; [| intros []].
  destruct (Hone k vs out E) as [-> | [x ->]]; [intros [] |].
  intros [<- | []]. reflexivity.
Qed.

(** When both steps group in the order of emission, the lines of the
    result of the temperature job that name a city are those that the job
    gives on the input lines of that city alone. *)
Lemma temperature_city_rows lines c :
  exists rows rows_c,
    Temperature.run lines = Some rows
    /\ Temperature.run (filter (of_city c) lines) = Some rows_c
    /\ rows_c = filter (fun row => String.eqb (Temperature.col_city row) c) rows.
Proof.
  destruct (temperature_pipeline lines) as (records & rows & H1 & Hrun & Hn & Hall & _).
  exists rows. eexists. split; [assumption |]. split; [| reflexivity].
  unfold Temperature.run in *. rewrite H1 in Hrun.
  set (p1 := selected_keys Temperature.mapper_parse_data (of_city c) lines).
  assert (forall x kv, In x lines -> In kv (Temperature.mapper_parse_data x) ->
            ShuffleFacts.not_error (fst kv) = true -> p1 (fst kv) = of_city c x) as Hkeys.
  { intros x [k v] Hx Hkv Hne. simpl in *.
    apply negb_true_iff, String.eqb_neq in Hne.
    destruct (city_keys Temperature.mapper_parse_data lines c x k v
                mapper_parse_data_accepts Hx Hkv Hne)
      as (row & y & m & d & _ & _ & _ & Hs & Hc).
    unfold p1. now rewrite Hs, Hc. }
  unfold Temperature.stage1 in *.
  rewrite (step_restrict _ _ (of_city c) p1 (fun kv => p1 (fst kv)) lines records
             (fun _ => eq_refl) Hkeys); [| | exact H1].
  2:{ intros k vs o _ Ho. f_equal.
      now apply (emitted_key _ StageOneFacts.reducer_aggregate_temps_one k vs). }
  unfold Temperature.stage2 in *.
  apply (step_restrict _ _ (fun kv => p1 (fst kv)) (key_head c)); [reflexivity | | | exact Hrun].
  - intros [k v] [k2 v2] Hkv Hkv2 Hne. simpl in *.
    rewrite Forall_forall in Hall.
    destruct (Hall (k, v) Hkv) as (c' & y & m & stats & Hk & Hy & Hm & Hv & _).
    simpl in *. subst k v.
    apply negb_true_iff, String.eqb_neq in Hne.
    destruct (PyStr.contains PyStr.underscore c') eqn:Hc'.
    { rewrite mapper_format_output_dirty in Hkv2 by assumption.
      destruct Hkv2 as [E | []]. inversion E; subst. now destruct Hne. }
    rewrite mapper_format_output_clean in Hkv2
      by (assumption || lia || (apply StrFacts.printable_small; lia)).
    destruct (PyDate.month_name y m) as [name |]; destruct Hkv2 as [E | []];
      inversion E; subst; [| now destruct Hne].
    change (c' ++ "_" ++ PyStr.str_of_int y)%string
      with (c' ++ String PyStr.underscore (PyStr.str_of_int y))%string.
    rewrite key_head_clean by assumption.
    destruct (temperature_record_days lines records _ _ H1 Hkv) as (Hk & Hin & _).
    apply in_map_iff in Hin as [[k v] [E' Hin]]. simpl in E'. subst k.
    apply in_flat_map in Hin as [x [Hx Hin]].
    destruct (city_keys Temperature.mapper_parse_data lines c x _ v
                mapper_parse_data_accepts Hx Hin Hk)
      as (row & y' & m' & d & _ & Hdate & Hkey & Hs & _).
    unfold p1. rewrite Hs.
    apply ParserFacts.strptime_valid in Hdate as [Hy' Hm'].
    apply KeyFacts.month_key_inj in Hkey as (-> & _); [reflexivity | lia | lia | lia | lia].
  - intros k2 vs row Hg Hrow.
    rewrite (ShuffleFacts.shuffle_filter ShuffleFacts.not_error) in Hg.
    apply filter_In in Hg as [Hg Hk2]. simpl in Hk2.
    apply negb_true_iff in Hk2.
    unfold GroupingFacts.emitted, Temperature.reducer_final_output in Hrow.
    simpl in Hrow. rewrite Hk2 in Hrow. apply String.eqb_neq in Hk2.
    destruct (StageTwoFacts.temperature_group2 records k2 vs Hn Hall Hg Hk2)
      as (_ & c2 & y & -> & Hc2 & Hsame).
    apply in_map_iff in Hrow as [o [<- Ho]].
    rewrite StageTwoFacts.sort_by_month_In in Ho.
    destruct (Hsame o Ho) as (Hcity & _). simpl. rewrite Hcity.
    change (c2 ++ "_" ++ PyStr.str_of_int y)%string
      with (c2 ++ String PyStr.underscore (PyStr.str_of_int y))%string.
    now rewrite key_head_clean.
Qed.

(** The same for the precipitation job. *)
Lemma precipitation_city_rows lines c :
  exists rows rows_c,
    Precipitation.run lines = Some rows
    /\ Precipitation.run (filter (of_city c) lines) = Some rows_c
    /\ rows_c = filter (fun row => String.eqb (Precipitation.col_city row) c) rows.
Proof.
  destruct (precipitation_pipeline lines)
    as (records & rows & H1 & Hrun & H2 & Hn & Hall & _).
  exists rows. eexists. split; [assumption |]. split; [| reflexivity].
  unfold Precipitation.run. clear Hrun.
  set (p1 := selected_keys Precipitation.mapper_parse_precipitation (of_city c) lines).
  assert (forall x kv, In x lines -> In kv (Precipitation.mapper_parse_precipitation x) ->
            ShuffleFacts.not_error (fst kv) = true -> p1 (fst kv) = of_city c x) as Hkeys.
  { intros x [k v] Hx Hkv Hne. simpl in *.
    apply negb_true_iff, String.eqb_neq in Hne.
    destruct (city_keys Precipitation.mapper_parse_precipitation lines c x k v
                mapper_parse_precipitation_accepts Hx Hkv Hne)
      as (row & y & m & d & _ & _ & _ & Hs & Hc).
    unfold p1. now rewrite Hs, Hc. }
  pose proof H1 as H1'. unfold Precipitation.stage1 in H1' |- *.
  rewrite (step_restrict _ _ (of_city c) p1 (fun kv => p1 (fst kv)) lines records
             (fun _ => eq_refl) Hkeys); [| | exact H1'].
  2:{ intros k vs o _ Ho. f_equal.
      now apply (emitted_key _ StageOneFacts.reducer_monthly_totals_one k vs). }
  unfold Precipitation.stage2 in *.
  apply (step_restrict _ _ (fun kv => p1 (fst kv)) (key_head c)); [reflexivity | | | exact H2].
  - intros [k v] [k2 v2] Hkv Hkv2 Hne. simpl in *.
    pose proof Hall as Hall'. rewrite Forall_forall in Hall'.
    destruct (Hall' (k, v) Hkv) as (c' & y & m & result & Hk & Hy & Hm & Hv & _).
    simpl in *. subst k v.
    apply negb_true_iff, String.eqb_neq in Hne.
    destruct (PyStr.contains PyStr.underscore c') eqn:Hc'.
    { rewrite mapper_add_season_dirty in Hkv2 by assumption.
      destruct Hkv2 as [E | []]. inversion E; subst. now destruct Hne. }
    rewrite mapper_add_season_clean in Hkv2
      by (assumption || lia || (apply StrFacts.printable_small; lia)).
    destruct Hkv2 as [E | []]. inversion E; subst. unfold season_key. simpl.
    change (c' ++ "_" ++ ?rest)%string with (c' ++ String PyStr.underscore rest)%string.
    rewrite key_head_clean by assumption.
    destruct (precipitation_record_days lines records _ _ H1 Hkv) as (Hk & Hin & _).
    apply in_map_iff in Hin as [[k v] [E' Hin]]. simpl in E'. subst k.
    apply in_flat_map in Hin as [x [Hx Hin]].
    destruct (city_keys Precipitation.mapper_parse_precipitation lines c x _ v
                mapper_parse_precipitation_accepts Hx Hin Hk)
      as (row & y' & m' & d & _ & Hdate & Hkey & Hs & _).
    unfold p1. rewrite Hs.
    apply ParserFacts.strptime_valid in Hdate as [Hy' Hm'].
    apply KeyFacts.month_key_inj in Hkey as (-> & _); [reflexivity | lia | lia | lia | lia].
  - intros k2 vs row Hg Hrow.
    destruct (precipitation_group_line records k2 vs Hn Hall Hg)
      as (e0 & es & line & _ & Hline & (Hcity & _) & Hk2 & _ & _ & Hes).
    rewrite Hline in Hrow. destruct Hrow as [<- | []].
    destruct (Hes e0 (or_introl eq_refl)) as (_ & _ & _ & Hclean & _).
    rewrite Hcity, Hk2. unfold season_key.
    change (Precipitation.city e0 ++ "_" ++ ?rest)%string
      with (Precipitation.city e0 ++ String PyStr.underscore rest)%string.
    now rewrite key_head_clean.
Qed.

(** ** Whatever the groupings *)

(** What the steps of the temperature job keep of their values when the
    floats are left out: the count of a day, the day count of a month,
    the columns of a line that hold no float. *)
Definition day_count (v : wire Temperature.day_value) : option Z :=
  option_map Temperature.count (json_loads v).

Definition month_days (kv : string * wire Temperature.month_stats) : string * option Z :=
  (fst kv, option_map Temperature.total_days (json_loads (snd kv))).

Definition reduced_days (k : string) (t : list (option Z)) : list (string * option Z) :=
  if String.eqb k ERROR then []
  else match InvarianceFacts.somes t with
       | [] => []
       | _ :: _ => [(k, Some (Spec.total (InvarianceFacts.somes t)))]
       end.

Definition output_counts (v : wire Temperature.month_output) :=
  option_map (fun o => line_counts (Temperature.format_line o)) (json_loads v).

Definition reduced_lines (k : string)
    (t : list (option (string * Z * Z * string * Z))) :=
  if String.eqb k ERROR then [] else InvarianceFacts.somes t.

Lemma reducer_aggregate_temps_days k vs out :
  Temperature.reducer_aggregate_temps k vs = Some out ->
  Permutation (map month_days out) (reduced_days k (map day_count vs)).
Proof.
  unfold reduced_days. destruct (String.eqb k ERROR) eqn:Ek.
  - unfold Temperature.reducer_aggregate_temps. rewrite Ek.
    intros H. inversion H. constructor.
  - apply String.eqb_neq in Ek.
    rewrite OrderFacts.reducer_aggregate_temps_closed by assumption.
    unfold day_count. rewrite InvarianceFacts.somes_loaded.
    destruct (Temperature.loaded vs) as [| d ds]; [intros H; inversion H; constructor |].
    destruct (PyFloat.max _); [| discriminate].
    destruct (PyFloat.min _); [| discriminate].
    intros H. inversion H. reflexivity.
Qed.

Lemma reduced_days_permutation k t t' :
  Permutation t t' -> Permutation (reduced_days k t) (reduced_days k t').
Proof.
  intros H. apply InvarianceFacts.somes_permutation in H.
  unfold reduced_days. destruct (String.eqb k ERROR); [constructor |].
  rewrite (OrderFacts.total_permutation _ _ H).
  destruct (InvarianceFacts.somes t) as [| a r].
  - apply Permutation_nil in H. rewrite H. constructor.
  - destruct (InvarianceFacts.somes t') as [| a' r'];
      [symmetry in H; apply Permutation_nil in H; discriminate H | reflexivity].
Qed.

Lemma reducer_final_output_counts k vs out :
  Temperature.reducer_final_output k vs = Some out ->
  Permutation (map line_counts out) (reduced_lines k (map output_counts vs)).
Proof.
  unfold reduced_lines, Temperature.reducer_final_output.
  destruct (String.eqb k ERROR); intros H; inversion H; [constructor |].
  unfold output_counts. rewrite InvarianceFacts.somes_loaded.
  rewrite map_map. apply Permutation_map, sort_by_month_permutation.
Qed.

Lemma reduced_lines_permutation k t t' :
  Permutation t t' -> Permutation (reduced_lines k t) (reduced_lines k t').
Proof.
  intros H. unfold reduced_lines. destruct (String.eqb k ERROR); [constructor |].
  now apply InvarianceFacts.somes_permutation.
Qed.

(** The second mapper reads nothing of the floats of a month. *)
Lemma mapper_format_output_counts a b :
  month_days a = month_days b ->
  InvarianceFacts.tagged output_counts (Temperature.mapper_format_output (fst a) (snd a))
  = InvarianceFacts.tagged output_counts (Temperature.mapper_format_output (fst b) (snd b)).
Proof.
  destruct a as [k v], b as [k' v']. unfold month_days. simpl.
  intros E. inversion E as [[Ek Ev]]. clear E.
  unfold Temperature.mapper_format_output.
  destruct (String.eqb k' ERROR); [reflexivity |].
  destruct v as [s | msg], v' as [s' | msg']; simpl in *; try discriminate;
    [| reflexivity].
  inversion Ev as [Ed].
  destruct (unpack3 (PyStr.split PyStr.underscore k')) as [[[c y] m] |];
    [| reflexivity]; simpl.
  destruct (PyStr.int_of_str y) as [yn |]; [| reflexivity]; simpl.
  destruct (PyStr.int_of_str m) as [mn |]; [| reflexivity]; simpl.
  destruct (PyDate.month_name yn mn) as [name |]; [| reflexivity]; simpl.
  unfold InvarianceFacts.tagged, output_counts, line_counts. simpl. now rewrite Ed.
Qed.

(** Whatever the groupings of its two steps, the temperature job gives
    the same lines up to their order and their floats. *)
Lemma temperature_outcome_counts lines rows rows' :
  Temperature.outcome lines (Some rows) -> Temperature.outcome lines (Some rows') ->
  Permutation (map line_counts rows) (map line_counts rows').
Proof.
  intros (first & H1 & H2) (first' & H1' & H2').
  destruct first as [records |]; [| discriminate].
  destruct first' as [records' |]; [| discriminate].
  assert (forall records0,
            MRJob.outcome Temperature.mapper_parse_data
              Temperature.reducer_aggregate_temps lines (Some records0) ->
            Permutation (map month_days records0)
              (InvarianceFacts.abstract reduced_days
                 (InvarianceFacts.tagged day_count
                    (flat_map Temperature.mapper_parse_data lines)))) as Hfirst.
  { intros records0.
    apply (InvarianceFacts.outcome_abstract _ _ day_count month_days reduced_days
             (fun _ _ => True)); auto.
    - intros k t t' _. apply reduced_days_permutation.
    - intros k vs out _. apply reducer_aggregate_temps_days. }
  assert (Permutation (map month_days records) (map month_days records')) as Hrecords.
  { rewrite (Hfirst records H1). symmetry. now apply Hfirst. }
  assert (forall records0 rows0,
            MRJob.outcome (fun kv => Temperature.mapper_format_output (fst kv) (snd kv))
              Temperature.reducer_final_output records0 (Some rows0) ->
            Permutation (map line_counts rows0)
              (InvarianceFacts.abstract reduced_lines
                 (InvarianceFacts.tagged output_counts
                    (flat_map (fun kv => Temperature.mapper_format_output (fst kv) (snd kv))
                       records0)))) as Hsecond.
  { intros records0 rows0.
    apply (InvarianceFacts.outcome_abstract _ _ output_counts line_counts reduced_lines
             (fun _ _ => True)); auto.
    - intros k t t' _. apply reduced_lines_permutation.
    - intros k vs out _. apply reducer_final_output_counts. }
  rewrite (Hsecond records rows H2), (Hsecond records' rows' H2').
  apply (InvarianceFacts.abstract_permutation reduced_lines (fun _ _ => True)); auto.
  - intros k t t' _. apply reduced_lines_permutation.
  - unfold InvarianceFacts.tagged. rewrite !map_flat_map.
    apply (InvarianceFacts.flat_map_through month_days); [| exact Hrecords].
    intros a b. apply mapper_format_output_counts.
Qed.

(** The same for the precipitation job: whether a day had rain, the
    rainy days of a month, and city, year, season and rainy days of a
    month of a season. *)
Definition has_rain (v : wire PyFloat.float) : option bool :=
  option_map (fun x => PyFloat.gt x PyFloat.zero) (json_loads v).

Definition month_rain (kv : string * wire Precipitation.month_result) : string * option Z :=
  (fst kv, option_map Precipitation.days_with_rain (json_loads (snd kv))).

Definition reduced_rain (k : string) (t : list (option bool)) : list (string * option Z) :=
  if String.eqb k ERROR then []
  else [(k, Some (Z.of_nat (List.length (filter (fun b => b) (InvarianceFacts.somes t)))))].

Definition season_tag (v : wire Precipitation.enhanced) : option (string * Z * string * Z) :=
  option_map (fun e => (Precipitation.city e, Precipitation.year e, Precipitation.season e,
                        Precipitation.days_with_rain (Precipitation.data e)))
    (json_loads v).

Definition reduced_season (k : string) (t : list (option (string * Z * string * Z)))
    : list (string * Z * string * Z * Z) :=
  if String.eqb k ERROR then []
  else match InvarianceFacts.somes t with
       | [] => []
       | first :: _ =>
           [(fst first, Spec.total (map snd (InvarianceFacts.somes t)),
             Z.of_nat (List.length (InvarianceFacts.somes t)))]
       end.

(** The months of a group of the second step are of one city, one year
    and one season. *)
Definition one_season (k : string) (t : list (option (string * Z * string * Z))) : Prop :=
  forall a b, In a (InvarianceFacts.somes t) -> In b (InvarianceFacts.somes t) ->
    fst a = fst b.

Lemma filter_map_length {A} (f : A -> bool) l :
  List.length (filter (fun b => b) (map f l)) = List.length (filter f l).
Proof.
  induction l as [| a l IH]; simpl; [reflexivity |].
  destruct (f a); simpl; now rewrite IH.
Qed.

Lemma reducer_monthly_totals_rain k vs out :
  Precipitation.reducer_monthly_totals k vs = Some out ->
  Permutation (map month_rain out) (reduced_rain k (map has_rain vs)).
Proof.
  unfold reduced_rain. destruct (String.eqb k ERROR) eqn:Ek.
  - unfold Precipitation.reducer_monthly_totals. rewrite Ek.
    intros H. inversion H. constructor.
  - apply String.eqb_neq in Ek.
    rewrite OrderFacts.reducer_monthly_totals_closed by assumption.
    destruct (Precipitation.numbers vs) as [xs |] eqn:En; [| discriminate].
    apply OrderFacts.numbers_spec in En. subst vs.
    destruct (match xs with [] => Some PyFloat.zero | _ :: _ => PyFloat.max xs end);
      [| discriminate].
    intros H. inversion H. simpl.
    unfold has_rain. rewrite InvarianceFacts.somes_loaded, AggregatorFacts.loaded_json.
    rewrite filter_map_length. reflexivity.
Qed.

Lemma reduced_rain_permutation k t t' :
  Permutation t t' -> Permutation (reduced_rain k t) (reduced_rain k t').
Proof.
  intros H. apply InvarianceFacts.somes_permutation in H.
  unfold reduced_rain. destruct (String.eqb k ERROR); [constructor |].
  rewrite (Permutation_length (ScheduleFacts.permutation_filter (fun b => b) _ _ H)).
  reflexivity.
Qed.

Lemma reducer_seasonal_analysis_counts k vs out :
  Precipitation.reducer_seasonal_analysis k vs = Some out ->
  Permutation (map Spec.seasonal_counts out) (reduced_season k (map season_tag vs)).
Proof.
  unfold reduced_season. destruct (String.eqb k ERROR) eqn:Ek.
  - unfold Precipitation.reducer_seasonal_analysis. rewrite Ek.
    intros H. inversion H. constructor.
  - apply String.eqb_neq in Ek.
    rewrite OrderFacts.reducer_seasonal_analysis_closed by assumption.
    unfold season_tag. rewrite InvarianceFacts.somes_loaded.
    destruct (Temperature.loaded vs) as [| d ds]; [intros H; inversion H; constructor |].
    destruct (PyFloat.max _); [| discriminate].
    intros H. inversion H.
    rewrite map_map, length_map. reflexivity.
Qed.

Lemma one_season_permutation k t t' :
  Permutation t t' -> one_season k t -> one_season k t'.
Proof.
  intros H Hs a b Ha Hb.
  apply InvarianceFacts.somes_permutation in H. symmetry in H.
  apply Hs; now apply (Permutation_in _ H).
Qed.

Lemma reduced_season_permutation k t t' :
  one_season k t -> Permutation t t' ->
  Permutation (reduced_season k t) (reduced_season k t').
Proof.
  intros Hs H. apply InvarianceFacts.somes_permutation in H.
  unfold one_season in Hs. unfold reduced_season.
  destruct (String.eqb k ERROR); [constructor |].
  rewrite (OrderFacts.total_permutation _ _ (Permutation_map snd H)).
  rewrite (Permutation_length H).
  destruct (InvarianceFacts.somes t) as [| a r].
  - apply Permutation_nil in H. rewrite H. constructor.
  - destruct (InvarianceFacts.somes t') as [| a' r'];
      [symmetry in H; apply Permutation_nil in H; discriminate H |].
    rewrite (Hs a a'); [reflexivity | now left |].
    symmetry in H. apply (Permutation_in _ H). now left.
Qed.

(** The key of a month of a season names its city, its season and its
    year. *)
Lemma mapper_add_season_key k v k2 e :
  In (k2, Json e) (Precipitation.mapper_add_season k v) ->
  exists year,
    k2 = (Precipitation.city e ++ String PyStr.underscore
            (Precipitation.season e ++ String PyStr.underscore year))%string
    /\ PyStr.contains PyStr.underscore (Precipitation.city e) = false
    /\ PyStr.contains PyStr.underscore year = false
    /\ PyStr.int_of_str year = Some (Precipitation.year e).
Proof.
  unfold Precipitation.mapper_add_season.
  destruct (String.eqb k ERROR); [intros [] |].
  assert (forall A (x : string * wire A) msg,
            In x [(ERROR, Text msg)] -> forall k0 e0, x <> (k0, Json e0)) as Herr.
  { intros A x msg [<- | []] k0 e0. discriminate. }
  destruct (json_loads v) as [data |]; simpl;
    [| intros H; now destruct (Herr _ _ _ H k2 e)].
  pose proof (StrFacts.split_parts_clean PyStr.underscore k) as Hclean.
  destruct (PyStr.split PyStr.underscore k) as [| a [| b [| c [| d r]]]];
    simpl; try (intros H; now destruct (Herr _ _ _ H k2 e)).
  destruct (PyStr.int_of_str c) as [month_num |]; simpl;
    [| intros H; now destruct (Herr _ _ _ H k2 e)].
  destruct (PyStr.int_of_str b) as [y |] eqn:Ey; simpl;
    [| intros H; now destruct (Herr _ _ _ H k2 e)].
  intros [H | []]. inversion H. subst. simpl.
  inversion Hclean as [| ? ? Ha Hrest]. inversion Hrest as [| ? ? Hb _]. subst.
  exists b. repeat split; assumption.
Qed.

Lemma season_groups records k :
  one_season k
    (values_of k
       (InvarianceFacts.tagged season_tag
          (flat_map (fun kv => Precipitation.mapper_add_season (fst kv) (snd kv)) records))).
Proof.
  rewrite InvarianceFacts.values_of_tagged.
  unfold one_season, season_tag. rewrite InvarianceFacts.somes_loaded.
  assert (forall a,
            In a (map (fun e => (Precipitation.city e, Precipitation.year e,
                                 Precipitation.season e,
                                 Precipitation.days_with_rain (Precipitation.data e)))
                    (Temperature.loaded
                       (values_of k
                          (flat_map (fun kv => Precipitation.mapper_add_season
                                                 (fst kv) (snd kv)) records)))) ->
            exists e year,
              fst a = (Precipitation.city e, Precipitation.year e, Precipitation.season e)
              /\ k = (Precipitation.city e ++ String PyStr.underscore
                        (Precipitation.season e ++ String PyStr.underscore year))%string
              /\ PyStr.contains PyStr.underscore (Precipitation.city e) = false
              /\ PyStr.contains PyStr.underscore year = false
              /\ PyStr.int_of_str year = Some (Precipitation.year e)) as Hkey.
  { intros a Ha. apply in_map_iff in Ha as [e [<- He]].
    apply StageTwoFacts.loaded_In, ShuffleFacts.values_of_In in He.
    apply in_flat_map in He as [[k0 v0] [_ He]].
    apply mapper_add_season_key in He as (year & H).
    exists e, year. split; [reflexivity | exact H]. }
  intros a b Ha Hb.
  destruct (Hkey a Ha) as (e & year & -> & Hk & Hc & Hy & Hn).
  destruct (Hkey b Hb) as (e' & year' & -> & Hk' & Hc' & Hy' & Hn').
  rewrite Hk in Hk'.
  apply KeyFacts.append_first_sep in Hk' as [Ecity Erest]; try assumption.
  apply KeyFacts.append_last_sep in Erest as [Eseason Eyear]; try assumption.
  subst year'. rewrite Hn in Hn'. inversion Hn'. congruence.
Qed.

(** The second mapper reads nothing of the floats of a month. *)
Lemma mapper_add_season_counts a b :
  month_rain a = month_rain b ->
  InvarianceFacts.tagged season_tag (Precipitation.mapper_add_season (fst a) (snd a))
  = InvarianceFacts.tagged season_tag (Precipitation.mapper_add_season (fst b) (snd b)).
Proof.
  destruct a as [k v], b as [k' v']. unfold month_rain. simpl.
  intros E. inversion E as [[Ek Ev]]. clear E.
  unfold Precipitation.mapper_add_season.
  destruct (String.eqb k' ERROR); [reflexivity |].
  destruct v as [s | msg], v' as [s' | msg']; simpl in *; try discriminate;
    [| reflexivity].
  inversion Ev as [Ed].
  destruct (unpack3 (PyStr.split PyStr.underscore k')) as [[[c y] m] |];
    [| reflexivity]; simpl.
  destruct (PyStr.int_of_str m) as [mn |]; [| reflexivity]; simpl.
  destruct (PyStr.int_of_str y) as [yn |]; [| reflexivity]; simpl.
  unfold InvarianceFacts.tagged, season_tag. simpl. now rewrite Ed.
Qed.

(** Whatever the groupings of its two steps, the precipitation job gives
    the same lines up to their order and their floats. *)
Lemma precipitation_outcome_counts lines rows rows' :
  Precipitation.outcome lines (Some rows) -> Precipitation.outcome lines (Some rows') ->
  Permutation (map Spec.seasonal_counts rows) (map Spec.seasonal_counts rows').
Proof.
  intros (first & H1 & H2) (first' & H1' & H2').
  destruct first as [records |]; [| discriminate].
  destruct first' as [records' |]; [| discriminate].
  assert (forall records0,
            MRJob.outcome Precipitation.mapper_parse_precipitation
              Precipitation.reducer_monthly_totals lines (Some records0) ->
            Permutation (map month_rain records0)
              (InvarianceFacts.abstract reduced_rain
                 (InvarianceFacts.tagged has_rain
                    (flat_map Precipitation.mapper_parse_precipitation lines)))) as Hfirst.
  { intros records0.
    apply (InvarianceFacts.outcome_abstract _ _ has_rain month_rain reduced_rain
             (fun _ _ => True)); auto.
    - intros k t t' _. apply reduced_rain_permutation.
    - intros k vs out _. apply reducer_monthly_totals_rain. }
  assert (Permutation (map month_rain records) (map month_rain records')) as Hrecords.
  { rewrite (Hfirst records H1). symmetry. now apply Hfirst. }
  assert (forall records0 rows0,
            MRJob.outcome (fun kv => Precipitation.mapper_add_season (fst kv) (snd kv))
              Precipitation.reducer_seasonal_analysis records0 (Some rows0) ->
            Permutation (map Spec.seasonal_counts rows0)
              (InvarianceFacts.abstract reduced_season
                 (InvarianceFacts.tagged season_tag
                    (flat_map (fun kv => Precipitation.mapper_add_season (fst kv) (snd kv))
                       records0)))) as Hsecond.
  { intros records0 rows0.
    apply (InvarianceFacts.outcome_abstract _ _ season_tag Spec.seasonal_counts
             reduced_season one_season).
    - apply one_season_permutation.
    - apply reduced_season_permutation.
    - intros k vs out _. apply reducer_seasonal_analysis_counts.
    - apply season_groups. }
  rewrite (Hsecond records rows H2), (Hsecond records' rows' H2').
  apply (InvarianceFacts.abstract_permutation reduced_season one_season).
  - apply reduced_season_permutation.
  - apply season_groups.
  - unfold InvarianceFacts.tagged. rewrite !map_flat_map.
    apply (InvarianceFacts.flat_map_through month_rain); [| exact Hrecords].
    intros a b. apply mapper_add_season_counts.
Qed.

Lemma line_counts_filter c rows :
  map line_counts (filter (fun row => String.eqb (Temperature.col_city row) c) rows)
  = filter (fun q => String.eqb (fst (fst (fst (fst q)))) c) (map line_counts rows).
Proof.
  induction rows as [| row rows IH]; simpl; [reflexivity |].
  destruct (String.eqb (Temperature.col_city row) c); simpl; now rewrite IH.
Qed.

Lemma seasonal_counts_filter c rows :
  map Spec.seasonal_counts
    (filter (fun row => String.eqb (Precipitation.col_city row) c) rows)
  = filter (fun q => String.eqb (fst (fst (fst (fst q)))) c)
      (map Spec.seasonal_counts rows).
Proof.
  induction rows as [| row rows IH]; simpl; [reflexivity |].
  destruct (String.eqb (Precipitation.col_city row) c); simpl; now rewrite IH.
Qed.

(** X21. Whatever the groupings that MRJob chooses, the lines of the
    result of the temperature job that name a city are, up to their order
    and the columns that hold floats, those that the job gives on the
    input lines of that city alone: the same years, months, month names
    and day counts. The lines of another city add no month to a city,
    take none away and change no day count. *)
Theorem temperature_city_alone lines c result result_c :
  Temperature.outcome lines result ->
  Temperature.outcome (filter (of_city c) lines) result_c ->
  exists rows rows_c,
    result = Some rows /\ result_c = Some rows_c
    /\ Permutation (map line_counts rows_c)
         (map line_counts
            (filter (fun row => String.eqb (Temperature.col_city row) c) rows)).
Proof.
  intros H Hc.
  destruct result as [rows |];
    [| now destruct (ScheduleFacts.temperature_never_aborts _ _ H)].
  destruct result_c as [rows_c |];
    [| now destruct (ScheduleFacts.temperature_never_aborts _ _ Hc)].
  exists rows, rows_c. split; [reflexivity |]. split; [reflexivity |].
  destruct (temperature_city_rows lines c) as (rows0 & rows1 & Hr & Hrc & ->).
  pose proof (ScheduleFacts.temperature_run_outcome lines) as Ho. rewrite Hr in Ho.
  pose proof (ScheduleFacts.temperature_run_outcome (filter (of_city c) lines)) as Hoc.
  rewrite Hrc in Hoc.
  rewrite (temperature_outcome_counts _ _ _ Hc Hoc).
  rewrite !line_counts_filter.
  apply ScheduleFacts.permutation_filter.
  now apply (temperature_outcome_counts lines).
Qed.

(** The theorem on two days of Cali and one of Bogota, grouped in the
    order of emission. *)
Lemma temperature_city_alone_witness :
  let lines := ["2023-06-02,30.0,20.5,25.5,5.0,10.0,3600.0,Cali";
                "2023-05-02,18.0,9.5,14.0,0.0,10.0,3600.0,Bogota";
                "2023-06-03,31.0,21.5,26.0,5.0,10.0,3600.0,Cali"] in
  exists rows rows_c,
    Temperature.run lines = Some rows
    /\ Temperature.run (filter (of_city "Cali") lines) = Some rows_c
    /\ Permutation (map line_counts rows_c)
         (map line_counts
            (filter (fun row => String.eqb (Temperature.col_city row) "Cali") rows)).
Proof.
  cbv zeta.
  apply (temperature_city_alone
           ["2023-06-02,30.0,20.5,25.5,5.0,10.0,3600.0,Cali";
            "2023-05-02,18.0,9.5,14.0,0.0,10.0,3600.0,Bogota";
            "2023-06-03,31.0,21.5,26.0,5.0,10.0,3600.0,Cali"] "Cali");
    apply ScheduleFacts.temperature_run_outcome.
Defined.

(** X22. The same for the precipitation job: whatever the groupings, its
    lines for a city carry, up to their order and the columns that hold
    floats, the years, seasons, numbers of months and numbers of rainy
    days that it gives on the input lines of that city alone. *)
Theorem precipitation_city_alone lines c result result_c :
  Precipitation.outcome lines result ->
  Precipitation.outcome (filter (of_city c) lines) result_c ->
  exists rows rows_c,
    result = Some rows /\ result_c = Some rows_c
    /\ Permutation (map Spec.seasonal_counts rows_c)
         (map Spec.seasonal_counts
            (filter (fun row => String.eqb (Precipitation.col_city row) c) rows)).
Proof.
  intros H Hc.
  destruct result as [rows |];
    [| now destruct (ScheduleFacts.precipitation_never_aborts _ _ H)].
  destruct result_c as [rows_c |];
    [| now destruct (ScheduleFacts.precipitation_never_aborts _ _ Hc)].
  exists rows, rows_c. split; [reflexivity |]. split; [reflexivity |].
  destruct (precipitation_city_rows lines c) as (rows0 & rows1 & Hr & Hrc & ->).
  pose proof (ScheduleFacts.precipitation_run_outcome lines) as Ho. rewrite Hr in Ho.
  pose proof (ScheduleFacts.precipitation_run_outcome (filter (of_city c) lines)) as Hoc.
  rewrite Hrc in Hoc.
  rewrite (precipitation_outcome_counts _ _ _ Hc Hoc).
  rewrite !seasonal_counts_filter.
  apply ScheduleFacts.permutation_filter.
  now apply (precipitation_outcome_counts lines).
Qed.

(** The theorem on two days of Cali and one of Bogota, grouped in the
    order of emission. *)
Lemma precipitation_city_alone_witness :
  let lines := ["2023-06-02,30.0,20.5,25.5,5.0,10.0,3600.0,Cali";
                "2023-05-02,18.0,9.5,14.0,0.0,10.0,3600.0,Bogota";
                "2023-06-03,31.0,21.5,26.0,5.0,10.0,3600.0,Cali"] in
  exists rows rows_c,
    Precipitation.run lines = Some rows
    /\ Precipitation.run (filter (of_city "Cali") lines) = Some rows_c
    /\ Permutation (map Spec.seasonal_counts rows_c)
         (map Spec.seasonal_counts
            (filter (fun row => String.eqb (Precipitation.col_city row) "Cali") rows)).
Proof.
  cbv zeta.
  apply (precipitation_city_alone
           ["2023-06-02,30.0,20.5,25.5,5.0,10.0,3600.0,Cali";
            "2023-05-02,18.0,9.5,14.0,0.0,10.0,3600.0,Bogota";
            "2023-06-03,31.0,21.5,26.0,5.0,10.0,3600.0,Cali"] "Cali");
    apply ScheduleFacts.precipitation_run_outcome.
Defined.

End Properties.
